(** * enum4linux-ng: a shallow embedding of the enumeration engine

    The development follows [enum4linux-ng.py].  Python values that end up in
    the output dictionary are embedded in one type [value]; dictionaries keep
    their insertion order (they are association lists), as Python's [dict] and
    [OrderedDict] do.  External tools ([rpcclient], [smbclient], the LDAP and
    SAMR clients, the file system) are parameters of the sections that use
    them: every statement holds for all their behaviours. *)

From Stdlib Require Import String Ascii List ZArith Lia Bool Arith.
Import ListNotations.

Open Scope list_scope.
Open Scope string_scope.

Set Warnings "-register-all".

(** ** Python strings *)

Module PyStr.

(** The newline character, as a string. *)
Definition nl : string := String "010"%char EmptyString.

(** [needle in hay] for two strings. *)
Fixpoint contains (needle hay : string) : bool :=
  if String.prefix needle hay then true
  else match hay with
       | EmptyString => false
       | String _ hay' => contains needle hay'
       end.

(** [s.split(sep)] for a one-character separator. *)
Fixpoint split (sep : ascii) (s : string) : list string :=
  match s with
  | EmptyString => [EmptyString]
  | String c s' =>
      if Ascii.eqb c sep then EmptyString :: split sep s'
      else match split sep s' with
           | h :: t => String c h :: t
           | [] => [String c EmptyString]
           end
  end.

(** [c in s] for a character. *)
Fixpoint has_char (c : ascii) (s : string) : bool :=
  match s with
  | EmptyString => false
  | String c' s' => Ascii.eqb c' c || has_char c s'
  end.

(** [sep.join(l)]. *)
Fixpoint join (sep : string) (l : list string) : string :=
  match l with
  | [] => ""
  | [x] => x
  | x :: rest => x ++ sep ++ join sep rest
  end.

(** Truth value of a string: only the empty string is false. *)
Definition truthy (s : string) : bool :=
  match s with EmptyString => false | _ => true end.

(** White space, among the code points 0 to 255: the characters
    [str.isspace] accepts, [str.rstrip] and [str.lstrip] drop and "\s"
    matches.  Tab to carriage return, the separators 28 to 31, the space,
    NEL and the no-break space. *)
Definition is_space (c : ascii) : bool :=
  let n := nat_of_ascii c in
  ((9 <=? n) && (n <=? 13) || (28 <=? n) && (n <=? 32) || (n =? 133) || (n =? 160))%nat.

(** [s.rstrip()]. *)
Fixpoint rstrip (s : string) : string :=
  match s with
  | EmptyString => EmptyString
  | String c s' =>
      match rstrip s' with
      | EmptyString => if is_space c then EmptyString else String c EmptyString
      | r => String c r
      end
  end.

(** [s.replace(old, new)] for a one-character [old]. *)
Fixpoint replace_char (old : ascii) (new : string) (s : string) : string :=
  match s with
  | EmptyString => EmptyString
  | String c s' =>
      if Ascii.eqb c old then new ++ replace_char old new s'
      else String c (replace_char old new s')
  end.

End PyStr.

(** ** Values of the output dictionary *)

Inductive value : Type :=
| VNone
| VBool (b : bool)
| VInt (n : Z)
| VStr (s : string)
| VList (l : list value)
| VDict (d : list (string * value)).

Definition dict := list (string * value).

(** Python's truth value. *)
Definition truthy (v : value) : bool :=
  match v with
  | VNone => false
  | VBool b => b
  | VInt n => negb (n =? 0)%Z
  | VStr s => PyStr.truthy s
  | VList l => match l with [] => false | _ => true end
  | VDict d => match d with [] => false | _ => true end
  end.

Module Dict.

Fixpoint get {A} (k : string) (d : list (string * A)) : option A :=
  match d with
  | [] => None
  | (k', v) :: d' => if String.eqb k' k then Some v else get k d'
  end.

(** [k in d]. *)
Definition has {A} (k : string) (d : list (string * A)) : bool :=
  match get k d with Some _ => true | None => false end.

(** [d[k] = v]: an existing key keeps its position, a new key goes last. *)
Fixpoint set {A} (k : string) (v : A) (d : list (string * A)) : list (string * A) :=
  match d with
  | [] => [(k, v)]
  | (k', v') :: d' =>
      if String.eqb k' k then (k', v) :: d' else (k', v') :: set k v d'
  end.

(** [d.update(c)], also [{**d, **c}] when [d] is a fresh copy. *)
Definition update {A} (d c : list (string * A)) : list (string * A) :=
  fold_left (fun acc kv => set (fst kv) (snd kv) acc) c d.

Fixpoint remove {A} (k : string) (d : list (string * A)) : list (string * A) :=
  match d with
  | [] => []
  | (k', v) :: d' => if String.eqb k' k then remove k d' else (k', v) :: remove k d'
  end.

(** [OrderedDict.move_to_end(k)] for a key that is present. *)
Definition move_to_end {A} (k : string) (d : list (string * A)) : list (string * A) :=
  match get k d with
  | Some v => (remove k d ++ [(k, v)])%list
  | None => d
  end.

Definition keys {A} (d : list (string * A)) : list string := map fst d.

(** The last binding of a key. *)
Fixpoint get_last {A} (k : string) (d : list (string * A)) : option A :=
  match d with
  | [] => None
  | (k', v) :: d' =>
      match get_last k d' with
      | Some w => Some w
      | None => if String.eqb k' k then Some v else None
      end
  end.

End Dict.

(** ** Result *)

Record Result : Type := mkResult { retval : value; retmsg : string }.

(** ** Target *)

Record Target : Type := mkTarget {
  host : string;
  port : option Z;
  workgroup : string;
  timeout : option Z;
  tls : option bool;
  samba_config : option string;
  workgroup_from_long_domain : bool
}.

(** [Target.__init__]. *)
Definition Target_init (host workgroup : string) (port timeout : option Z)
    (tls : option bool) (samba_config : option string) : Target :=
  mkTarget host port workgroup timeout tls samba_config false.

Definition set_workgroup (t : Target) (w : string) (from_long : bool) : Target :=
  mkTarget (host t) (port t) w (timeout t) (tls t) (samba_config t) from_long.

Definition set_port (t : Target) (p : Z) : Target :=
  mkTarget (host t) (Some p) (workgroup t) (timeout t) (tls t) (samba_config t)
           (workgroup_from_long_domain t).

Definition set_tls (t : Target) (b : bool) : Target :=
  mkTarget (host t) (port t) (workgroup t) (timeout t) (Some b) (samba_config t)
           (workgroup_from_long_domain t).

Definition set_samba_config (t : Target) (c : option string) : Target :=
  mkTarget (host t) (port t) (workgroup t) (timeout t) (tls t) c
           (workgroup_from_long_domain t).

(** [Target.update_workgroup]. *)
Definition update_workgroup (self : Target) (workgroup' : string) (long_domain : bool) : Target :=
  if workgroup_from_long_domain self then self
  else if long_domain then
    set_workgroup self (hd "" (PyStr.split "." workgroup')) true
  else
    set_workgroup self workgroup' (workgroup_from_long_domain self).

(** [Target.as_dict]. *)
Definition Target_as_dict (self : Target) : dict :=
  [("target", VDict [("host", VStr (host self)); ("workgroup", VStr (workgroup self))])].

(** A history of calls [update_workgroup(w, long_domain)]. *)
Definition apply_calls (t : Target) (cs : list (string * bool)) : Target :=
  fold_left (fun t c => update_workgroup t (fst c) (snd c)) cs t.

(** ** Regular expressions

    A backtracking matcher for the fragment of Python's [re] the program
    uses: character classes, sequence, greedy repetition, capture groups,
    back-references and the end anchor.  Alternatives are tried in Python's
    order (the longest repetition first), so the first match found is the
    one [re] reports. *)

Module Re.

Inductive regex : Type :=
| Eps
| Cls (p : ascii -> bool)
| Seq (a b : regex)
| Star (a : regex)
| Group (n : nat) (a : regex)
| Backref (n : nat)
| Eol.

Definition captures := list (nat * list ascii).

Fixpoint group (n : nat) (c : captures) : option (list ascii) :=
  match c with
  | [] => None
  | (m, g) :: c' => if (m =? n)%nat then Some g else group n c'
  end.

Fixpoint starts_with (p s : list ascii) : bool :=
  match p, s with
  | [], _ => true
  | x :: p', y :: s' => Ascii.eqb x y && starts_with p' s'
  | _ :: _, [] => false
  end.

(** [exec r s c k] matches a prefix of [s] against [r] and hands what is left
    of the input, with the captures, to the continuation [k]; it backtracks
    into [r] when [k] fails. *)
Fixpoint exec {R : Type} (r : regex) (s : list ascii) (c : captures)
    (k : list ascii -> captures -> option R) {struct r} : option R :=
  match r with
  | Eps => k s c
  | Cls p =>
      match s with
      | x :: s' => if p x then k s' c else None
      | [] => None
      end
  | Seq a b => exec a s c (fun s' c' => exec b s' c' k)
  | Star a =>
      (fix loop (fuel : nat) (s : list ascii) (c : captures) {struct fuel} : option R :=
         match fuel with
         | O => k s c
         | S fuel' =>
             match exec a s c (fun s' c' =>
                                 if (length s' <? length s)%nat
                                 then loop fuel' s' c' else None) with
             | Some x => Some x
             | None => k s c
             end
         end) (length s) s c
  | Group n a =>
      exec a s c (fun s' c' => k s' ((n, firstn (length s - length s') s) :: c'))
  | Backref n =>
      match group n c with
      | Some g => if starts_with g s then k (skipn (length g) s) c else None
      | None => None
      end
  | Eol =>
      match s with
      | [] => k s c
      | [x] => if Ascii.eqb x "010"%char then k s c else None
      | _ => None
      end
  end.

(** A match: the text matched, the captures, and the input after it. *)
Record found : Type := mkFound {
  whole : list ascii;
  groups : captures;
  rest : list ascii
}.

Definition match_here (r : regex) (s : list ascii) : option found :=
  exec r s [] (fun s' c => Some (mkFound (firstn (length s - length s') s) c s')).

(** [re.search]: the leftmost match. *)
Fixpoint search_list (r : regex) (s : list ascii) : option found :=
  match match_here r s with
  | Some f => Some f
  | None => match s with
            | [] => None
            | _ :: s' => search_list r s'
            end
  end.

Definition search (r : regex) (s : string) : option found :=
  search_list r (list_ascii_of_string s).

Definition group_str (n : nat) (f : found) : string :=
  match group n (groups f) with
  | Some g => string_of_list_ascii g
  | None => ""
  end.

(** [re.findall] for a pattern with one group: group 1 of the successive
    matches, none overlapping the one before. *)
Fixpoint findall_list (fuel : nat) (r : regex) (s : list ascii) : list string :=
  match fuel with
  | O => []
  | S fuel' =>
      match search_list r s with
      | None => []
      | Some f =>
          group_str 1 f ::
          match whole f, rest f with
          | [], [] => []
          | [], _ :: s' => findall_list fuel' r s'
          | _ :: _, s' => findall_list fuel' r s'
          end
      end
  end.

Definition findall (r : regex) (s : string) : list string :=
  let l := list_ascii_of_string s in findall_list (S (length l)) r l.

(** Building blocks. *)
Definition chr (c : ascii) : regex := Cls (Ascii.eqb c).

Fixpoint lit_list (l : list ascii) : regex :=
  match l with
  | [] => Eps
  | [c] => chr c
  | c :: l' => Seq (chr c) (lit_list l')
  end.

Definition lit (s : string) : regex := lit_list (list_ascii_of_string s).

Definition plus (a : regex) : regex := Seq a (Star a).

Fixpoint seqs (l : list regex) : regex :=
  match l with
  | [] => Eps
  | [a] => a
  | a :: l' => Seq a (seqs l')
  end.

Definition is_digit (c : ascii) : bool :=
  let n := nat_of_ascii c in (48 <=? n)%nat && (n <=? 57)%nat.

(** [\d], [\s], [.] and the classes the patterns use. *)
Definition digit : regex := Cls is_digit.
Definition space : regex := Cls PyStr.is_space.
Definition dot : regex := Cls (fun c => negb (Ascii.eqb c "010"%char)).
Definition digit_or_dash : regex := Cls (fun c => is_digit c || Ascii.eqb c "-"%char).
Definition not_chr (x : ascii) : regex := Cls (fun c => negb (Ascii.eqb c x)).

End Re.

(** ** More of Python's strings and integers *)

Module PyNum.

Definition digit_char (n : Z) : ascii :=
  ascii_of_nat (Z.to_nat (if (n <? 10)%Z then 48 + n else 87 + n)%Z).

(** Digits of a non-negative number in base [b], the most significant first. *)
Fixpoint digits (fuel : nat) (b n : Z) (acc : string) : string :=
  match fuel with
  | O => acc
  | S fuel' =>
      let acc' := String (digit_char (n mod b)) acc in
      if (n / b =? 0)%Z then acc' else digits fuel' b (n / b) acc'
  end.

Definition magnitude (b n : Z) : string :=
  digits (S (Z.to_nat (Z.log2 (Z.abs n)))) b (Z.abs n) "".

(** [str(n)] for an integer of at most 4300 digits, as are the counts, the
    RIDs of the ranges and the fields of the policy the program writes
    ([PyInt.str] has the limit of the conversion). *)
Definition str (n : Z) : string :=
  if (n <? 0)%Z then "-" ++ magnitude 10 n else magnitude 10 n.


(** [range(a, b)]. *)
Definition range (a b : Z) : list Z :=
  map (fun i => (a + Z.of_nat i)%Z) (seq 0 (Z.to_nat (b - a))).

End PyNum.

Module PyStr2.

(** [s.replace(old, new)] for a non-empty [old]: [skip] counts the characters
    of an occurrence still to be dropped. *)
Fixpoint replace_from (old new : string) (skip : nat) (s : string) : string :=
  match s with
  | EmptyString => EmptyString
  | String c s' =>
      match skip with
      | S n => replace_from old new n s'
      | O =>
          if String.prefix old s
          then new ++ replace_from old new (String.length old - 1) s'
          else String c (replace_from old new 0 s')
      end
  end.

Definition replace (old new s : string) : string := replace_from old new 0 s.

(** [s.rstrip('\n')]. *)
Fixpoint rstrip_newlines (s : string) : string :=
  match s with
  | EmptyString => EmptyString
  | String c s' =>
      match rstrip_newlines s' with
      | EmptyString => if Ascii.eqb c "010"%char then EmptyString else String c EmptyString
      | r => String c r
      end
  end.

(** [s.lstrip()]. *)
Fixpoint lstrip (s : string) : string :=
  match s with
  | EmptyString => EmptyString
  | String c s' => if PyStr.is_space c then lstrip s' else s
  end.

(** [s.split(sep, 1)[1]] when [sep] occurs in [s]: what follows its first
    occurrence. *)
Fixpoint after_first (sep : ascii) (s : string) : string :=
  match s with
  | EmptyString => EmptyString
  | String c s' => if Ascii.eqb c sep then s' else after_first sep s'
  end.

End PyStr2.

(** ** The rest of Python's strings

    Characters are the code points 0 to 255: [str.isspace], [str.isdigit]
    and [str.lower] are Python's on that range. *)

Module PyText.

(** [c.isspace()], which is also what "\s" matches and what [str.strip]
    drops: tab to carriage return, the four separators 28 to 31, the space,
    NEL and the no-break space. *)
Definition isspace (c : ascii) : bool :=
  let n := nat_of_ascii c in
  ((9 <=? n) && (n <=? 13) || (28 <=? n) && (n <=? 32) || (n =? 133) || (n =? 160))%nat.

(** [c.isdigit()] for one character: a decimal digit or one of the
    superscripts 1, 2 and 3. *)
Definition isdigit_char (c : ascii) : bool :=
  let n := nat_of_ascii c in
  ((48 <=? n) && (n <=? 57) || (n =? 178) || (n =? 179) || (n =? 185))%nat.

(** [s.isdigit()]. *)
Definition isdigit (s : string) : bool :=
  PyStr.truthy s && forallb isdigit_char (list_ascii_of_string s).

(** A string of ASCII characters. *)
Definition is_ascii (s : string) : bool :=
  forallb (fun c => (nat_of_ascii c <? 128)%nat) (list_ascii_of_string s).

(** [c.lower()]: the letters A to Z, and the capital letters of Latin-1 but
    the multiplication sign among them. *)
Definition lower_char (c : ascii) : ascii :=
  let n := nat_of_ascii c in
  if ((65 <=? n) && (n <=? 90) || (192 <=? n) && (n <=? 222) && negb (n =? 215))%nat
  then ascii_of_nat (n + 32) else c.

Fixpoint lower (s : string) : string :=
  match s with
  | EmptyString => EmptyString
  | String c s' => String (lower_char c) (lower s')
  end.

(** The characters from [lo] to [hi], as in a class "[lo-hi]". *)
Definition between (lo hi c : ascii) : bool :=
  ((nat_of_ascii lo <=? nat_of_ascii c) && (nat_of_ascii c <=? nat_of_ascii hi))%nat.

(** [s.rstrip()]. *)
Fixpoint rstrip (s : string) : string :=
  match s with
  | EmptyString => EmptyString
  | String c s' =>
      match rstrip s' with
      | EmptyString => if isspace c then EmptyString else String c EmptyString
      | r => String c r
      end
  end.

(** The line boundaries of [str.splitlines]: line feed, vertical tab, form
    feed, carriage return, the separators 28 to 30 and NEL. *)
Definition is_break (c : ascii) : bool :=
  let n := nat_of_ascii c in
  ((10 <=? n) && (n <=? 13) || (28 <=? n) && (n <=? 30) || (n =? 133))%nat.

(** [s.splitlines()]: [cur] is the line being read, [after_cr] tells that
    the character before was a carriage return, which takes a line feed
    that follows it into the same boundary. *)
Fixpoint lines_from (after_cr : bool) (cur : string) (s : string) : list string :=
  match s with
  | EmptyString => match cur with EmptyString => [] | _ => [cur] end
  | String c s' =>
      if after_cr && Ascii.eqb c "010" then lines_from false cur s'
      else if is_break c then cur :: lines_from (Ascii.eqb c "013") EmptyString s'
      else lines_from false (cur ++ String c EmptyString) s'
  end.

Definition splitlines (s : string) : list string := lines_from false EmptyString s.

(** [s.split(sep, 1)[0]]: what stands before the first [sep]. *)
Fixpoint before_first (sep : ascii) (s : string) : string :=
  match s with
  | EmptyString => EmptyString
  | String c s' => if Ascii.eqb c sep then EmptyString else String c (before_first sep s')
  end.

End PyText.

(** ** Exceptions and the ledger of errors *)

Inductive exn : Type :=
| NameError (name : string)
| TypeError (msg : string)
| ValueError (msg : string)
| SystemExit (code : Z).

(** A computation that returns or raises. *)
Inductive py (A : Type) : Type :=
| Ret (a : A)
| Raise (e : exn).

Arguments Ret {A} a.
Arguments Raise {A} e.

(** ** [repr], [int] and [str]

    [repr(s)] for a string of code points 0 to 255; [int(s)] and
    [int(s, 16)] as CPython reads the literal: white space around it, a
    sign, for base 16 the prefix "0x" or "0X", then digits, with single
    underscores allowed between them and after the prefix.  Integers have
    no bound; the conversions in base 10 stop at 4300 digits
    ([sys.get_int_max_str_digits()], by default). *)

Module PyRepr.

Definition hex_digit (n : nat) : ascii :=
  ascii_of_nat (if (n <? 10)%nat then 48 + n else 87 + n).

(** One character between the quotes [quote]. *)
Definition escape (quote c : ascii) : string :=
  let n := nat_of_ascii c in
  let backslash := "092"%char in
  if Ascii.eqb c quote || Ascii.eqb c backslash then String backslash (String c "")
  else if (n =? 9)%nat then String backslash "t"
  else if (n =? 10)%nat then String backslash "n"
  else if (n =? 13)%nat then String backslash "r"
  else if ((n <? 32) || (n =? 127) || ((128 <=? n) && (n <=? 160)) || (n =? 173))%nat
  then String backslash
         (String "x" (String (hex_digit (n / 16)) (String (hex_digit (n mod 16)) "")))
  else String c "".

Fixpoint escape_all (quote : ascii) (s : string) : string :=
  match s with
  | EmptyString => EmptyString
  | String c s' => escape quote c ++ escape_all quote s'
  end.

(** [repr(s)]: between double quotes when [s] has a single quote and no
    double one. *)
Definition repr (s : string) : string :=
  let quote :=
    if PyStr.has_char "'" s && negb (PyStr.has_char "034" s) then "034"%char else "'"%char in
  String quote (escape_all quote s ++ String quote "").

End PyRepr.

Module PyInt.

(** The white space [int] skips: ASCII white space (not the separators 28
    to 31), NEL and the no-break space. *)
Definition isspace (c : ascii) : bool :=
  let n := nat_of_ascii c in
  ((9 <=? n) && (n <=? 13) || (n =? 32) || (n =? 133) || (n =? 160))%nat.

Fixpoint lstrip (l : list ascii) : list ascii :=
  match l with
  | c :: l' => if isspace c then lstrip l' else l
  | [] => []
  end.

Definition strip (l : list ascii) : list ascii := rev (lstrip (rev (lstrip l))).

(** The value of a digit, in the bases up to 36. *)
Definition digit_value (c : ascii) : option Z :=
  let n := nat_of_ascii c in
  if ((48 <=? n) && (n <=? 57))%nat then Some (Z.of_nat n - 48)%Z
  else if ((97 <=? n) && (n <=? 122))%nat then Some (Z.of_nat n - 87)%Z
  else if ((65 <=? n) && (n <=? 90))%nat then Some (Z.of_nat n - 55)%Z
  else None.

(** The digits of a literal: at least one, an underscore only between two
    of them; [after_digit] tells whether the character before was one. *)
Fixpoint digits (base acc : Z) (after_digit : bool) (l : list ascii) : option Z :=
  match l with
  | [] => if after_digit then Some acc else None
  | c :: l' =>
      if Ascii.eqb c "_" then
        if after_digit then digits base acc false l' else None
      else
        match digit_value c with
        | Some d => if (d <? base)%Z then digits base (acc * base + d)%Z true l' else None
        | None => None
        end
  end.

(** The [ValueError] of a text that is no literal: its message shows 200
    characters of [repr(s)]. *)
Definition invalid_literal (base s : string) : exn :=
  ValueError ("invalid literal for int() with base " ++ base ++ ": "
                ++ substring 0 200 (PyRepr.repr s)).

(** [int(s, 16)]. *)
Definition int16 (s : string) : py Z :=
  let l := strip (list_ascii_of_string s) in
  let '(sign, l) :=
    match l with
    | "+"%char :: l' => (1%Z, l')
    | "-"%char :: l' => ((-1)%Z, l')
    | _ => (1%Z, l)
    end in
  let l :=
    match l with
    | "0"%char :: x :: l' =>
        if Ascii.eqb x "x" || Ascii.eqb x "X"
        then match l' with "_"%char :: l'' => l'' | _ => l' end
        else l
    | _ => l
    end in
  match digits 16 0 false l with
  | Some n => Ret (sign * n)%Z
  | None => Raise (invalid_literal "16" s)
  end.

(** The most digits a conversion in base 10 takes. *)
Definition max_str_digits : nat := 4300.

(** The digits and underscores a literal starts with, as the conversion in
    base 10 goes through them before it converts: how many digits there
    are, or [None] for two underscores in a row or an underscore at the
    end. *)
Fixpoint scan (after_underscore : bool) (l : list ascii) : option nat :=
  let stop := if after_underscore then None else Some O in
  match l with
  | [] => stop
  | c :: l' =>
      if Ascii.eqb c "_" then
        if after_underscore then None else scan true l'
      else
        match digit_value c with
        | Some d => if (d <? 10)%Z then option_map S (scan false l') else stop
        | None => stop
        end
  end.

(** [int(s)]: the literal may not start with an underscore; the digits are
    counted, and more than 4300 of them are refused, before the rest of the
    text is looked at. *)
Definition int10 (s : string) : py Z :=
  let l := strip (list_ascii_of_string s) in
  let '(sign, l) :=
    match l with
    | "+"%char :: l' => (1%Z, l')
    | "-"%char :: l' => ((-1)%Z, l')
    | _ => (1%Z, l)
    end in
  match l with
  | "_"%char :: _ => Raise (invalid_literal "10" s)
  | _ =>
      match scan false l with
      | None => Raise (invalid_literal "10" s)
      | Some count =>
          if (max_str_digits <? count)%nat then
            Raise (ValueError
                     ("Exceeds the limit (4300 digits) for integer string conversion: "
                        ++ "value has " ++ PyNum.str (Z.of_nat count)
                        ++ " digits; use sys.set_int_max_str_digits() to increase the limit"))
          else
            match digits 10 0 false l with
            | Some n => Ret (sign * n)%Z
            | None => Raise (invalid_literal "10" s)
            end
      end
  end.

(** [str(n)], which refuses an integer of more than 4300 digits. *)
Definition str (n : Z) : py string :=
  if (max_str_digits <? String.length (PyNum.magnitude 10 n))%nat then
    Raise (ValueError
             ("Exceeds the limit (4300 digits) for integer string conversion; "
                ++ "use sys.set_int_max_str_digits() to increase the limit"))
  else Ret (PyNum.str n).

End PyInt.

(** The exit status of the process: [sys.exit(code)] gives [code], any other
    exception that reaches the top level gives 1. *)
Definition exit_status (e : exn) : Z :=
  match e with
  | SystemExit code => code
  | _ => 1%Z
  end.

Definition as_dict (v : option value) : dict :=
  match v with Some (VDict d) => d | _ => [] end.

Definition as_list (v : option value) : list value :=
  match v with Some (VList l) => l | _ => [] end.

(** One turn of the loop of [process_error], on [output_dict["errors"]]. *)
Definition add_error (msg module_name : string) (errors : dict) (entry : string) : dict :=
  let errors1 :=
    if negb (Dict.has entry errors) then Dict.set entry (VDict []) errors else errors in
  let of_entry := as_dict (Dict.get entry errors1) in
  let of_entry1 :=
    if negb (Dict.has module_name of_entry)
    then Dict.set module_name (VList []) of_entry else of_entry in
  let msgs := as_list (Dict.get module_name of_entry1) in
  Dict.set entry (VDict (Dict.set module_name (VList (msgs ++ [VStr msg])%list) of_entry1)) errors1.

(** [process_error]. *)
Definition process_error (msg : string) (affected_entries : list string)
    (module_name : string) (output_dict : dict) : dict :=
  let output1 :=
    if negb (Dict.has "errors" output_dict)
    then Dict.set "errors" (VDict []) output_dict else output_dict in
  Dict.set "errors"
    (VDict (fold_left (add_error msg module_name) affected_entries
                      (as_dict (Dict.get "errors" output1))))
    output1.

(** The merge of [Output.update]: [out_dict["errors"]] is kept and the
    entries of [content["errors"]] are merged into it key by key. *)
Definition merge_errors (old_errors new_errors : dict) : dict :=
  fold_left
    (fun errors kv =>
       if Dict.has (fst kv) errors
       then Dict.set (fst kv)
              (VDict (Dict.update (as_dict (Dict.get (fst kv) errors))
                                  (as_dict (Some (snd kv)))))
              errors
       else Dict.set (fst kv) (snd kv) errors)
    new_errors old_errors.

(** [Output.update] on [out_dict], before the file is written. *)
Definition Output_merge (out_dict content : dict) : dict :=
  let old_errors_dict := as_dict (Dict.get "errors" out_dict) in
  let out1 := Dict.update out_dict content in
  let out2 := Dict.set "errors" (VDict old_errors_dict) out1 in
  let out3 :=
    if Dict.has "errors" content
    then Dict.set "errors"
           (VDict (merge_errors old_errors_dict (as_dict (Dict.get "errors" content))))
           out2
    else out2 in
  Dict.move_to_end "errors" out3.

(** [Output.__init__]. *)
Definition Output_init : dict := [("errors", VDict [])].

(** ** Credentials *)

Record Credentials : Type := mkCredentials {
  user : string;
  pw : string;
  random_user : string
}.

Definition Credentials_as_dict (c : Credentials) : dict :=
  [("credentials",
    VDict [("user", VStr (user c)); ("password", VStr (pw c));
           ("random_user", VStr (random_user c))])].

(** ** The environment of a run

    Everything outside the program: the Samba client tools, the SMB, LDAP and
    SAMR clients, the file system.  The listing and detail helpers of the
    users and groups modules and the modules no statement below is about are
    taken the same way, by what they return. *)

(** How the SMB negotiation of [check_legacy_session] ends. *)
Inductive smb_outcome : Type :=
| SmbDialect (only_smb1 : bool)
| SmbConnectionRefused
| SmbTimeout
| SmbNetBIOSError
| SmbOtherError.

(** How the LDAP bind of [get_namingcontexts] ends: an exception with its
    text, or the naming contexts of the RootDSE ([None] when reading them
    raises). *)
Inductive ldap_outcome : Type :=
| LdapException (error : string)
| LdapInfo (naming_contexts : option (list string)).

Record World : Type := mkWorld {
  (** the eight letters [Credentials.__init__] draws with [random.choice] *)
  random_username : string;
  (** [subprocess.check_output(command)] decoded, or the output carried by
      the exception when the command fails.  The hosts are those whose
      tools run and print text that [decode] reads: a command that cannot
      be started (its exception carries no output) or prints bytes that
      are not UTF-8 makes [run] raise, which ends a module where nothing
      catches it, and such hosts are not among these. *)
  check_output : list string -> string;
  smb_negotiate : string -> option Z -> option Z -> smb_outcome;
  (** [SambaConfig(entries)]: the path of the file, [None] when it raises *)
  new_samba_config : list string -> option string;
  ldap_connect : string -> option bool -> option Z -> ldap_outcome;
  (** iterating [open(path)]: the lines read, and whether opening or reading
      raised after them *)
  read_file : string -> list string * bool;
  (** writing the output file: [false] when it raises *)
  write_file : string -> string -> dict -> bool;
  (** [datetime.utcfromtimestamp(ticks * 1e-7)] as (days since the epoch,
      hour, minute), [None] when it raises *)
  utc_fields : Z -> option (Z * Z * Z);
  (** [EnumUsersRpc.enum_from_querydispinfo], [enum_from_enumdomusers] and
      the two [get_details_from_rid] *)
  enum_from_querydispinfo : Target -> Credentials -> Result;
  enum_from_enumdomusers : Target -> Credentials -> Result;
  user_details_from_rid : Target -> Credentials -> string -> string -> Result;
  group_details_from_rid : Target -> Credentials -> string -> string -> string -> Result;
  (** the [run] of the other modules *)
  EnumNetbios_run : Target -> py dict;
  EnumOsInfo_run : Target -> Credentials -> py dict;
  EnumGroupsRpc_run : Target -> Credentials -> bool -> bool -> py dict;
  EnumServices_run : Target -> Credentials -> py dict;
  EnumShares_run : Target -> Credentials -> py dict;
  EnumPolicy_enum : Target -> Credentials -> Result;
  EnumPrinters_run : Target -> Credentials -> py dict
}.

Section Engine.

Variable W : World.

(** [run(command, description, samba_config)], on the decoded output. *)
Definition run (command : list string) (samba_config : option string) : string :=
  let command :=
    match samba_config with
    | Some path => (command ++ ["-s"; path])%list
    | None => command
    end in
  let output := check_output W command in
  let output :=
    PyStr2.replace ("Unable to initialize messaging context" ++ PyStr.nl) "" output in
  let output :=
    PyStr2.replace ("WARNING: no network interfaces found" ++ PyStr.nl) "" output in
  let output :=
    PyStr2.replace ("Can't load /etc/samba/smb.conf - run testparm to debug it" ++ PyStr.nl)
                   "" output in
  PyStr2.rstrip_newlines output.

(** *** Session checks *)

(** [EnumSessions.check_legacy_session]. *)
Definition check_legacy_session (target : Target) : Result :=
  match smb_negotiate W (host target) (port target) (timeout target) with
  | SmbDialect true => mkResult (VBool true) "Server supports only SMBv1"
  | SmbDialect false => mkResult (VBool false) "Server supports dialects higher SMBv1"
  | SmbConnectionRefused => mkResult VNone "SMB connection error: Connection refused"
  | SmbTimeout => mkResult VNone "SMB connection error: timed out"
  | SmbNetBIOSError => mkResult VNone "SMB connection error: session failed"
  | SmbOtherError => mkResult VNone "SMB connection error"
  end.

(** The pattern "do_connect:.*failed\s\(Error\s([^)]+)\)". *)
Definition re_do_connect : Re.regex :=
  Re.seqs [Re.lit "do_connect:"; Re.Star Re.dot; Re.lit "failed"; Re.space;
           Re.lit "(Error"; Re.space; Re.Group 1 (Re.plus (Re.not_chr ")"));
           Re.chr ")"].

(** [EnumSessions.check_user_session]. *)
Definition check_user_session (target : Target) (creds : Credentials)
    (random_user_session : bool) : Result :=
  let '(user', pw', session_type) :=
    if random_user_session then (random_user creds, "", "random user")
    else if negb (PyStr.truthy (user creds)) && negb (PyStr.truthy (pw creds))
         then ("", "", "null")
         else (user creds, pw creds, "user") in
  let command :=
    ["smbclient"; "-W"; workgroup target; "//" ++ host target ++ "/ipc$";
     "-U"; user' ++ "%" ++ pw'; "-c"; "help"] in
  let session_output := run command (samba_config target) in
  match Re.search re_do_connect session_output with
  | Some m =>
      mkResult VNone ("Server connection failed for " ++ session_type ++ " session: "
                      ++ Re.group_str 1 m)
  | None =>
      if PyStr.contains "case_sensitive" session_output
      then mkResult (VBool true)
             ("Server allows session using username '" ++ user' ++ "', password '" ++ pw' ++ "'")
      else mkResult (VBool false)
             ("Server doesn't allow session using username '" ++ user' ++ "', password '" ++ pw' ++ "'")
  end.

Definition is_none (v : value) : bool :=
  match v with VNone => true | _ => false end.

(** The loop over the ports 139 and 445 of [EnumSessions.run]. *)
Fixpoint legacy_loop (module_name : string) (ports : list Z) (target : Target)
    (output : dict) : Target * dict :=
  match ports with
  | [] => (target, output)
  | port :: ports' =>
      let target := set_port target port in
      let legacy_session := check_legacy_session target in
      if is_none (retval legacy_session) then
        legacy_loop module_name ports' target
          (process_error (retmsg legacy_session) ["legacy_session"] module_name output)
      else
        let output := Dict.set "legacy_session" (retval legacy_session) output in
        if truthy (retval legacy_session) then
          match new_samba_config W ["[global]"; "client min protocol = NT1"] with
          | Some path => (set_samba_config target (Some path), output)
          | None =>
              (target,
               process_error "Switching to legacy mode failed." ["legacy_session"]
                             module_name output)
          end
        else (target, output)
  end.

Definition get_truthy (k : string) (d : dict) : bool :=
  match Dict.get k d with Some v => truthy v | None => false end.

(** [EnumSessions.run]: the target as the run leaves it, and the output. *)
Definition EnumSessions_run (target : Target) (creds : Credentials) : Target * dict :=
  let module_name := "enum_sessions" in
  let output : dict :=
    [("sessions_possible", VBool false);
     ("legacy_session", VBool false);
     ("null_session_possible", VBool false);
     ("user_session_possible", VBool false);
     ("random_user_session_possible", VBool false)] in
  (* Check for legacy session *)
  let '(target, output) := legacy_loop module_name [139; 445]%Z target output in
  (* Check null session *)
  let null_session :=
    check_user_session target (mkCredentials "" "" (random_user creds)) false in
  let output :=
    if truthy (retval null_session)
    then Dict.set "null_session_possible" (VBool true) output
    else process_error (retmsg null_session) ["null_session_possible"] module_name output in
  (* Check user session *)
  let output :=
    if PyStr.truthy (user creds) then
      let user_session := check_user_session target creds false in
      if truthy (retval user_session)
      then Dict.set "user_session_possible" (VBool true) output
      else process_error (retmsg user_session) ["user_session_possible"] module_name output
    else output in
  (* Check random user session *)
  let user_session := check_user_session target creds true in
  let output :=
    if truthy (retval user_session)
    then Dict.set "random_user_session_possible" (VBool true) output
    else process_error (retmsg user_session) ["random_user_session_possible"]
                       module_name output in
  let output :=
    if get_truthy "null_session_possible" output
       || get_truthy "user_session_possible" output
       || get_truthy "random_user_session_possible" output
    then Dict.set "sessions_possible" (VBool true) output
    else process_error "Sessions failed, neither null nor user sessions were possible."
           ["sessions_possible"; "null_session_possible"; "user_session_possible";
            "random_user_session_possible"] module_name output in
  (target, output).

(** The target the three session checks of [EnumSessions.run] use: the one
    the loop over the ports leaves. *)
Definition session_target (target : Target) : Target :=
  fst (legacy_loop "enum_sessions" [139; 445]%Z target
         [("sessions_possible", VBool false);
          ("legacy_session", VBool false);
          ("null_session_possible", VBool false);
          ("user_session_possible", VBool false);
          ("random_user_session_possible", VBool false)]).

(** The three session variants: each one succeeded when its check ran and
    returned a true value. *)
Definition null_session_ok (target : Target) (creds : Credentials) : bool :=
  truthy (retval (check_user_session (session_target target)
                                     (mkCredentials "" "" (random_user creds)) false)).

Definition user_session_ok (target : Target) (creds : Credentials) : bool :=
  PyStr.truthy (user creds)
  && truthy (retval (check_user_session (session_target target) creds false)).

Definition random_user_session_ok (target : Target) (creds : Credentials) : bool :=
  truthy (retval (check_user_session (session_target target) creds true)).

(** *** Domain information via LDAP *)

(** [EnumLdapDomainInfo.get_namingcontexts]. *)
Definition get_namingcontexts (target : Target) : Result :=
  match ldap_connect W (host target) (tls target) (timeout target) with
  | LdapException error =>
      let error :=
        if PyStr.has_char "]" error then PyStr2.after_first "]" error
        else if PyStr.has_char ":" error then PyStr2.after_first ":" error
        else error in
      let error := PyStr.rstrip (PyStr2.lstrip error) in
      match tls target with
      | Some true => mkResult VNone ("LDAPS connect error: " ++ error)
      | _ => mkResult VNone ("LDAP connect error: " ++ error)
      end
  | LdapInfo None => mkResult (VList []) "NamingContexts are not readable"
  | LdapInfo (Some []) => mkResult (VList []) "NamingContexts are not readable"
  | LdapInfo (Some contexts) => mkResult (VList (map VStr contexts)) ""
  end.

(** The pattern "(DC=[^,]+,DC=[^,]+)$". *)
Definition re_long_domain : Re.regex :=
  Re.Seq (Re.Group 1 (Re.seqs [Re.lit "DC="; Re.plus (Re.not_chr ",");
                               Re.lit ",DC="; Re.plus (Re.not_chr ",")]))
         Re.Eol.

Definition str_of (v : value) : string :=
  match v with VStr s => s | _ => "" end.

(** The loop of [get_long_domain]: the first entry that matches. *)
Fixpoint first_long_domain (entries : list value) : string :=
  match entries with
  | [] => ""
  | entry :: entries' =>
      match Re.search re_long_domain (str_of entry) with
      | Some m =>
          let long_domain := Re.group_str 1 m in
          let long_domain := PyStr2.replace "DC=" "" long_domain in
          PyStr.replace_char "," "." long_domain
      | None => first_long_domain entries'
      end
  end.

(** [EnumLdapDomainInfo.get_long_domain]. *)
Definition get_long_domain (namingcontexts_result : list value) : Result :=
  let long_domain := first_long_domain namingcontexts_result in
  if PyStr.truthy long_domain
  then mkResult (VStr long_domain) ("Long domain name is: " ++ long_domain)
  else mkResult VNone "Could not find long domain".

(** [x in l] for a list of values and a string [x]. *)
Definition in_list (x : string) (l : list value) : bool :=
  existsb (fun v => match v with VStr s => String.eqb s x | _ => false end) l.

(** [EnumLdapDomainInfo.check_parent_dc].  The test of the source is
    ["DC=DomainDnsZones" or "ForestDnsZones" in namingcontexts_result]:
    Python reads it as [A or (B in l)], and the string [A] is the left
    operand of [or]. *)
Definition check_parent_dc (namingcontexts_result : list value) : Result :=
  let parent := false in
  let parent :=
    if PyStr.truthy "DC=DomainDnsZones" || in_list "ForestDnsZones" namingcontexts_result
    then true else parent in
  if parent
  then mkResult (VBool true) "Appears to be root/parent DC"
  else mkResult (VBool false) "Appears to be child DC".

(** The loop over [with_tls in [False, True]] of [EnumLdapDomainInfo.run]:
    the last result of [get_namingcontexts] is the one the run goes on
    with. *)
Fixpoint ldap_loop (module_name : string) (choices : list bool) (target : Target)
    (output : dict) (namingcontexts : Result) : Target * dict * Result :=
  match choices with
  | [] => (target, output, namingcontexts)
  | with_tls :: choices' =>
      let target := set_tls target with_tls in
      let namingcontexts := get_namingcontexts target in
      if negb (is_none (retval namingcontexts))
      then (target, output, namingcontexts)
      else ldap_loop module_name choices' target
             (process_error (retmsg namingcontexts)
                            ["is_parent_dc"; "is_child_dc"; "long_domain"]
                            module_name output)
             namingcontexts
  end.

(** [EnumLdapDomainInfo.run]. *)
Definition EnumLdapDomainInfo_run (target : Target) : Target * dict :=
  let module_name := "enum_ldap_domain_info" in
  let output : dict :=
    [("is_parent_dc", VNone); ("is_child_dc", VNone); ("long_domain", VNone)] in
  let '(target, output, namingcontexts) :=
    ldap_loop module_name [false; true] target output (mkResult VNone "") in
  let output :=
    if truthy (retval namingcontexts) then
      let contexts := as_list (Some (retval namingcontexts)) in
      (* Parent/root or child DC? *)
      let result := check_parent_dc contexts in
      let output :=
        if truthy (retval result)
        then Dict.set "is_child_dc" (VBool false)
               (Dict.set "is_parent_dc" (VBool true) output)
        else Dict.set "is_child_dc" (VBool false)
               (Dict.set "is_parent_dc" (VBool true) output) in
      (* Try to get long domain from ldapsearch result *)
      let result := get_long_domain contexts in
      if truthy (retval result)
      then Dict.set "long_domain" (retval result) output
      else process_error (retmsg result) ["long_domain"] module_name output
    else output in
  (target, output).

(** *** Domain information via lsaquery *)

(** [EnumLsaqueryDomainInfo.lsaquery]. *)
Definition lsaquery (target : Target) (creds : Credentials) : Result :=
  let command :=
    ["rpcclient"; "-W"; workgroup target; "-U"; user creds ++ "%" ++ pw creds;
     host target; "-c"; "lsaquery"] in
  let lsaquery_result := run command (samba_config target) in
  if PyStr.contains "NT_STATUS_LOGON_FAILURE" lsaquery_result then
    mkResult VNone "Could not get domain information via 'lsaquery': NT_STATUS_LOGON_FAILURE"
  else if PyStr.contains "NT_STATUS_ACCESS_DENIED" lsaquery_result then
    mkResult VNone "Could not get domain information via 'lsaquery': NT_STATUS_ACCESS_DENIED"
  else if PyStr.truthy lsaquery_result then mkResult (VStr lsaquery_result) ""
  else mkResult VNone "Could not get information via 'lsaquery'".

(** The pattern "Domain Name: " followed by group 1, any characters but a
    newline, as many as there are. *)
Definition re_domain_name : Re.regex :=
  Re.Seq (Re.lit "Domain Name: ") (Re.Group 1 (Re.Star Re.dot)).

(** The pattern "S-\d+-\d+-\d+-\d+-\d+-\d+". *)
Definition re_sid6 : Re.regex :=
  Re.seqs [Re.lit "S-"; Re.plus Re.digit; Re.chr "-"; Re.plus Re.digit; Re.chr "-";
           Re.plus Re.digit; Re.chr "-"; Re.plus Re.digit; Re.chr "-";
           Re.plus Re.digit; Re.chr "-"; Re.plus Re.digit].

(** The pattern "Domain Sid: (S-\d+-\d+-\d+-\d+-\d+-\d+)", and the same
    without the group. *)
Definition re_domain_sid_group : Re.regex :=
  Re.Seq (Re.lit "Domain Sid: ") (Re.Group 1 re_sid6).

Definition re_domain_sid : Re.regex :=
  Re.Seq (Re.lit "Domain Sid: ") re_sid6.

(** [EnumLsaqueryDomainInfo.get_workgroup]. *)
Definition lsaquery_get_workgroup (lsaquery_result : string) : Result :=
  let workgroup :=
    if PyStr.contains "Domain Name" lsaquery_result then
      match Re.search re_domain_name lsaquery_result with
      | Some m => Re.group_str 1 m
      | None => ""
      end
    else "" in
  if PyStr.truthy workgroup
  then mkResult (VStr workgroup) ("Domain: " ++ workgroup)
  else mkResult VNone "Could not get workgroup from lsaquery".

(** [EnumLsaqueryDomainInfo.get_domain_sid]. *)
Definition get_domain_sid (lsaquery_result : string) : Result :=
  let domain_sid :=
    if PyStr.contains "Domain Sid: (NULL SID)" lsaquery_result then "NULL SID"
    else match Re.search re_domain_sid_group lsaquery_result with
         | Some m => Re.group_str 1 m
         | None => ""
         end in
  if PyStr.truthy domain_sid
  then mkResult (VStr domain_sid) ("SID: " ++ domain_sid)
  else mkResult VNone "Could not get domain SID from lsaquery".

(** [EnumLsaqueryDomainInfo.check_is_part_of_workgroup_or_domain].  The first
    test of the source is
    ["Domain Sid: S-0-0" or "Domain Sid: (NULL SID)" in lsaquery_result]. *)
Definition check_is_part_of_workgroup_or_domain (lsaquery_result : string) : Result :=
  if PyStr.truthy "Domain Sid: S-0-0"
     || PyStr.contains "Domain Sid: (NULL SID)" lsaquery_result
  then mkResult (VStr "workgroup") "Host is part of a workgroup (not a domain)"
  else match Re.search re_domain_sid lsaquery_result with
       | Some _ => mkResult (VStr "domain") "Host is part of a domain (not a workgroup)"
       | None =>
           mkResult (VBool false)
             "Could not determine if host is part of domain or part of a workgroup"
       end.

(** [EnumLsaqueryDomainInfo.run]. *)
Definition EnumLsaqueryDomainInfo_run (target : Target) (creds : Credentials) : dict :=
  let module_name := "enum_lsaquery_domain_info" in
  let output : dict := [("workgroup", VNone); ("domain_sid", VNone); ("member_of", VNone)] in
  let lsaquery := lsaquery target creds in
  if negb (is_none (retval lsaquery)) then
    let text := str_of (retval lsaquery) in
    let result := lsaquery_get_workgroup text in
    let output :=
      if truthy (retval result) then Dict.set "workgroup" (retval result) output
      else process_error (retmsg result) ["workgroup"] module_name output in
    let result := get_domain_sid text in
    let output :=
      if truthy (retval result) then Dict.set "domain_sid" (retval result) output
      else process_error (retmsg result) ["domain_sid"] module_name output in
    let result := check_is_part_of_workgroup_or_domain text in
    if truthy (retval result) then Dict.set "member_of" (retval result) output
    else process_error (retmsg result) ["member_of"] module_name output
  else
    process_error (retmsg lsaquery) ["workgroup"; "domain_sid"; "member_of"]
                  module_name output.

(** *** Users via RPC *)

(** The merge of [EnumUsersRpc.run]: [{**users_edu_output, **users_qdi_output}]
    when both listings succeeded, else the one that did. *)
Definition merge_users (users_qdi_output users_edu_output : value) : value :=
  if negb (is_none users_qdi_output) && negb (is_none users_edu_output) then
    VDict (Dict.update (Dict.update [] (as_dict (Some users_edu_output)))
                       (as_dict (Some users_qdi_output)))
  else if is_none users_edu_output then users_qdi_output
  else users_edu_output.

(** One turn of the loop over [users.keys()] that fetches the details. *)
Definition user_details_step (target : Target) (creds : Credentials)
    (module_name : string) (st : dict * dict) (rid : string) : dict * dict :=
  let '(users, output) := st in
  let entry := as_dict (Dict.get rid users) in
  let name := match Dict.get "username" entry with
              | Some v => str_of v
              | None => ""
              end in
  let user_details := user_details_from_rid W target creds rid name in
  if truthy (retval user_details) then
    (Dict.set rid (VDict (Dict.set "details" (retval user_details) entry)) users, output)
  else
    (Dict.set rid (VDict (Dict.set "details" (VStr "") entry)) users,
     process_error (retmsg user_details) ["users"] module_name output).

(** [EnumUsersRpc.run]. *)
Definition EnumUsersRpc_run (target : Target) (creds : Credentials)
    (detailed : bool) : dict :=
  let module_name := "enum_users_rpc" in
  let output : dict := [] in
  (* Get user via querydispinfo *)
  let users_qdi := enum_from_querydispinfo W target creds in
  let '(output, users_qdi_output) :=
    if is_none (retval users_qdi)
    then (process_error (retmsg users_qdi) ["users"] module_name output, VNone)
    else (output, retval users_qdi) in
  (* Get user via enumdomusers *)
  let users_edu := enum_from_enumdomusers W target creds in
  let '(output, users_edu_output) :=
    if is_none (retval users_edu)
    then (process_error (retmsg users_edu) ["users"] module_name output, VNone)
    else (output, retval users_edu) in
  (* Merge both users dicts *)
  let users := merge_users users_qdi_output users_edu_output in
  let '(users, output) :=
    if truthy users && detailed then
      let '(d, output) :=
        fold_left (user_details_step target creds module_name)
                  (Dict.keys (as_dict (Some users)))
                  (as_dict (Some users), output) in
      (VDict d, output)
    else (users, output) in
  Dict.set "users" users output.

(** *** RID cycling *)

Record RidCycleParams : Type := mkRidCycleParams {
  rid_ranges : list (Z * Z);
  known_usernames : string;
  enumerated_input : dict
}.

(** [RidCycleParams.__init__]. *)
Definition RidCycleParams_init (rid_ranges : list (Z * Z)) (known_usernames : string)
  : RidCycleParams :=
  mkRidCycleParams rid_ranges known_usernames [].

(** ["NULL SID" not in v]: a value that cannot be searched raises. *)
Definition null_sid_not_in (v : value) : py bool :=
  match v with
  | VStr s => Ret (negb (PyStr.contains "NULL SID" s))
  | VList l => Ret (negb (in_list "NULL SID" l))
  | VDict d => Ret (negb (Dict.has "NULL SID" d))
  | VNone => Raise (TypeError "argument of type 'NoneType' is not iterable")
  | VBool _ => Raise (TypeError "argument of type 'bool' is not iterable")
  | VInt _ => Raise (TypeError "argument of type 'int' is not iterable")
  end.

(** [RidCycleParams.set_enumerated_input]. *)
Definition RidCycleParams_set_enumerated_input (self : RidCycleParams) (enum_input : dict)
  : py RidCycleParams :=
  let enumerated :=
    fold_left
      (fun e key =>
         match Dict.get key enum_input with
         | Some v => Dict.set key v e
         | None => Dict.set key VNone e
         end)
      ["users"; "groups"; "machines"] (enumerated_input self) in
  match Dict.get "domain_sid" enum_input with
  | Some v =>
      match null_sid_not_in v with
      | Raise e => Raise e
      | Ret true =>
          Ret (mkRidCycleParams (rid_ranges self) (known_usernames self)
                                (Dict.set "domain_sid" v enumerated))
      | Ret false =>
          Ret (mkRidCycleParams (rid_ranges self) (known_usernames self)
                                (Dict.set "domain_sid" (VStr "") enumerated))
      end
  | None =>
      Ret (mkRidCycleParams (rid_ranges self) (known_usernames self)
                            (Dict.set "domain_sid" (VStr "") enumerated))
  end.

(** The three patterns of [enum_sids]: "(S-1-5-21-[\d-]+)-\d+",
    "(S-1-5-[\d-]+)-\d+" and "(S-1-22-[\d-]+)-\d+". *)
Definition sid_pattern (prefix : string) : Re.regex :=
  Re.seqs [Re.Group 1 (Re.Seq (Re.lit prefix) (Re.plus Re.digit_or_dash));
           Re.chr "-"; Re.plus Re.digit].

Definition sid_patterns_list : list Re.regex :=
  [sid_pattern "S-1-5-21-"; sid_pattern "S-1-5-"; sid_pattern "S-1-22-"].

Definition append_new (sids : list string) (result : string) : list string :=
  if existsb (String.eqb result) sids then sids else (sids ++ [result])%list.

(** What one well-known user name adds to [sids].  The test of the source
    is ["NT_STATUS_ACCESS_DENIED" or "NT_STATUS_NONE_MAPPED" in sid_string]. *)
Definition lookupnames_step (target : Target) (creds : Credentials)
    (sids : list string) (known_username : string) : list string :=
  let command :=
    ["rpcclient"; "-W"; workgroup target; "-U"; user creds ++ "%" ++ pw creds;
     "-c"; "lookupnames " ++ known_username; host target] in
  let sid_string := run command (samba_config target) in
  if PyStr.truthy "NT_STATUS_ACCESS_DENIED"
     || PyStr.contains "NT_STATUS_NONE_MAPPED" sid_string
  then sids
  else
    fold_left
      (fun sids pattern =>
         match Re.search pattern sid_string with
         | Some m => append_new sids (Re.group_str 1 m)
         | None => sids
         end)
      sid_patterns_list sids.

(** [RidCycling.enum_sids]. *)
Definition enum_sids (target : Target) (creds : Credentials) (users : string) : Result :=
  let sids : list string := [] in
  (* Try to get a valid SID from well-known user names *)
  let sids := fold_left (lookupnames_step target creds) (PyStr.split "," users) sids in
  (* Try to get SID list via lsaenumsid *)
  let command :=
    ["rpcclient"; "-W"; workgroup target; "-U"; user creds ++ "%" ++ pw creds;
     "-c"; "lsaenumsid"; host target] in
  let sids_string := run command (samba_config target) in
  let sids :=
    if negb (PyStr.contains "NT_STATUS_ACCESS_DENIED" sids_string) then
      fold_left
        (fun sids pattern => fold_left append_new (Re.findall pattern sids_string) sids)
        sid_patterns_list sids
    else sids in
  match sids with
  | [] => mkResult VNone "Could not get any SIDs"
  | _ => mkResult (VList (map VStr sids))
                  ("Found " ++ PyNum.str (Z.of_nat (length sids)) ++ " SIDs")
  end.

(** The pattern of [rid_cycle].  Group 1 is all of it: "S-\d+-\d+-\d+-[\d-]+",
    white space, group 2 (any characters but a newline, as many as there
    are), white space, "[^\)]+" and a closing parenthesis. *)
Definition re_lookupsids : Re.regex :=
  Re.Group 1
    (Re.seqs [Re.lit "S-"; Re.plus Re.digit; Re.chr "-"; Re.plus Re.digit; Re.chr "-";
              Re.plus Re.digit; Re.chr "-"; Re.plus Re.digit_or_dash; Re.plus Re.space;
              Re.Group 2 (Re.Star Re.dot); Re.plus Re.space;
              Re.plus (Re.not_chr ")"); Re.chr ")"]).

(** The pattern "-(\d+) .*\\\1 \(": a name that is the RID itself. *)
Definition re_name_is_rid : Re.regex :=
  Re.seqs [Re.chr "-"; Re.Group 1 (Re.plus Re.digit); Re.chr " "; Re.Star Re.dot;
           Re.chr "\"; Re.Backref 1; Re.lit " ("].

(** What [rid_cycle] yields for one RID. *)
Definition rid_cycle_one (target : Target) (creds : Credentials) (sid : string)
    (rid : Z) : list Result :=
  let command :=
    ["rpcclient"; "-W"; workgroup target; "-U"; user creds ++ "%" ++ pw creds;
     host target; "-c"; "lookupsids " ++ sid ++ "-" ++ PyNum.str rid] in
  let output := run command (samba_config target) in
  match Re.search re_lookupsids output with
  | None => []
  | Some m =>
      let sid_and_user := Re.group_str 1 m in
      let entry := Re.group_str 2 m in
      match Re.search re_name_is_rid sid_and_user with
      | Some _ => []
      | None =>
          if PyStr.contains "(1)" sid_and_user then
            [mkResult (VDict [("users", VDict [(PyNum.str rid,
                                               VDict [("username", VStr entry)])])])
                      ("Found user '" ++ entry ++ "' (RID " ++ PyNum.str rid ++ ")")]
          else if PyStr.contains "(2)" sid_and_user then
            [mkResult (VDict [("groups", VDict [(PyNum.str rid,
                                                VDict [("groupname", VStr entry);
                                                       ("type", VStr "domain")])])])
                      ("Found domain group '" ++ entry ++ "' (RID " ++ PyNum.str rid ++ ")")]
          else if PyStr.contains "(3)" sid_and_user then
            [mkResult (VDict [("domain_sid", VStr (sid ++ "-" ++ PyNum.str rid))])
                      ("Found domain SID " ++ sid ++ "-" ++ PyNum.str rid)]
          else if PyStr.contains "(4)" sid_and_user then
            [mkResult (VDict [("groups", VDict [(PyNum.str rid,
                                                VDict [("groupname", VStr entry);
                                                       ("type", VStr "builtin")])])])
                      ("Found builtin group '" ++ entry ++ "' (RID " ++ PyNum.str rid ++ ")")]
          else if PyStr.contains "(9)" sid_and_user then
            [mkResult (VDict [("machines", VDict [(PyNum.str rid,
                                                  VDict [("machine", VStr entry)])])])
                      ("Found machine '" ++ entry ++ "' (RID " ++ PyNum.str rid ++ ")")]
          else []
      end
  end.

(** [RidCycling.rid_cycle]: everything the generator yields, in order. *)
Definition rid_cycle (target : Target) (creds : Credentials) (sid : string)
    (rid_ranges : list (Z * Z)) : list Result :=
  flat_map
    (fun rid_range =>
       let '(start_rid, end_rid) := rid_range in
       flat_map (rid_cycle_one target creds sid) (PyNum.range start_rid (end_rid + 1)))
    rid_ranges.

(** The first item of a dictionary: [list(d.keys())[0]] with its value. *)
Definition first_item (v : value) : option (string * value) :=
  match v with
  | VDict (kv :: _) => Some kv
  | _ => None
  end.

(** [output[key] is not None and rid in output[key]], for the dictionary or
    [None] that [output[key]] holds. *)
Definition key_known (key rid : string) (output : dict) : bool :=
  match Dict.get key output with
  | Some (VDict d) => Dict.has rid d
  | _ => false
  end.

(** [output[key][rid] = entry], after [output[key] = {}] when it was [None]. *)
Definition set_entry (key rid : string) (entry : value) (output : dict) : dict :=
  Dict.set key (VDict (Dict.set rid entry (as_dict (Dict.get key output)))) output.

(** [found_count[key] += 1]. *)
Definition bump (key : string) (found_count : list (string * Z)) : list (string * Z) :=
  match Dict.get key found_count with
  | Some n => Dict.set key (n + 1)%Z found_count
  | None => found_count
  end.

Definition count_of (key : string) (found_count : list (string * Z)) : Z :=
  match Dict.get key found_count with Some n => n | None => 0%Z end.

Definition get_str (k : string) (d : dict) : string :=
  match Dict.get k d with Some v => str_of v | None => "" end.

(** The body of the loop [for result in rid_cycler] of [RidCycling.run], on
    the pair of [output] and [found_count].  A result is a dictionary with
    one key, as [rid_cycle] yields them. *)
Definition cycle_step (target : Target) (creds : Credentials) (detailed : bool)
    (module_name : string) (st : dict * list (string * Z)) (result : Result)
  : dict * list (string * Z) :=
  let '(output, found_count) := st in
  match first_item (retval result) with
  | None => st
  | Some (top_level_key, found) =>
      (* We found the domain_sid... *)
      if String.eqb top_level_key "domain_sid" then
        (Dict.set "domain_sid" found output, found_count)
      else
        (* ...otherwise "users", "groups" or "machines". *)
        match first_item found with
        | None => st
        | Some (rid, entry) =>
            (* If we have the RID already, we continue... *)
            if key_known top_level_key rid output then st
            else
              let found_count := bump top_level_key found_count in
              (* ...else we add the result at the right position. *)
              let output := set_entry top_level_key rid entry output in
              if detailed && (PyStr.contains "users" top_level_key
                              || PyStr.contains "groups" top_level_key) then
                let fields := as_dict (Some entry) in
                let details :=
                  if PyStr.contains "users" top_level_key then
                    user_details_from_rid W target creds rid (get_str "username" fields)
                  else
                    group_details_from_rid W target creds rid
                      (get_str "groupname" fields) (get_str "type" fields) in
                let output :=
                  if truthy (retval details) then output
                  else process_error (retmsg details) [top_level_key] module_name output in
                (set_entry top_level_key rid
                   (VDict (Dict.set "details" (retval details) fields)) output,
                 found_count)
              else (output, found_count)
        end
  end.

(** The list of SIDs [RidCycling.run] cycles through: the domain SID when
    [output] has one, else what [enum_sids] finds ([None] when it fails).
    [output] is the [enumerated_input] of the parameters, which has the key
    [domain_sid] once [set_enumerated_input] ran, as it did when [main]
    calls the module. *)
Definition sids_to_cycle (cycle_params : RidCycleParams) (target : Target)
    (creds : Credentials) (output : dict) : Result + list string :=
  match Dict.get "domain_sid" output with
  | Some v =>
      if truthy v then inr [str_of v]
      else
        let sids := enum_sids target creds (known_usernames cycle_params) in
        if is_none (retval sids) then inl sids
        else inr (map str_of (as_list (Some (retval sids))))
  | None =>
      let sids := enum_sids target creds (known_usernames cycle_params) in
      if is_none (retval sids) then inl sids
      else inr (map str_of (as_list (Some (retval sids))))
  end.

(** The two nested loops of [RidCycling.run]. *)
Definition cycle_all (cycle_params : RidCycleParams) (target : Target)
    (creds : Credentials) (detailed : bool) (sids_list : list string)
    (output : dict) : dict * list (string * Z) :=
  fold_left
    (fun st sid =>
       fold_left (cycle_step target creds detailed "rid_cycling")
                 (rid_cycle target creds sid (rid_ranges cycle_params)) st)
    sids_list
    (output, [("users", 0%Z); ("groups", 0%Z); ("machines", 0%Z)]).

(** [RidCycling.run], with the counters of what it found ([None] when it
    returns before cycling). *)
Definition RidCycling_run_counted (cycle_params : RidCycleParams) (target : Target)
    (creds : Credentials) (detailed : bool) : dict * option (list (string * Z)) :=
  let module_name := "rid_cycling" in
  let output := enumerated_input cycle_params in
  (* Try to enumerate SIDs first, if we don't have the domain SID already *)
  match sids_to_cycle cycle_params target creds output with
  | inl sids =>
      (process_error (retmsg sids) ["users"; "groups"; "machines"] module_name output, None)
  | inr sids_list =>
      let '(output, found_count) :=
        cycle_all cycle_params target creds detailed sids_list output in
      let output :=
        if (count_of "users" found_count =? 0)%Z
           && (count_of "groups" found_count =? 0)%Z
           && (count_of "machines" found_count =? 0)%Z
        then process_error "Could not find any (new) users, (new) groups or (new) machines"
               ["users"; "groups"; "machines"] module_name output
        else output in
      (output, Some found_count)
  end.

(** [RidCycling.run]. *)
Definition RidCycling_run (cycle_params : RidCycleParams) (target : Target)
    (creds : Credentials) (detailed : bool) : dict :=
  fst (RidCycling_run_counted cycle_params target creds detailed).

(** A second run of the same [RidCycling] object: [enumerated_input] is the
    dictionary the first run worked on. *)
Definition RidCycling_run_again (cycle_params : RidCycleParams) (target : Target)
    (creds : Credentials) (detailed : bool) : dict * option (list (string * Z)) :=
  RidCycling_run_counted
    (mkRidCycleParams (rid_ranges cycle_params) (known_usernames cycle_params)
                      (RidCycling_run cycle_params target creds detailed))
    target creds detailed.

(** *** Shares *)

(** The pattern "\n\s+\.\.\s+D.*\d{4}\n": the entry [..] of a listing. *)
Definition re_dir_entry : Re.regex :=
  Re.seqs [Re.chr "010"; Re.plus Re.space; Re.lit ".."; Re.plus Re.space; Re.chr "D";
           Re.Star Re.dot; Re.digit; Re.digit; Re.digit; Re.digit; Re.chr "010"].

(** The pattern ".*blocks\sof\ssize.*blocks\savailable.*". *)
Definition re_blocks : Re.regex :=
  Re.seqs [Re.Star Re.dot; Re.lit "blocks"; Re.space; Re.lit "of"; Re.space;
           Re.lit "size"; Re.Star Re.dot; Re.lit "blocks"; Re.space;
           Re.lit "available"; Re.Star Re.dot].

Definition matches (r : Re.regex) (s : string) : bool :=
  match Re.search r s with Some _ => true | None => false end.

(** [EnumShares.check_access]. *)
Definition check_access (target : Target) (creds : Credentials) (share : string) : Result :=
  let command :=
    ["smbclient"; "-W"; workgroup target; "-U"; user creds ++ "%" ++ pw creds;
     "//" ++ host target ++ "/" ++ share; "-c"; "dir"] in
  let output := run command (samba_config target) in
  if PyStr.contains "NT_STATUS_BAD_NETWORK_NAME" output then
    mkResult VNone "Share doesn't exist"
  else if PyStr.contains "NT_STATUS_ACCESS_DENIED listing" output then
    mkResult (VDict [("mapping", VStr "ok"); ("listing", VStr "denied")])
             "Mapping: OK, Listing: DENIED"
  else if PyStr.contains "tree connect failed: NT_STATUS_ACCESS_DENIED" output then
    mkResult (VDict [("mapping", VStr "denied"); ("listing", VStr "n/a")])
             "Mapping: DENIED, Listing: N/A"
  else if PyStr.contains "NT_STATUS_INVALID_INFO_CLASS" output
          || PyStr.contains "NT_STATUS_NETWORK_ACCESS_DENIED" output then
    mkResult (VDict [("mapping", VStr "ok"); ("listing", VStr "not supported")])
             "Mapping: OK, Listing: NOT SUPPORTED"
  else if PyStr.contains "NT_STATUS_OBJECT_NAME_NOT_FOUND" output then
    mkResult VNone "Could not check share: NT_STATUS_OBJECT_NAME_NOT_FOUND"
  else if PyStr.contains "NT_STATUS_INVALID_PARAMETER" output then
    mkResult VNone "Could not check share: NT_STATUS_INVALID_PARAMETER"
  else if PyStr.contains "NT_STATUS_WRONG_PASSWORD" output then
    mkResult VNone "Could not check share: NT_STATUS_WRONG_PASSWORD"
  else if matches re_dir_entry output || matches re_blocks output then
    mkResult (VDict [("mapping", VStr "ok"); ("listing", VStr "ok")])
             "Mapping: OK, Listing: OK"
  else
    mkResult VNone "Could not parse result of smbclient command, please open a GitHub issue".

Record ShareBruteParams : Type := mkShareBruteParams {
  shares_file : string;
  brute_enumerated_input : dict
}.

(** [ShareBruteParams.__init__]. *)
Definition ShareBruteParams_init (shares_file : string) : ShareBruteParams :=
  mkShareBruteParams shares_file [].

(** [ShareBruteParams.set_enumerated_input]. *)
Definition ShareBruteParams_set_enumerated_input (self : ShareBruteParams)
    (enum_input : dict) : ShareBruteParams :=
  mkShareBruteParams (shares_file self)
    (match Dict.get "shares" enum_input with
     | Some v => Dict.set "shares" v (brute_enumerated_input self)
     | None => Dict.set "shares" VNone (brute_enumerated_input self)
     end).

(** The body of the loop [for share in f] of [BruteForceShares.run]. *)
Definition brute_step (target : Target) (creds : Credentials) (st : dict * Z)
    (line : string) : dict * Z :=
  let '(output, found_count) := st in
  let share := PyStr.rstrip line in
  (* Skip all shares we might have found by the enum_shares module already *)
  if key_known "shares" share output then st
  else
    let result := check_access target creds share in
    if truthy (retval result)
    then (set_entry "shares" share (retval result) output, (found_count + 1)%Z)
    else st.

(** The names a function body can use without raising [NameError]: its own
    local names, then the names bound at the top level of the module, then
    the built-in ones. *)
Definition module_globals : list string :=
  ["argparse"; "json"; "os"; "random"; "re"; "socket"; "shutil"; "shlex";
   "subprocess"; "tempfile"; "sys"; "datetime"; "OrderedDict"; "nmb";
   "smbconnection"; "DCERPC_v5"; "transport"; "samr"; "Server"; "Connection";
   "DSA"; "yaml";
   "CONST_NBT_INFO"; "CONST_ACB_DICT"; "CONST_DOMAIN_FIELDS"; "CONST_OS_VERSIONS";
   "CONST_DEPS"; "CONST_RID_RANGES"; "CONST_KNOWN_USERNAMES"; "CONST_TIMEOUT";
   "global_verbose";
   "Colors"; "Result"; "Target"; "Credentials"; "SambaConfig"; "Output";
   "EnumNetbios"; "EnumSessions"; "EnumLdapDomainInfo"; "EnumLsaqueryDomainInfo";
   "EnumOsInfo"; "EnumUsersRpc"; "EnumGroupsRpc"; "RidCycleParams"; "RidCycling";
   "EnumShares"; "ShareBruteParams"; "BruteForceShares"; "EnumPolicy";
   "EnumPrinters"; "EnumServices";
   "prepare_rid_ranges"; "run"; "valid_timeout"; "valid_rid_ranges";
   "valid_shares_file"; "valid_share"; "valid_hex"; "valid_rid"; "valid_workgroup";
   "valid_host"; "print_heading"; "print_success"; "print_error"; "print_info";
   "print_verbose"; "process_error"; "abort"; "check_args"; "check_dependencies";
   "main"].

Definition python_builtins : list string :=
  ["ArithmeticError"; "AssertionError"; "AttributeError"; "BaseException";
   "BaseExceptionGroup"; "BlockingIOError"; "BrokenPipeError"; "BufferError";
   "BytesWarning"; "ChildProcessError"; "ConnectionAbortedError"; "ConnectionError";
   "ConnectionRefusedError"; "ConnectionResetError"; "DeprecationWarning"; "EOFError";
   "Ellipsis"; "EncodingWarning"; "EnvironmentError"; "Exception"; "ExceptionGroup";
   "False"; "FileExistsError"; "FileNotFoundError"; "FloatingPointError";
   "FutureWarning"; "GeneratorExit"; "IOError"; "ImportError"; "ImportWarning";
   "IndentationError"; "IndexError"; "InterruptedError"; "IsADirectoryError";
   "KeyError"; "KeyboardInterrupt"; "LookupError"; "MemoryError";
   "ModuleNotFoundError"; "NameError"; "None"; "NotADirectoryError";
   "NotImplemented"; "NotImplementedError"; "OSError"; "OverflowError";
   "PendingDeprecationWarning"; "PermissionError"; "ProcessLookupError";
   "RecursionError"; "ReferenceError"; "ResourceWarning"; "RuntimeError";
   "RuntimeWarning"; "StopAsyncIteration"; "StopIteration"; "SyntaxError";
   "SyntaxWarning"; "SystemError"; "SystemExit"; "TabError"; "TimeoutError"; "True";
   "TypeError"; "UnboundLocalError"; "UnicodeDecodeError"; "UnicodeEncodeError";
   "UnicodeError"; "UnicodeTranslateError"; "UnicodeWarning"; "UserWarning";
   "ValueError"; "Warning"; "ZeroDivisionError"; "abs"; "aiter"; "all"; "anext";
   "any"; "ascii"; "bin"; "bool"; "breakpoint"; "bytearray"; "bytes"; "callable";
   "chr"; "classmethod"; "compile"; "complex"; "copyright"; "credits"; "delattr";
   "dict"; "dir"; "divmod"; "enumerate"; "eval"; "exec"; "exit"; "filter"; "float";
   "format"; "frozenset"; "getattr"; "globals"; "hasattr"; "hash"; "help"; "hex";
   "id"; "input"; "int"; "isinstance"; "issubclass"; "iter"; "len"; "license";
   "list"; "locals"; "map"; "max"; "memoryview"; "min"; "next"; "object"; "oct";
   "open"; "ord"; "pow"; "print"; "property"; "quit"; "range"; "repr"; "reversed";
   "round"; "set"; "setattr"; "slice"; "sorted"; "staticmethod"; "str"; "sum";
   "super"; "tuple"; "type"; "vars"; "zip"].

(** Reading the name [name] in a function whose local names are [locals]. *)
Definition load_name (locals : list string) (name : string) : py unit :=
  if existsb (String.eqb name) (locals ++ module_globals ++ python_builtins)%list
  then Ret tt
  else Raise (NameError name).

(** The local names of [BruteForceShares.run]. *)
Definition BruteForceShares_run_locals : list string :=
  ["self"; "module_name"; "output"; "found_count"; "f"; "share"; "result"].

(** [BruteForceShares.run].  The handler of the [try] formats its message
    from the name [brute_params], where the rest of the method reads
    [self.brute_params]. *)
Definition BruteForceShares_run (brute_params : ShareBruteParams) (target : Target)
    (creds : Credentials) : py dict :=
  let module_name := "brute_force_shares" in
  let output := brute_enumerated_input brute_params in
  let found_count := 0%Z in
  let '(lines, raised) := read_file W (shares_file brute_params) in
  let '(output, found_count) :=
    fold_left (brute_step target creds) lines (output, found_count) in
  let handled : py dict :=
    if raised then
      match load_name BruteForceShares_run_locals "brute_params" with
      | Raise e => Raise e
      | Ret _ =>
          Ret (process_error ("Failed to open " ++ shares_file brute_params)
                             ["shares"] module_name output)
      end
    else Ret output in
  match handled with
  | Raise e => Raise e
  | Ret output =>
      if (found_count =? 0)%Z
      then Ret (process_error "Could not find any (new) shares" ["shares"]
                              module_name output)
      else Ret output
  end.

(** *** Policy *)

(** The loop over the ports 139 and 445 of [EnumPolicy.run]. *)
Fixpoint policy_loop (module_name : string) (ports : list Z) (target : Target)
    (creds : Credentials) (output : dict) : Target * dict :=
  match ports with
  | [] => (target, output)
  | port :: ports' =>
      let target := set_port target port in
      let enum := EnumPolicy_enum W target creds in
      if is_none (retval enum) then
        policy_loop module_name ports' target creds
          (Dict.set "policy" VNone
             (process_error (retmsg enum) ["policy"] module_name output))
      else (target, Dict.set "policy" (retval enum) output)
  end.

(** [EnumPolicy.run]. *)
Definition EnumPolicy_run (target : Target) (creds : Credentials) : Target * dict :=
  policy_loop "enum_policy" [139; 445]%Z target creds [].

(** The words of [policy_to_human] for a count: nothing for zero. *)
Definition plural (n : Z) (unit_name : string) (after : string) : string :=
  if (n >? 1)%Z then PyNum.str n ++ " " ++ unit_name ++ "s" ++ after
  else if (n =? 1)%Z then PyNum.str n ++ " " ++ unit_name ++ after
  else "".


(** The end of [policy_to_human]: the [try] around the three reads of
    [datetime.utcfromtimestamp(tmp)], then the string. *)
Definition duration_string (ticks : Z) : string :=
  match utc_fields W ticks with
  | None => "invalid time"
  | Some (days, hours, minutes) =>
      plural days "day" " " ++ plural hours "hour" " " ++ plural minutes "minute" ""
  end.


(** *** The run *)

(** The arguments, as [check_args] returns them. *)
Record Args : Type := mkArgs {
  arg_host : string;
  arg_A : bool; arg_As : bool; arg_U : bool; arg_G : bool; arg_Gm : bool;
  arg_S : bool; arg_C : bool; arg_P : bool; arg_O : bool; arg_L : bool;
  arg_I : bool; arg_R : bool; arg_N : bool;
  arg_workgroup : string;
  arg_user : string;
  arg_pw : string;
  arg_d : bool;
  arg_users : string;
  arg_ranges : string;
  arg_shares_file : option string;
  arg_timeout : Z;
  arg_out_json_file : option string;
  arg_out_yaml_file : option string
}.

(** [int(s)] for a string. *)
Definition py_int (s : string) : py Z := PyInt.int10 s.

(** One range of [prepare_rid_ranges]. *)
Definition prepare_rid_range (rid_range : string) : py (Z * Z) :=
  let parts :=
    if PyText.isdigit rid_range then Ret (rid_range, rid_range)
    else match PyStr.split "-" rid_range with
         | [start_rid; end_rid] => Ret (start_rid, end_rid)
         | _ => Raise (ValueError "not enough or too many values to unpack")
         end in
  match parts with
  | Raise e => Raise e
  | Ret (start_rid, end_rid) =>
      match py_int start_rid, py_int end_rid with
      | Ret start_rid, Ret end_rid =>
          (* Reverse if neccessary *)
          if (start_rid >? end_rid)%Z then Ret (end_rid, start_rid)
          else Ret (start_rid, end_rid)
      | Raise e, _ => Raise e
      | _, Raise e => Raise e
      end
  end.

(** [prepare_rid_ranges]. *)
Fixpoint prepare_all (ranges : list string) : py (list (Z * Z)) :=
  match ranges with
  | [] => Ret []
  | r :: ranges' =>
      match prepare_rid_range r with
      | Raise e => Raise e
      | Ret x =>
          match prepare_all ranges' with
          | Raise e => Raise e
          | Ret l => Ret (x :: l)
          end
      end
  end.

Definition prepare_rid_ranges (rid_ranges : string) : py (list (Z * Z)) :=
  prepare_all (PyStr.split "," rid_ranges).

(** What [main] works on: the target and [output.out_dict]. *)
Record state : Type := mkState { st_target : Target; st_out : dict }.

(** A step of [main]: it returns or raises, and leaves a state either way. *)
Definition step (A : Type) : Type := state -> py A * state.

Definition ret {A} (a : A) : step A := fun s => (Ret a, s).

Definition bind {A B} (c : step A) (k : A -> step B) : step B :=
  fun s =>
    match c s with
    | (Ret a, s') => k a s'
    | (Raise e, s') => (Raise e, s')
    end.

Definition lift {A} (r : py A) : step A := fun s => (r, s).

Definition when (b : bool) (c : step unit) : step unit :=
  if b then c else ret tt.

Definition get_target : step Target := fun s => (Ret (st_target s), s).

Definition put_target (t : Target) : step unit :=
  fun s => (Ret tt, mkState t (st_out s)).

Declare Scope step_scope.
Delimit Scope step_scope with step.
Notation "x <- c ;; k" := (bind c (fun x => k))
  (at level 61, c at next level, right associativity) : step_scope.
Notation "c ;;; k" := (bind c (fun _ => k))
  (at level 61, right associativity) : step_scope.

(** [abort(code, msg)]. *)
Definition abort {A} (code : Z) : step A := lift (Raise (SystemExit code)).

(** [Output.update]: the merge, then the output file when there is one. *)
Definition Output_update (out_file : option (string * string)) (content : dict)
  : step unit :=
  fun s =>
    let out_dict := Output_merge (st_out s) content in
    let s' := mkState (st_target s) out_dict in
    match out_file with
    | Some (path, kind) =>
        if write_file W path kind out_dict then (Ret tt, s')
        else (Raise (SystemExit 1), s')
    | None => (Ret tt, s')
    end.

(** [target.update_workgroup(result[key], long_domain)] under the guard
    [not target.workgroup and result[key]] of [main]. *)
Definition adopt_workgroup (result : dict) (key : string) (long_domain : bool)
  : step unit :=
  fun s =>
    let target := st_target s in
    if negb (PyStr.truthy (workgroup target)) && get_truthy key result
    then (Ret tt, mkState (update_workgroup target (get_str key result) long_domain)
                          (st_out s))
    else (Ret tt, s).

Open Scope step_scope.

(** The LDAP module in [main]: the run, the workgroup from the long domain,
    the update of the output. *)
Definition main_ldap (out_file : option (string * string)) : step unit :=
  target <- get_target ;;
  let '(target, result) := EnumLdapDomainInfo_run target in
  put_target target ;;;
  adopt_workgroup result "long_domain" true ;;;
  Output_update out_file result.

(** [main] up to the session checks: the LDAP and NetBIOS modules. *)
Definition main_before_sessions (args : Args) (out_file : option (string * string))
  : step unit :=
  (* Checks if host is a parent/child domain controller, try to get long domain name *)
  when (arg_L args || arg_A args || arg_As args) (main_ldap out_file) ;;;
  (* Try to retrieve workstation and nbtstat information *)
  when (arg_N args || arg_A args)
    (target <- get_target ;;
     result <- lift (EnumNetbios_run W target) ;;
     adopt_workgroup result "workgroup" false ;;;
     Output_update out_file result).

(** The session checks of [main] and the gate after them. *)
Definition main_sessions (creds : Credentials) (out_file : option (string * string))
  : step unit :=
  target <- get_target ;;
  let '(target, result) := EnumSessions_run target creds in
  put_target target ;;;
  Output_update out_file result ;;;
  fun s =>
    if negb (get_truthy "sessions_possible" (st_out s))
    then abort 1 s
    else ret tt s.

(** A module of [main] that leaves the target alone. *)
Definition simple_module (enabled : bool) (out_file : option (string * string))
    (module : Target -> py dict) : step unit :=
  when enabled
    (target <- get_target ;;
     result <- lift (module target) ;;
     Output_update out_file result).

(** [main] after the gate. *)
Definition main_after_sessions (args : Args) (creds : Credentials)
    (out_file : option (string * string)) (cycle_params : option RidCycleParams)
    (share_brute_params : option ShareBruteParams) : step unit :=
  (* Try to get domain name and sid via lsaquery *)
  (target <- get_target ;;
   let result := EnumLsaqueryDomainInfo_run target creds in
   adopt_workgroup result "workgroup" false ;;;
   Output_update out_file result) ;;;
  (* Get OS information like os version, server type string... *)
  simple_module (arg_O args || arg_A args || arg_As args) out_file
    (fun target => EnumOsInfo_run W target creds) ;;;
  (* Enum users *)
  simple_module (arg_U args || arg_A args || arg_As args) out_file
    (fun target => Ret (EnumUsersRpc_run target creds (arg_d args))) ;;;
  (* Enum groups *)
  simple_module (arg_G args || arg_Gm args || arg_A args || arg_As args) out_file
    (fun target => EnumGroupsRpc_run W target creds (arg_Gm args) (arg_d args)) ;;;
  (* Enum services *)
  simple_module (arg_C args) out_file (fun target => EnumServices_run W target creds) ;;;
  (* Enum shares *)
  simple_module (arg_S args || arg_A args || arg_As args) out_file
    (fun target => EnumShares_run W target creds) ;;;
  (* Enum password policy *)
  when (arg_P args || arg_A args || arg_As args)
    (target <- get_target ;;
     let '(target, result) := EnumPolicy_run target creds in
     put_target target ;;;
     Output_update out_file result) ;;;
  (* Enum printers *)
  simple_module (arg_I args || arg_A args || arg_As args) out_file
    (fun target => EnumPrinters_run W target creds) ;;;
  (* RID Cycling (= bruteforce users, groups and machines) *)
  match cycle_params with
  | Some cycle_params =>
      (fun s =>
         match RidCycleParams_set_enumerated_input cycle_params (st_out s) with
         | Raise e => (Raise e, s)
         | Ret cycle_params =>
             Output_update out_file
               (RidCycling_run cycle_params (st_target s) creds (arg_d args)) s
         end)
  | None => ret tt
  end ;;;
  (* Brute force shares *)
  match share_brute_params with
  | Some share_brute_params =>
      (fun s =>
         match BruteForceShares_run
                 (ShareBruteParams_set_enumerated_input share_brute_params (st_out s))
                 (st_target s) creds with
         | Raise e => (Raise e, s)
         | Ret result => Output_update out_file result s
         end)
  | None => ret tt
  end.

(** The output file of the run and its kind. *)
Definition out_file_of (args : Args) : option (string * string) :=
  match arg_out_json_file args, arg_out_yaml_file args with
  | Some path, _ => Some (path, "json")
  | None, Some path => Some (path, "yaml")
  | None, None => None
  end.

Definition creds_of (args : Args) : Credentials :=
  mkCredentials (arg_user args) (arg_pw args) (random_username W).

Definition target_of (args : Args) : Target :=
  Target_init (arg_host args) (arg_workgroup args) None (Some (arg_timeout args))
              None None.

(** [main] before the session checks: the parameters of RID cycling and of
    the share brute force, the first two updates, the LDAP and NetBIOS
    modules. *)
Definition main_setup (args : Args)
  : step (option RidCycleParams * option ShareBruteParams) :=
  cycle_params <-
    (if arg_R args
     then r <- lift (prepare_rid_ranges (arg_ranges args)) ;;
          ret (Some (RidCycleParams_init r (arg_users args)))
     else ret None) ;;
  let share_brute_params := option_map ShareBruteParams_init (arg_shares_file args) in
  (* Add target host and creds information used during enumeration to output *)
  Output_update (out_file_of args) (Target_as_dict (target_of args)) ;;;
  Output_update (out_file_of args) (Credentials_as_dict (creds_of args)) ;;;
  main_before_sessions args (out_file_of args) ;;;
  ret (cycle_params, share_brute_params).

(** [main], from the arguments [check_args] returned. *)
Definition main (args : Args) : py unit * state :=
  (params <- main_setup args ;;
   main_sessions (creds_of args) (out_file_of args) ;;;
   main_after_sessions args (creds_of args) (out_file_of args) (fst params) (snd params))
    (mkState (target_of args) Output_init).

Close Scope step_scope.

(** The exit status of the process after [main]. *)
Definition exit_code (r : py unit * state) : Z :=
  match fst r with
  | Ret _ => 0%Z
  | Raise e => exit_status e
  end.

End Engine.

(** ** Notions of the statements *)

(** The maps of identities RID cycling extends. *)
Definition identity_keys : list string := ["users"; "groups"; "machines"].

(** The map under [key] in an output, empty when [output[key]] is [None]. *)
Definition entries (key : string) (output : dict) : dict :=
  as_dict (Dict.get key output).

(** The results [rid_cycle] yields: a domain SID, or one entry of one of the
    three maps. *)
Definition is_hit (r : Result) : Prop :=
  (exists v, retval r = VDict [("domain_sid", v)])
  \/ (exists key rid entry,
         In key identity_keys /\ retval r = VDict [(key, VDict [(rid, entry)])]).

(** The counters of a run that found nothing. *)
Definition nothing_found : list (string * Z) :=
  [("users", 0%Z); ("groups", 0%Z); ("machines", 0%Z)].

(** ** Sample environments

    Concrete hosts, for the examples below. *)

(** A host that answers nothing: every command prints the empty string, no
    connection succeeds, no file can be read. *)
Definition silent_world : World :=
  mkWorld "qwertzui"
    (fun _ => "")
    (fun _ _ _ => SmbConnectionRefused)
    (fun _ => None)
    (fun _ _ _ => LdapException "socket connection error while opening: refused")
    (fun _ => ([], true))
    (fun _ _ _ => true)
    (fun _ => None)
    (fun _ _ => mkResult VNone "Could not find users via 'querydispinfo': NT_STATUS_ACCESS_DENIED")
    (fun _ _ => mkResult VNone "Could not find users via 'enumdomusers': NT_STATUS_ACCESS_DENIED")
    (fun _ _ _ _ => mkResult VNone "Could not find details")
    (fun _ _ _ _ _ => mkResult VNone "Could not find details")
    (fun _ => Ret [("workgroup", VNone); ("nmblookup", VNone)])
    (fun _ _ => Ret [("os_info", VNone)])
    (fun _ _ _ _ => Ret [("groups", VNone)])
    (fun _ _ => Ret [("services", VNone)])
    (fun _ _ => Ret [("shares", VNone)])
    (fun _ _ => mkResult VNone "DCE/SAMR named pipe connect failed")
    (fun _ _ => Ret [("printers", VNone)]).

(** The same host with other answers to the commands. *)
Definition with_commands (answers : list string -> string) (w : World) : World :=
  mkWorld (random_username w) answers (smb_negotiate w) (new_samba_config w)
    (ldap_connect w) (read_file w) (write_file w) (utc_fields w)
    (enum_from_querydispinfo w) (enum_from_enumdomusers w)
    (user_details_from_rid w) (group_details_from_rid w)
    (EnumNetbios_run w) (EnumOsInfo_run w) (EnumGroupsRpc_run w)
    (EnumServices_run w) (EnumShares_run w) (EnumPolicy_enum w) (EnumPrinters_run w).

(** The same host with an LDAP service that gives these naming contexts. *)
Definition with_naming_contexts (contexts : list string) (w : World) : World :=
  mkWorld (random_username w) (check_output w) (smb_negotiate w) (new_samba_config w)
    (fun _ _ _ => LdapInfo (Some contexts)) (read_file w) (write_file w) (utc_fields w)
    (enum_from_querydispinfo w) (enum_from_enumdomusers w)
    (user_details_from_rid w) (group_details_from_rid w)
    (EnumNetbios_run w) (EnumOsInfo_run w) (EnumGroupsRpc_run w)
    (EnumServices_run w) (EnumShares_run w) (EnumPolicy_enum w) (EnumPrinters_run w).

(** The same host with these two listings of users. *)
Definition with_listings (qdi edu : Result) (w : World) : World :=
  mkWorld (random_username w) (check_output w) (smb_negotiate w) (new_samba_config w)
    (ldap_connect w) (read_file w) (write_file w) (utc_fields w)
    (fun _ _ => qdi) (fun _ _ => edu)
    (user_details_from_rid w) (group_details_from_rid w)
    (EnumNetbios_run w) (EnumOsInfo_run w) (EnumGroupsRpc_run w)
    (EnumServices_run w) (EnumShares_run w) (EnumPolicy_enum w) (EnumPrinters_run w).

(** The same host with a files system that holds one file. *)
Definition with_file (path : string) (lines : list string) (w : World) : World :=
  mkWorld (random_username w) (check_output w) (smb_negotiate w) (new_samba_config w)
    (ldap_connect w)
    (fun p => if String.eqb p path then (lines, false) else ([], true))
    (write_file w) (utc_fields w)
    (enum_from_querydispinfo w) (enum_from_enumdomusers w)
    (user_details_from_rid w) (group_details_from_rid w)
    (EnumNetbios_run w) (EnumOsInfo_run w) (EnumGroupsRpc_run w)
    (EnumServices_run w) (EnumShares_run w) (EnumPolicy_enum w) (EnumPrinters_run w).

(** The answer to the command whose arguments include [arg], by a table. *)
Fixpoint answer (table : list (string * string)) (command : list string) : string :=
  match table with
  | [] => ""
  | (arg, text) :: table' =>
      if existsb (String.eqb arg) command then text else answer table' command
  end.

(** A target and anonymous credentials. *)
Definition sample_target : Target :=
  Target_init "10.10.10.5" "" None (Some 5%Z) None None.

Definition sample_creds : Credentials := mkCredentials "" "" "qwertzui".

(** The two listings of one account, as [enum_from_querydispinfo] and
    [enum_from_enumdomusers] build them. *)
Definition sample_qdi : dict :=
  [("500", VDict [("username", VStr "Administrator"); ("name", VStr "");
                  ("acb", VStr "0x00000210");
                  ("description", VStr "Built-in account for administering the domain")])].

Definition sample_edu : dict :=
  [("500", VDict [("username", VStr "Administrator")]);
   ("501", VDict [("username", VStr "Guest")])].



(** The arguments of a run with no option but the host ([-A] is implied). *)
Definition sample_args : Args :=
  mkArgs "10.10.10.5" true false false false false false false false false false
         false false false "" "" "" false
         "administrator,guest,krbtgt,domain admins,root,bin,none"
         "500-550,1000-1050" None 5%Z None None.

(** What [main] has done on the silent host when it reaches the session
    checks. *)
Definition silent_setup : py (option RidCycleParams * option ShareBruteParams) * state :=
  Eval vm_compute in
    main_setup silent_world sample_args (mkState (target_of sample_args) Output_init).

(** A domain member that answers one lookup: RID 501 is the user [alice]. *)
Definition alice_world : World :=
  with_commands
    (answer [("lookupsids S-1-5-21-1111-2222-3333-501",
              "S-1-5-21-1111-2222-3333-501 CORP\alice (1)")])
    silent_world.

(** The input of RID cycling after the users module found the
    administrator and lsaquery the domain SID. *)
Definition alice_params : RidCycleParams :=
  mkRidCycleParams [(500, 502)%Z] "administrator,guest"
    [("users", VDict [("500", VDict [("username", VStr "Administrator")])]);
     ("groups", VNone); ("machines", VNone);
     ("domain_sid", VStr "S-1-5-21-1111-2222-3333")].

(** A host that answers the lookup of [SID-500] with the tag of a domain
    SID, and knows a user under that longer SID. *)
Definition nested_world : World :=
  with_commands
    (answer [("lookupsids S-1-5-21-1111-2222-3333-500",
              "S-1-5-21-1111-2222-3333-500 CORP (3)");
             ("lookupsids S-1-5-21-1111-2222-3333-500-500",
              "S-1-5-21-1111-2222-3333-500-500 CORP\alice (1)")])
    silent_world.

Definition nested_params : RidCycleParams :=
  mkRidCycleParams [(500, 500)%Z] "administrator,guest"
    [("users", VNone); ("groups", VNone); ("machines", VNone);
     ("domain_sid", VStr "S-1-5-21-1111-2222-3333")].

(** A host where [lookupnames administrator] gives the SID of the account
    and [lsaenumsid] is refused. *)
Definition lookupnames_world : World :=
  with_commands
    (answer [("lookupnames administrator",
              "administrator S-1-5-21-1111-2222-3333-500 (User: 1)");
             ("lsaenumsid", "result was NT_STATUS_ACCESS_DENIED")])
    silent_world.

(** The output of [lsaquery] on a domain member. *)
Definition domain_member_lsaquery : string :=
  "Domain Name: CORP" ++ PyStr.nl ++ "Domain Sid: S-1-5-21-1111-2222-3333".

(** The naming contexts of a domain controller with no DNS zone among
    them. *)
Definition child_dc_contexts : list string :=
  ["DC=emea,DC=corp,DC=example";
   "CN=Configuration,DC=corp,DC=example";
   "CN=Schema,CN=Configuration,DC=corp,DC=example"].

(** A host that allows sessions, and a run that is to guess shares from a
    word list that cannot be opened. *)
Definition open_world : World :=
  with_commands (answer [("help", "?              allinfo        case_sensitive")])
                silent_world.

Definition brute_args : Args :=
  mkArgs "10.10.10.5" false false false false false false false false false false
         false false false "" "" "" false
         "administrator,guest,krbtgt,domain admins,root,bin,none"
         "500-550,1000-1050" (Some "/tmp/shares.txt") 5%Z None None.

(** ** More notions of the statements *)

(** The messages the ledger of [output] holds for the field [entry] under
    the module [module_name]: [output["errors"][entry][module_name]], the
    empty list when one of the keys is missing. *)
Definition messages (entry module_name : string) (output : dict) : list value :=
  as_list (Dict.get module_name
             (as_dict (Dict.get entry (as_dict (Dict.get "errors" output))))).

(** A dictionary of dictionaries of lists: what [process_error] expects
    under ["errors"]. *)
Definition is_ledger (errors : dict) : bool :=
  forallb
    (fun kv =>
       match snd kv with
       | VDict modules =>
           forallb (fun mv => match snd mv with VList _ => true | _ => false end) modules
       | _ => false
       end)
    errors.

(** An output that has no ledger yet, or a ledger. *)
Definition ledger_ok (output : dict) : bool :=
  match Dict.get "errors" output with
  | None => true
  | Some (VDict errors) => is_ledger errors
  | Some _ => false
  end.

(** The shape [Output.update] gives the tree: no key twice, and the ledger
    of errors the last one. *)
Definition tree_ok (out : dict) : Prop :=
  NoDup (Dict.keys out) /\ exists d e, out = (d ++ [("errors", VDict e)])%list.

(** A step of [main] that keeps the shape of the tree, however it ends. *)
Definition keeps_tree {A} (c : step A) : Prop :=
  forall s, tree_ok (st_out s) -> tree_ok (st_out (snd (c s))).

(** A field of a module's output that holds a true value and has no error
    of the module in the ledger, or holds [None] and has one. *)
Definition found_or_reported (module_name field : string) (output : dict) : Prop :=
  match Dict.get field output with
  | Some VNone => messages field module_name output <> []
  | Some v => truthy v = true /\ messages field module_name output = []
  | None => False
  end.

(** A tree whose [shares], when it has them, is [None] or a dictionary: what
    [EnumShares.run] leaves there. *)
Definition shares_typed (tree : dict) : Prop :=
  match Dict.get "shares" tree with
  | None | Some VNone | Some (VDict _) => True
  | Some _ => False
  end.

(** ** Validation functions *)

(** [re.match(r, s)]; also [re.search(r, s)] for a pattern that starts with
    "^" and is used without [re.MULTILINE]: the match at the first position,
    or none. *)
Definition re_match (r : Re.regex) (s : string) : option Re.found :=
  Re.match_here r (list_ascii_of_string s).

Definition is_some {A} (o : option A) : bool :=
  match o with Some _ => true | None => false end.

(** The class "[a-zA-Z0-9\._\$-]". *)
Definition share_char (c : ascii) : bool :=
  PyText.between "a" "z" c || PyText.between "A" "Z" c || PyText.between "0" "9" c
  || Ascii.eqb c "." || Ascii.eqb c "_" || Ascii.eqb c "$" || Ascii.eqb c "-".

(** The class "[A-Za-z0-9_\.-]". *)
Definition workgroup_char (c : ascii) : bool :=
  PyText.between "A" "Z" c || PyText.between "a" "z" c || PyText.between "0" "9" c
  || Ascii.eqb c "_" || Ascii.eqb c "." || Ascii.eqb c "-".

(** The class "[a-zA-Z0-9\._-]". *)
Definition host_char (c : ascii) : bool :=
  PyText.between "a" "z" c || PyText.between "A" "Z" c || PyText.between "0" "9" c
  || Ascii.eqb c "." || Ascii.eqb c "_" || Ascii.eqb c "-".

(** [valid_share]: the pattern "^[a-zA-Z0-9\._\$-]+$". *)
Definition valid_share (share : string) : bool :=
  is_some (re_match (Re.Seq (Re.plus (Re.Cls share_char)) Re.Eol) share).

(** [valid_workgroup]: the pattern "^[A-Za-z0-9_\.-]+$". *)
Definition valid_workgroup (workgroup : string) : bool :=
  is_some (re_match (Re.Seq (Re.plus (Re.Cls workgroup_char)) Re.Eol) workgroup).

(** [valid_host]: the pattern "^([a-zA-Z0-9\._-]+)$". *)
Definition valid_host (host : string) : bool :=
  is_some (re_match (Re.Seq (Re.Group 1 (Re.plus (Re.Cls host_char))) Re.Eol) host).

(** ** Regular expressions, by what they match

    [re_matches r s c s' c']: the expression [r] can match the start of [s],
    leaving [s'], and turn the captures [c] into [c']. *)
Inductive re_matches : Re.regex -> list ascii -> Re.captures -> list ascii -> Re.captures -> Prop :=
| M_Eps s c : re_matches Re.Eps s c s c
| M_Cls p x s c : p x = true -> re_matches (Re.Cls p) (x :: s) c s c
| M_Seq a b s c s1 c1 s2 c2 :
    re_matches a s c s1 c1 -> re_matches b s1 c1 s2 c2 -> re_matches (Re.Seq a b) s c s2 c2
| M_Star_stop a s c : re_matches (Re.Star a) s c s c
| M_Star_step a s c s1 c1 s2 c2 :
    re_matches a s c s1 c1 -> re_matches (Re.Star a) s1 c1 s2 c2 ->
    re_matches (Re.Star a) s c s2 c2
| M_Group n a s c s1 c1 :
    re_matches a s c s1 c1 ->
    re_matches (Re.Group n a) s c s1 ((n, firstn (length s - length s1) s) :: c1)
| M_Backref n g s c :
    Re.group n c = Some g -> Re.starts_with g s = true ->
    re_matches (Re.Backref n) s c (skipn (length g) s) c
| M_Eol s c : s = [] \/ s = ["010"%char] -> re_matches Re.Eol s c s c.

(** The strings over a class of characters. *)
Definition over (p : ascii -> bool) (s : string) : bool :=
  forallb p (list_ascii_of_string s).

(** What a pattern "^[...]+$" lets through: a string over the class that is
    not empty, as it is or with one newline after it ("$" also matches
    before a newline that ends the string). *)
Definition line_over (p : ascii -> bool) (s : string) : Prop :=
  exists body, body <> "" /\ over p body = true /\ (s = body \/ s = body ++ PyStr.nl).

(** The class "[0-9a-f]". *)
Definition hex_lower_char (c : ascii) : bool :=
  PyText.between "0" "9" c || PyText.between "a" "f" c.

(** [valid_hex]: the pattern "^0x[0-9a-f]+$" on [hexnumber.lower()]. *)
Definition valid_hex (hexnumber : string) : bool :=
  is_some (re_match (Re.seqs [Re.lit "0x"; Re.plus (Re.Cls hex_lower_char); Re.Eol])
                    (PyText.lower hexnumber)).

(** [valid_rid], for the values the program has: [None] stands for the
    [AttributeError] of [rid.isdigit()] on a value that is no string.
    [True] and [False] are the integers 1 and 0. *)
Definition valid_rid (rid : value) : option bool :=
  match rid with
  | VInt n => if (n >? 0)%Z then Some true else None
  | VBool b => if b then Some true else None
  | VStr s => Some (PyText.isdigit s)
  | _ => None
  end.

(** The pattern "^(\d+)-(\d+)$". *)
Definition re_rid_range : Re.regex :=
  Re.seqs [Re.Group 1 (Re.plus Re.digit); Re.chr "-"; Re.Group 2 (Re.plus Re.digit);
           Re.Eol].

(** [valid_rid_ranges]. *)
Definition valid_rid_ranges (rid_ranges : string) : bool :=
  if negb (PyStr.truthy rid_ranges) then false
  else
    forallb
      (fun rid_range =>
         is_some (re_match re_rid_range rid_range) || PyText.isdigit rid_range)
      (PyStr.split "," rid_ranges).

(** The number a string of decimal digits writes. *)
Definition decimal (digits : string) : Z :=
  fold_left (fun n c => (n * 10 + (Z.of_nat (nat_of_ascii c) - 48))%Z)
            (list_ascii_of_string digits) 0%Z.

(** A string of decimal digits that is not empty. *)
Definition is_number (digits : string) : Prop :=
  digits <> "" /\ over Re.is_digit digits = true.

(** The two numbers of an item of the RID ranges: "n" has [n] twice, "a-b"
    has [a] and [b], with or without a newline after it. *)
Definition item_numbers (item : string) (a b : Z) : Prop :=
  exists d1 d2,
    is_number d1 /\ is_number d2
    /\ (item = d1 /\ d2 = d1
        \/ item = d1 ++ "-" ++ d2 \/ item = d1 ++ "-" ++ d2 ++ PyStr.nl)
    /\ a = decimal d1 /\ b = decimal d2.

(** An entry of a listing with the field [details] the detailed run adds to
    it: what [get_details_from_rid] returned for the RID and the user name of
    the entry when that is a true value, the empty string when it is not. *)
Definition detailed_entry (W : World) (target : Target) (creds : Credentials)
    (listing : dict) (rid : string) (v : value) : Prop :=
  let entry := as_dict (Dict.get rid listing) in
  let name := match Dict.get "username" entry with
              | Some v => str_of v
              | None => ""
              end in
  let user_details := user_details_from_rid W target creds rid name in
  v = VDict (Dict.set "details"
               (if truthy (retval user_details) then retval user_details else VStr "")
               entry).

(** A component of a distinguished name, as it stands after "DC=": not
    empty, with no comma and no equals sign in it. *)
Definition dn_label (l : string) : Prop :=
  l <> ""
  /\ over (fun c => negb (Ascii.eqb c ",") && negb (Ascii.eqb c "=")) l = true.

(** The commas of a text. *)
Definition commas (s : list ascii) : nat := count_occ ascii_dec s ","%char.

(** ** Users via RPC: the listings and the details *)

(** "\s" and "\S". *)
Definition re_space : Re.regex := Re.Cls PyText.isspace.
Definition re_not_space : Re.regex := Re.Cls (fun c => negb (PyText.isspace c)).

(** The class "[A-F-a-f0-9]": after the range A to F the dash stands for
    itself. *)
Definition rid_hex_char (c : ascii) : bool :=
  PyText.between "A" "F" c || Ascii.eqb c "-" || PyText.between "a" "f" c
  || PyText.between "0" "9" c.

(** "0x[A-F-a-f0-9]+". *)
Definition re_hex_rid : Re.regex :=
  Re.Seq (Re.lit "0x") (Re.plus (Re.Cls rid_hex_char)).

(** The pattern of [enum_from_enumdomusers]: "user:", the name between
    square brackets (group 1, any characters but a newline, as many as
    there are), one white space, "rid:", and between square brackets the
    number "0x[A-F-a-f0-9]+" (group 2). *)
Definition re_enumdomusers : Re.regex :=
  Re.seqs [Re.lit "user:["; Re.Group 1 (Re.Star Re.dot); Re.chr "]"; re_space;
           Re.lit "rid:["; Re.Group 2 re_hex_rid; Re.chr "]"].

(** The pattern of [enum_from_querydispinfo]: "index:", "RID:" with the
    number in group 1, then "acb:", "Account:", "Name:" and "Desc:", each
    followed by white space and a group of any characters, with white space
    between the parts. *)
Definition re_querydispinfo : Re.regex :=
  Re.seqs [Re.lit "index:"; Re.plus re_space; Re.Star Re.dot; Re.plus re_space;
           Re.lit "RID:"; Re.plus re_space; Re.Group 1 re_hex_rid; Re.plus re_space;
           Re.lit "acb:"; Re.plus re_space; Re.Group 2 (Re.Star Re.dot); Re.plus re_space;
           Re.lit "Account:"; Re.plus re_space; Re.Group 3 (Re.Star Re.dot);
           Re.plus re_space;
           Re.lit "Name:"; Re.plus re_space; Re.Group 4 (Re.Star Re.dot); Re.plus re_space;
           Re.lit "Desc:"; Re.plus re_space; Re.Group 5 (Re.Star Re.dot)].

(** The loop of [enum_from_enumdomusers] over the lines: [None] when a line
    does not match; [int] and [str] raise [ValueError], the one for a number
    with a dash in it, the other for one of more than 4300 digits. *)
Fixpoint enumdomusers_lines (lines : list string) (users : dict) : py (option dict) :=
  match lines with
  | [] => Ret (Some users)
  | line :: lines' =>
      match Re.search re_enumdomusers line with
      | Some m =>
          let username := Re.group_str 1 m in
          match PyInt.int16 (Re.group_str 2 m) with
          | Ret rid =>
              match PyInt.str rid with
              | Ret rid =>
                  enumdomusers_lines lines'
                    (Dict.set rid (VDict [("username", VStr username)]) users)
              | Raise e => Raise e
              end
          | Raise e => Raise e
          end
      | None => Ret None
      end
  end.

(** The loop of [enum_from_querydispinfo]. *)
Fixpoint querydispinfo_lines (lines : list string) (users : dict) : py (option dict) :=
  match lines with
  | [] => Ret (Some users)
  | line :: lines' =>
      match Re.search re_querydispinfo line with
      | Some m =>
          match PyInt.int16 (Re.group_str 1 m) with
          | Ret rid =>
              match PyInt.str rid with
              | Ret rid =>
                  querydispinfo_lines lines'
                    (Dict.set rid
                       (VDict [("username", VStr (Re.group_str 3 m));
                               ("name", VStr (Re.group_str 4 m));
                               ("acb", VStr (Re.group_str 2 m));
                               ("description", VStr (Re.group_str 5 m))])
                       users)
              | Raise e => Raise e
              end
          | Raise e => Raise e
          end
      | None => Ret None
      end
  end.

(** What [enum_from_enumdomusers] makes of the text [enumdomusers]
    returned. *)
Definition users_of_enumdomusers (text : string) : py Result :=
  match enumdomusers_lines (PyText.splitlines text) [] with
  | Raise e => Raise e
  | Ret None =>
      Ret (mkResult VNone
             "Could not extract users from eumdomusers output, please open a GitHub issue")
  | Ret (Some users) =>
      Ret (mkResult (VDict users)
             ("Found " ++ PyNum.str (Z.of_nat (length users)) ++ " users via 'enumdomusers'"))
  end.

(** What [enum_from_querydispinfo] makes of the text [querydispinfo]
    returned. *)
Definition users_of_querydispinfo (text : string) : py Result :=
  match querydispinfo_lines (PyText.splitlines text) [] with
  | Raise e => Raise e
  | Ret None =>
      Ret (mkResult VNone
             "Could not extract users from querydispinfo output, please open a GitHub issue")
  | Ret (Some users) =>
      Ret (mkResult (VDict users)
             ("Found " ++ PyNum.str (Z.of_nat (length users))
                ++ " users via 'querydispinfo'"))
  end.

(** [CONST_ACB_DICT], in the order of its keys. *)
Definition CONST_ACB_DICT : list (Z * string) :=
  [(1, "Account Disabled"); (512, "Password not expired"); (1024, "Account locked out");
   (131072, "Password expired"); (64, "Interdomain trust account");
   (128, "Workstation trust account"); (256, "Server trust account");
   (8192, "Trusted for delegation")]%Z.

(** The pattern of the details of a user, with [re.DOTALL]: one group, from
    the start of the line of "User Name" to the end of the line of
    "logon_hrs". *)
Definition re_user_info : Re.regex :=
  Re.Group 1 (Re.seqs [Re.Star Re.dot; Re.lit "User Name"; Re.Star (Re.Cls (fun _ => true));
                       Re.lit "logon_hrs"; Re.Star Re.dot]).

(** One line of the details of a user: the dictionary maps strings to
    strings at this point. *)
Definition user_details_line (details : list (string * string)) (line : string)
  : list (string * string) :=
  if PyStr.has_char ":" line then
    let key := PyText.rstrip (PyText.before_first ":" line) in
    let value := PyStr2.after_first ":" line in
    (* Skip user and full name, we have this information already *)
    if PyStr.contains "User Name" key || PyStr.contains "Full Name" key then details
    else Dict.set key value details
  else Dict.set line "" details.

(** The flags of [acb_info], when it is there and [valid_hex]. *)
Definition acb_flags (details : list (string * string)) : py dict :=
  let plain : dict := map (fun kv => (fst kv, VStr (snd kv))) details in
  match Dict.get "acb_info" details with
  | Some acb_info =>
      if valid_hex acb_info then
        match PyInt.int16 acb_info with
        | Ret n =>
            Ret (fold_left
                   (fun d flag =>
                      Dict.set (snd flag) (VBool (negb (Z.land n (fst flag) =? 0)%Z)) d)
                   CONST_ACB_DICT plain)
        | Raise e => Raise e
        end
      else Ret plain
  | None => Ret plain
  end.

Section Listings.

Variable W : World.

(** [EnumUsersRpc.querydispinfo]. *)
Definition querydispinfo (target : Target) (creds : Credentials) : Result :=
  let command :=
    ["rpcclient"; "-W"; workgroup target; "-U"; user creds ++ "%" ++ pw creds;
     "-c"; "querydispinfo"; host target] in
  let querydispinfo_result := run W command (samba_config target) in
  if PyStr.contains "NT_STATUS_ACCESS_DENIED" querydispinfo_result then
    mkResult VNone "Could not find users via 'querydispinfo': NT_STATUS_ACCESS_DENIED"
  else if PyStr.contains "NT_STATUS_INVALID_PARAMETER" querydispinfo_result then
    mkResult VNone "Could not find users via 'querydispinfo': NT_STATUS_INVALID_PARAMETER"
  else if PyStr.contains "NT_STATUS_LOGON_FAILURE" querydispinfo_result then
    mkResult VNone "Could not find users via 'querydispinfo': NT_STATUS_LOGON_FAILURE"
  else mkResult (VStr querydispinfo_result) "".

(** [EnumUsersRpc.enumdomusers]. *)
Definition enumdomusers (target : Target) (creds : Credentials) : Result :=
  let command :=
    ["rpcclient"; "-W"; workgroup target; "-U"; user creds ++ "%" ++ pw creds;
     "-c"; "enumdomusers"; host target] in
  let enumdomusers_result := run W command (samba_config target) in
  if PyStr.contains "NT_STATUS_ACCESS_DENIED" enumdomusers_result then
    mkResult VNone "Could not find users via 'enumdomusers': NT_STATUS_ACCESS_DENIED"
  else if PyStr.contains "NT_STATUS_INVALID_PARAMETER" enumdomusers_result then
    mkResult VNone "Could not find users via 'enumdomusers': NT_STATUS_INVALID_PARAMETER"
  else if PyStr.contains "NT_STATUS_LOGON_FAILURE" enumdomusers_result then
    mkResult VNone "Could not find users via 'enumdomusers': NT_STATUS_LOGON_FAILURE"
  else mkResult (VStr enumdomusers_result) "".

(** [EnumUsersRpc.enum_from_querydispinfo]. *)
Definition EnumUsersRpc_enum_from_querydispinfo (target : Target) (creds : Credentials)
  : py Result :=
  let querydispinfo := querydispinfo target creds in
  if is_none (retval querydispinfo) then Ret querydispinfo
  else users_of_querydispinfo (str_of (retval querydispinfo)).

(** [EnumUsersRpc.enum_from_enumdomusers]. *)
Definition EnumUsersRpc_enum_from_enumdomusers (target : Target) (creds : Credentials)
  : py Result :=
  let enumdomusers := enumdomusers target creds in
  if is_none (retval enumdomusers) then Ret enumdomusers
  else users_of_enumdomusers (str_of (retval enumdomusers)).

(** [EnumUsersRpc.get_details_from_rid], for a RID that is a string, as the
    keys of the listings are. *)
Definition EnumUsersRpc_get_details_from_rid (target : Target) (creds : Credentials)
    (rid name : string) : py Result :=
  if negb (PyText.isdigit rid) then Ret (mkResult VNone ("Invalid rid passed: " ++ rid))
  else
    let command :=
      ["rpcclient"; "-W"; workgroup target; "-U"; user creds ++ "%" ++ pw creds;
       "-c"; "queryuser " ++ rid; host target] in
    let output := run W command (samba_config target) in
    match Re.search re_user_info output with
    | Some m =>
        let user_info := Re.group_str 1 m in
        let user_info := PyStr.replace_char "009" "" user_info in
        let details := fold_left user_details_line (PyText.splitlines user_info) [] in
        match acb_flags details with
        | Ret details =>
            Ret (mkResult (VDict details)
                   ("Found details for user '" ++ name ++ "' (RID " ++ rid ++ ")"))
        | Raise e => Raise e
        end
    | None =>
        Ret (mkResult VNone
               ("Could not find details for user '" ++ name ++ "' (RID " ++ rid ++ ")"))
    end.

End Listings.

(** A listing of users as [enum_from_enumdomusers] builds it: no RID twice,
    every RID a decimal number that [valid_rid] accepts, every entry a user
    name. *)
Definition decimal_listing (users : dict) : Prop :=
  NoDup (Dict.keys users)
  /\ forall rid v, Dict.get rid users = Some v ->
                   valid_rid (VStr rid) = Some true
                   /\ exists name, v = VDict [("username", VStr name)].






(** ** NetBIOS names *)

(** The pattern of [get_workgroup] after its "^": white space, the name
    (group 1, characters that are no white space), and " <00> - <GROUP> "
    with any white space between the parts. *)
Definition re_netbios_workgroup : Re.regex :=
  Re.seqs [Re.plus re_space; Re.Group 1 (Re.plus re_not_space); Re.plus re_space;
           Re.lit "<00>"; Re.plus re_space; Re.chr "-"; Re.plus re_space;
           Re.lit "<GROUP>"; Re.plus re_space].

(** [re.search] with [re.MULTILINE] for a pattern that starts with "^": the
    first match that starts where a line starts, at the start of the text or
    right after a newline. *)
Fixpoint search_lines_list (r : Re.regex) (line_start : bool) (s : list ascii)
  : option Re.found :=
  match (if line_start then Re.match_here r s else None) with
  | Some f => Some f
  | None =>
      match s with
      | [] => None
      | x :: s' => search_lines_list r (Ascii.eqb x "010") s'
      end
  end.

Definition search_lines (r : Re.regex) (s : string) : option Re.found :=
  search_lines_list r true (list_ascii_of_string s).

(** [EnumNetbios.get_workgroup].  The branch of a name that is not valid
    builds its message from the local [workgroup], which is assigned in the
    other branch only: [UnboundLocalError], a [NameError]. *)
Definition EnumNetbios_get_workgroup (nmblookup_result : string) : py Result :=
  match search_lines re_netbios_workgroup nmblookup_result with
  | Some m =>
      if valid_workgroup (Re.group_str 1 m) then
        let workgroup := Re.group_str 1 m in
        Ret (mkResult (VStr workgroup) ("Got domain/workgroup name: " ++ workgroup))
      else Raise (NameError "workgroup")
  | None => Ret (mkResult VNone "Could not find workgroup/domain")
  end.

(** The RIDs of a listing are all numbers [valid_rid] accepts. *)
Definition rids_valid (users : dict) : Prop :=
  forall rid, In rid (Dict.keys users) -> valid_rid (VStr rid) = Some true.

(** A host whose two listings of users are what the code of
    [enum_from_querydispinfo] and [enum_from_enumdomusers] makes of the
    answers of [rpcclient]. *)
Definition listings_as_coded (W : World) (target : Target) (creds : Credentials) : Prop :=
  EnumUsersRpc_enum_from_querydispinfo W target creds
  = Ret (enum_from_querydispinfo W target creds)
  /\ EnumUsersRpc_enum_from_enumdomusers W target creds
     = Ret (enum_from_enumdomusers W target creds).

(** What a helper of the users module hands to [run] (nothing, should the
    code raise). *)
Definition result_of (r : py Result) : Result :=
  match r with Ret r => r | Raise _ => mkResult VNone "" end.

(** A host seen through the code of the users module: its listings and the
    details of a user are what the code makes of the answers of
    [rpcclient]. *)
Definition with_users_code (w : World) : World :=
  mkWorld (random_username w) (check_output w) (smb_negotiate w) (new_samba_config w)
    (ldap_connect w) (read_file w) (write_file w) (utc_fields w)
    (fun target creds => result_of (EnumUsersRpc_enum_from_querydispinfo w target creds))
    (fun target creds => result_of (EnumUsersRpc_enum_from_enumdomusers w target creds))
    (fun target creds rid name =>
       result_of (EnumUsersRpc_get_details_from_rid w target creds rid name))
    (group_details_from_rid w)
    (EnumNetbios_run w) (EnumOsInfo_run w) (EnumGroupsRpc_run w)
    (EnumServices_run w) (EnumShares_run w) (EnumPolicy_enum w) (EnumPrinters_run w).

(** A host with two accounts, one of them in the second listing only. *)
Definition two_users_world : World :=
  with_users_code
    (with_commands
       (answer
          [("querydispinfo",
            "index: 0x1 RID: 0x1f4 acb: 0x00000210 Account: Administrator"
              ++ String "009" "Name: " ++ String "009" "Desc: Built-in account");
           ("enumdomusers",
            "user:[Administrator] rid:[0x1f4]" ++ PyStr.nl ++ "user:[tester] rid:[0x3e9]")])
       silent_world).

(** ** OS information via RPC *)

(** [CONST_OS_VERSIONS]. *)
Definition CONST_OS_VERSIONS : list (string * string) :=
  [("10.0", "Windows 10, Windows Server 2019, Windows Server 2016");
   ("6.3", "Windows 8.1, Windows Server 2012 R2");
   ("6.2", "Windows 8, Windows Server 2012");
   ("6.1", "Windows 7, Windows Server 2008 R2");
   ("6.0", "Windows Vista, Windows Server 2008");
   ("5.2", "Windows XP 64-Bit Edition, Windows Server 2003, Windows Server 2003 R2");
   ("5.1", "Windows XP");
   ("5.0", "Windows 2000");
   ("4.9", "Linux/Unix (Samba)");
   ("4.5", "Linux/Unix (Samba)")].

Module EnumOsInfo.

(** The pattern of the first line: white space, a word, white space, and the
    rest of the line as group 1. *)
Definition re_first_line : Re.regex :=
  Re.seqs [Re.plus re_space; Re.plus re_not_space; Re.plus re_space;
           Re.Group 1 (Re.Star Re.dot)].

(** The pattern of a field: white space, the name of the field, white
    space, a colon, white space, and the rest of the line as group 1. *)
Definition re_field (search_pattern : string) : Re.regex :=
  Re.seqs [Re.plus re_space; Re.lit search_pattern; Re.plus re_space; Re.chr ":";
           Re.plus re_space; Re.Group 1 (Re.Star Re.dot)].

(** The pattern of [os_info_to_human]: what stands between parentheses. *)
Definition re_parentheses : Re.regex :=
  Re.seqs [Re.Star Re.dot; Re.chr "("; Re.Group 1 (Re.Star Re.dot); Re.chr ")"].

(** [EnumOsInfo.srvinfo]. *)
Definition srvinfo (W : World) (target : Target) (creds : Credentials) : Result :=
  let command :=
    ["rpcclient"; "-W"; workgroup target; "-U"; user creds ++ "%" ++ pw creds;
     "-c"; "srvinfo"; host target] in
  let srvinfo_result := run W command (samba_config target) in
  if PyStr.contains "NT_STATUS_ACCESS_DENIED" srvinfo_result then
    mkResult VNone "Could not get OS info via 'srvinfo': NT_STATUS_ACCESS_DENIED"
  else if PyStr.contains "NT_STATUS_LOGON_FAILURE" srvinfo_result then
    mkResult VNone "Could not get OS info via 'srvinfo': NT_STATUS_LOGON_FAILURE"
  else if PyStr.contains "NT_STATUS_IO_TIMEOUT" srvinfo_result then
    mkResult VNone "Could not get OS info via 'srvinfo': NT_STATUS_IO_TIMEOUT"
  else mkResult (VStr srvinfo_result) "".

(** [EnumOsInfo.os_info_to_human]; the two fields are there at its one
    call. *)
Definition os_info_to_human (os_info : list (string * string)) : string :=
  let field key := match Dict.get key os_info with Some v => v | None => "" end in
  let server_type_string := field "server_type_string" in
  let os_version := field "os_version" in
  let samba :=
    if PyStr.contains "4.9" os_version && PyStr.contains "Samba" server_type_string then
      match Re.search re_parentheses server_type_string with
      | Some m => Some ("Linux/Unix (" ++ Re.group_str 1 m ++ ")")
      | None => None
      end
    else None in
  match samba with
  | Some os => os
  | None =>
      match Dict.get os_version CONST_OS_VERSIONS with
      | Some os => os
      | None => "unknown"
      end
  end.

(** The loop over the three fields, for one line. *)
Definition fields_of_line (line : string) (os_info : list (string * string))
  : list (string * string) :=
  fold_left
    (fun os_info search_pattern =>
       match Re.search (re_field search_pattern) line with
       | Some m =>
           (* os version => os_version, server type => server_type *)
           Dict.set (PyStr.replace_char " " "_" search_pattern) (Re.group_str 1 m) os_info
       | None => os_info
       end)
    ["platform_id"; "os version"; "server type"] os_info.

(** The loop over the lines. *)
Fixpoint lines_loop (lines : list string) (first : bool) (os_info : list (string * string))
  : list (string * string) :=
  match lines with
  | [] => os_info
  | line :: lines' =>
      let os_info :=
        if first then
          match Re.search re_first_line line with
          | Some m => Dict.set "server_type_string" (Re.group_str 1 m) os_info
          | None => os_info
          end
        else os_info in
      lines_loop lines' false (fields_of_line line os_info)
  end.

(** [f"{key:18}"]: the key, with spaces after it up to 18 characters. *)
Definition pad18 (key : string) : string :=
  key ++ string_of_list_ascii (repeat " "%char (18 - String.length key)).

(** [EnumOsInfo.get_os_info]. *)
Definition get_os_info (srvinfo_result : string) : Result :=
  let os_info := lines_loop (PyText.splitlines srvinfo_result) true [] in
  match os_info with
  | [] => mkResult VNone "Could not get OS information"
  | _ =>
      let os_info :=
        if Dict.has "os_version" os_info && Dict.has "server_type_string" os_info
        then Dict.set "os" (os_info_to_human os_info) os_info
        else os_info in
      let retmsg :=
        fold_left
          (fun retmsg kv => retmsg ++ pad18 (fst kv) ++ " = " ++ snd kv ++ PyStr.nl)
          os_info ("The following OS information were found:" ++ PyStr.nl) in
      mkResult (VDict (map (fun kv => (fst kv, VStr (snd kv))) os_info))
               (PyText.rstrip retmsg)
  end.

(** [EnumOsInfo.run]. *)
Definition run (W : World) (target : Target) (creds : Credentials) : dict :=
  let module_name := "enum_os_info" in
  let output : dict := [("os_info", VNone)] in
  let srvinfo := srvinfo W target creds in
  if truthy (retval srvinfo) then
    let osinfo := get_os_info (str_of (retval srvinfo)) in
    if truthy (retval osinfo) then Dict.set "os_info" (retval osinfo) output
    else process_error (retmsg osinfo) ["os_info"] module_name output
  else process_error (retmsg srvinfo) ["os_info"] module_name output.

End EnumOsInfo.

(** The fields [get_os_info] can give, and what it gives: texts under these
    names, none twice, with [os] exactly when the version and the server
    type string are both there; [os] is then the entry of
    [CONST_OS_VERSIONS], or "unknown", or "Linux/Unix (..)" for a Samba
    server. *)
Definition os_info_keys : list string :=
  ["server_type_string"; "platform_id"; "os_version"; "server_type"; "os"].

Definition os_info_shaped (d : dict) : Prop :=
  d <> []
  /\ NoDup (Dict.keys d)
  /\ (forall k v, Dict.get k d = Some v -> In k os_info_keys /\ exists s, v = VStr s)
  /\ Dict.has "os" d = Dict.has "os_version" d && Dict.has "server_type_string" d
  /\ forall os, Dict.get "os" d = Some (VStr os) ->
       os = "unknown" \/ In os (map snd CONST_OS_VERSIONS)
       \/ exists distribution, os = "Linux/Unix (" ++ distribution ++ ")".

(** What the loop of [get_os_info] keeps: no key twice, and no key but the
    four it reads. *)
Definition os_fields_ok (os_info : list (string * string)) : Prop :=
  NoDup (Dict.keys os_info)
  /\ forall k, In k (Dict.keys os_info) ->
       In k ["server_type_string"; "platform_id"; "os_version"; "server_type"].


(** A host with one share that can be mapped and not listed, and a word
    list of two lines, the first with a unit separator before its
    newline. *)
Definition brute_world : World :=
  with_file "/tmp/shares.txt"
    ["backup" ++ String "031" PyStr.nl; "ipc$" ++ PyStr.nl]
    (with_commands
       (answer [("//10.10.10.5/backup", "NT_STATUS_ACCESS_DENIED listing")])
       silent_world).

(** A host that answers the query of the user 1001, whose password does not
    expire. *)
Definition details_world : World :=
  with_commands
    (answer
       [("queryuser 1001",
         String "009" "User Name   :" ++ String "009" "tester" ++ PyStr.nl
           ++ String "009" "Full Name   :" ++ String "009" "" ++ PyStr.nl
           ++ String "009" "Description :" ++ String "009" "a: b" ++ PyStr.nl
           ++ String "009" "acb_info :" ++ String "009" "0x00000210" ++ PyStr.nl
           ++ String "009" "logon_hrs[0..21]..." ++ PyStr.nl)])
    silent_world.

(** The details [get_details_from_rid] returns for that user. *)
Definition details_of_tester : dict :=
  [("Description", VStr "a: b"); ("acb_info", VStr "0x00000210");
   ("logon_hrs[0..21]...", VStr "");
   ("Account Disabled", VBool false); ("Password not expired", VBool true);
   ("Account locked out", VBool false); ("Password expired", VBool false);
   ("Interdomain trust account", VBool false);
   ("Workstation trust account", VBool false);
   ("Server trust account", VBool false); ("Trusted for delegation", VBool false)].

(** * Properties *)

(** ** Dictionaries *)

Module DictFacts.

Lemma eqb_sym_false (a b : string) : a <> b -> String.eqb b a = false.
Proof. intros H. apply String.eqb_neq. congruence. Qed.

Lemma get_set_same {A} (k : string) (v : A) d : Dict.get k (Dict.set k v d) = Some v.
Proof.
  induction d as [|[k' v'] d IH]; simpl.
  - now rewrite String.eqb_refl.
  - destruct (String.eqb k' k) eqn:E; simpl; rewrite E; auto.
Qed.

Lemma get_set_other {A} (k k' : string) (v : A) d :
  k <> k' -> Dict.get k (Dict.set k' v d) = Dict.get k d.
Proof.
  intros Hne. induction d as [|[k2 v2] d IH]; simpl.
  - now rewrite (eqb_sym_false k k' Hne).
  - destruct (String.eqb k2 k') eqn:E; simpl.
    + apply String.eqb_eq in E. subst k2.
      now rewrite (eqb_sym_false k k' Hne).
    + destruct (String.eqb k2 k); auto.
Qed.

Lemma get_set {A} (k k' : string) (v : A) d :
  Dict.get k (Dict.set k' v d) = if String.eqb k' k then Some v else Dict.get k d.
Proof.
  destruct (String.eqb k' k) eqn:E.
  - apply String.eqb_eq in E. subst. apply get_set_same.
  - apply get_set_other. apply String.eqb_neq in E. congruence.
Qed.

Lemma has_set_mono {A} (k k' : string) (v : A) d :
  Dict.has k d = true -> Dict.has k (Dict.set k' v d) = true.
Proof.
  unfold Dict.has. rewrite get_set. destruct (String.eqb k' k); auto.
Qed.

Lemma has_set_same {A} (k : string) (v : A) d : Dict.has k (Dict.set k v d) = true.
Proof. unfold Dict.has. now rewrite get_set_same. Qed.

Lemma get_None_not_in {A} (k : string) (d : list (string * A)) :
  Dict.get k d = None <-> ~ In k (Dict.keys d).
Proof.
  induction d as [|[k' v'] d IH]; simpl.
  - tauto.
  - destruct (String.eqb k' k) eqn:E.
    + apply String.eqb_eq in E. split; [discriminate | intros H; exfalso; auto].
    + apply String.eqb_neq in E. rewrite IH. tauto.
Qed.

Lemma keys_set_in {A} (k : string) (v : A) d :
  Dict.get k d <> None -> Dict.keys (Dict.set k v d) = Dict.keys d.
Proof.
  induction d as [|[k' v'] d IH]; simpl; intros H.
  - congruence.
  - destruct (String.eqb k' k) eqn:E; simpl; auto.
    f_equal. auto.
Qed.

Lemma keys_set_new {A} (k : string) (v : A) d :
  Dict.get k d = None -> Dict.keys (Dict.set k v d) = (Dict.keys d ++ [k])%list.
Proof.
  induction d as [|[k' v'] d IH]; simpl; intros H; auto.
  destruct (String.eqb k' k) eqn:E; [discriminate|].
  simpl. f_equal. auto.
Qed.

(** Setting a key never makes two of them. *)
Lemma NoDup_keys_set {A} (k : string) (v : A) d :
  NoDup (Dict.keys d) -> NoDup (Dict.keys (Dict.set k v d)).
Proof.
  intros H. destruct (Dict.get k d) eqn:E.
  - rewrite keys_set_in; auto. congruence.
  - rewrite keys_set_new; auto.
    apply NoDup_app; [assumption | repeat constructor; simpl; tauto |].
    intros x Hx [Hk|[]]. subst x. apply get_None_not_in in E. contradiction.
Qed.

Lemma length_set {A} (k : string) (v : A) d :
  length (Dict.set k v d) = if Dict.has k d then length d else S (length d).
Proof.
  unfold Dict.has. induction d as [|[k' v'] d IH]; simpl; auto.
  destruct (String.eqb k' k); simpl; auto.
  rewrite IH. destruct (Dict.get k d); auto.
Qed.

Lemma get_last_NoDup {A} (k : string) (d : list (string * A)) :
  NoDup (Dict.keys d) -> Dict.get_last k d = Dict.get k d.
Proof.
  induction d as [|[k' v'] d IH]; simpl; intros H; auto.
  inversion H as [|? ? Hnotin Hnd]; subst.
  rewrite IH by assumption.
  destruct (String.eqb k' k) eqn:E.
  - apply String.eqb_eq in E. subst k'.
    apply get_None_not_in in Hnotin. now rewrite Hnotin.
  - destruct (Dict.get k d); auto.
Qed.

(** [d.update(c)]: the bindings of [c] go over those of [d]. *)
Lemma get_update {A} (k : string) (d c : list (string * A)) :
  Dict.get k (Dict.update d c) =
  match Dict.get_last k c with
  | Some v => Some v
  | None => Dict.get k d
  end.
Proof.
  unfold Dict.update. revert d.
  induction c as [|[k' v'] c IH]; intros d; simpl; auto.
  rewrite IH. destruct (Dict.get_last k c); auto.
  rewrite get_set. simpl. destruct (String.eqb k' k); reflexivity.
Qed.

Lemma NoDup_keys_update {A} (d c : list (string * A)) :
  NoDup (Dict.keys d) -> NoDup (Dict.keys (Dict.update d c)).
Proof.
  unfold Dict.update. revert d.
  induction c as [|[k v] c IH]; intros d H; simpl; auto.
  apply IH. now apply NoDup_keys_set.
Qed.

Lemma get_remove_other {A} (k k' : string) (d : list (string * A)) :
  k <> k' -> Dict.get k (Dict.remove k' d) = Dict.get k d.
Proof.
  intros Hne. induction d as [|[k2 v2] d IH]; simpl; auto.
  destruct (String.eqb k2 k') eqn:E; simpl.
  - apply String.eqb_eq in E. subst k2.
    now rewrite (eqb_sym_false k k' Hne).
  - now rewrite IH.
Qed.

Lemma get_app {A} (k : string) (d1 d2 : list (string * A)) :
  Dict.get k (d1 ++ d2)%list =
  match Dict.get k d1 with Some v => Some v | None => Dict.get k d2 end.
Proof.
  induction d1 as [|[k' v'] d1 IH]; simpl; auto.
  destruct (String.eqb k' k); auto.
Qed.

Lemma get_remove_same {A} (k : string) (d : list (string * A)) :
  Dict.get k (Dict.remove k d) = None.
Proof.
  induction d as [|[k2 v2] d IH]; simpl; auto.
  destruct (String.eqb k2 k) eqn:E; simpl; auto. now rewrite E.
Qed.

(** Moving a key to the end changes no binding. *)
Lemma get_move_to_end {A} (k k' : string) (d : list (string * A)) :
  Dict.get k (Dict.move_to_end k' d) = Dict.get k d.
Proof.
  unfold Dict.move_to_end. destruct (Dict.get k' d) eqn:E; auto.
  rewrite get_app. destruct (String.eqb k' k) eqn:Ek.
  - apply String.eqb_eq in Ek. subst k'.
    rewrite get_remove_same. simpl. rewrite String.eqb_refl. congruence.
  - apply String.eqb_neq in Ek.
    rewrite get_remove_other by congruence.
    simpl. apply String.eqb_neq in Ek. rewrite Ek.
    destruct (Dict.get k d); auto.
Qed.

End DictFacts.

(** The ledger: [process_error] changes the key [errors] only. *)
Lemma get_process_error (k msg module_name : string) affected (output : dict) :
  k <> "errors" ->
  Dict.get k (process_error msg affected module_name output) = Dict.get k output.
Proof.
  intros Hne. unfold process_error.
  rewrite DictFacts.get_set_other by assumption.
  destruct (negb (Dict.has "errors" output)); auto.
  now rewrite DictFacts.get_set_other.
Qed.

(** [Output.update] on a key other than [errors]: the content goes over what
    the tree had. *)
Lemma get_Output_merge (k : string) (out_dict content : dict) :
  k <> "errors" ->
  Dict.get k (Output_merge out_dict content) =
  match Dict.get_last k content with
  | Some v => Some v
  | None => Dict.get k out_dict
  end.
Proof.
  intros Hne. unfold Output_merge.
  rewrite DictFacts.get_move_to_end.
  destruct (Dict.has "errors" content).
  - rewrite !DictFacts.get_set_other by assumption. apply DictFacts.get_update.
  - rewrite DictFacts.get_set_other by assumption. apply DictFacts.get_update.
Qed.

Lemma NoDup_keys_process_error (msg module_name : string) affected (output : dict) :
  NoDup (Dict.keys output) ->
  NoDup (Dict.keys (process_error msg affected module_name output)).
Proof.
  intros H. unfold process_error.
  apply DictFacts.NoDup_keys_set.
  destruct (negb (Dict.has "errors" output)); auto.
  now apply DictFacts.NoDup_keys_set.
Qed.

(** ** The workgroup of the target *)

Lemma update_workgroup_locked (t : Target) (w : string) (long_domain : bool) :
  workgroup_from_long_domain t = true -> update_workgroup t w long_domain = t.
Proof. intros H. unfold update_workgroup. now rewrite H. Qed.

Lemma apply_calls_locked (cs : list (string * bool)) (t : Target) :
  workgroup_from_long_domain t = true -> apply_calls t cs = t.
Proof.
  unfold apply_calls. induction cs as [|c cs IH]; intros H; simpl; auto.
  rewrite update_workgroup_locked by assumption. auto.
Qed.

Lemma update_workgroup_long_locks (t : Target) (w : string) :
  workgroup_from_long_domain (update_workgroup t w true) = true.
Proof.
  unfold update_workgroup.
  destruct (workgroup_from_long_domain t) eqn:E; simpl; auto.
Qed.

Lemma apply_calls_app (t : Target) (cs1 cs2 : list (string * bool)) :
  apply_calls t (cs1 ++ cs2)%list = apply_calls (apply_calls t cs1) cs2.
Proof. unfold apply_calls. apply fold_left_app. Qed.

(** The flag is set exactly by the calls with [long_domain=True]. *)
Lemma flag_after_calls (cs : list (string * bool)) (t : Target) :
  workgroup_from_long_domain (apply_calls t cs) =
  workgroup_from_long_domain t || existsb snd cs.
Proof.
  unfold apply_calls. revert t.
  induction cs as [|[w ld] cs IH]; intros t; simpl.
  - now rewrite orb_false_r.
  - rewrite IH. unfold update_workgroup.
    destruct (workgroup_from_long_domain t) eqn:E; simpl.
    + now rewrite E.
    + destruct ld; simpl; auto.
Qed.

(** C4.  Workgroup precedence.  After a call of [update_workgroup] with a
    long domain name no later call changes the workgroup, whatever its
    arguments; and, in any history of calls on a new target, a call with a
    short name sets the workgroup exactly when no call with a long domain
    name came before it. *)
Theorem workgroup_precedence :
  (forall (t : Target) (w : string) (cs : list (string * bool)),
      workgroup (apply_calls (update_workgroup t w true) cs)
      = workgroup (update_workgroup t w true))
  /\
  (forall host wg port timeout tls cfg (cs : list (string * bool)) (w : string),
      let t0 := Target_init host wg port timeout tls cfg in
      workgroup (apply_calls t0 (cs ++ [(w, false)]))
      = if existsb snd cs then workgroup (apply_calls t0 cs) else w).
Proof.
  split.
  - intros t w cs.
    now rewrite apply_calls_locked by apply update_workgroup_long_locks.
  - intros host wg port timeout tls cfg cs w t0.
    rewrite apply_calls_app.
    pose proof (flag_after_calls cs t0) as Hflag.
    simpl in Hflag. unfold apply_calls at 1. simpl.
    unfold update_workgroup. rewrite Hflag.
    destruct (existsb snd cs); reflexivity.
Qed.

(** ** The long domain *)

Lemma split_not_nil (sep : ascii) (s : string) : PyStr.split sep s <> [].
Proof.
  destruct s as [|c s]; simpl; [discriminate|].
  destruct (Ascii.eqb c sep); [discriminate|].
  destruct (PyStr.split sep s); discriminate.
Qed.

(** [s.split(sep)[0]] is what stands before the first [sep]. *)
Lemma split_hd_prefix (sep : ascii) (s : string) :
  exists rest,
    s = hd "" (PyStr.split sep s) ++ rest
    /\ PyStr.has_char sep (hd "" (PyStr.split sep s)) = false
    /\ (rest = "" \/ exists r, rest = String sep r).
Proof.
  induction s as [|c s IH]; simpl.
  - exists "". auto.
  - destruct (Ascii.eqb c sep) eqn:E.
    + apply Ascii.eqb_eq in E. subst c. exists (String sep s). simpl. eauto.
    + destruct IH as [rest [Hs [Hno Hrest]]].
      destruct (PyStr.split sep s) as [|h t] eqn:Hsp.
      * exfalso. now apply (split_not_nil sep s).
      * simpl in *. exists rest. rewrite E, Hno. simpl.
        split; [now rewrite <- Hs | auto].
Qed.


Section LongDomain.

Variable W : World.

Lemma ldap_loop_target (module_name : string) (choices : list bool) (t : Target)
    (output : dict) (r : Result) :
  let t' := fst (fst (ldap_loop W module_name choices t output r)) in
  workgroup t' = workgroup t
  /\ workgroup_from_long_domain t' = workgroup_from_long_domain t.
Proof.
  revert t output r.
  induction choices as [|b choices IH]; intros t output r; simpl; auto.
  destruct (negb (is_none (retval (get_namingcontexts W (set_tls t b))))); simpl; auto.
  apply (IH (set_tls t b)).
Qed.

Lemma ldap_loop_get (k module_name : string) (choices : list bool) (t : Target)
    (output : dict) (r : Result) :
  k <> "errors" ->
  Dict.get k (snd (fst (ldap_loop W module_name choices t output r))) = Dict.get k output.
Proof.
  intros Hk. revert t output r.
  induction choices as [|b choices IH]; intros t output r; simpl; auto.
  destruct (negb (is_none (retval (get_namingcontexts W (set_tls t b))))); simpl; auto.
  rewrite IH. now apply get_process_error.
Qed.

Lemma ldap_loop_NoDup (module_name : string) (choices : list bool) (t : Target)
    (output : dict) (r : Result) :
  NoDup (Dict.keys output) ->
  NoDup (Dict.keys (snd (fst (ldap_loop W module_name choices t output r)))).
Proof.
  revert t output r.
  induction choices as [|b choices IH]; intros t output r H; simpl; auto.
  destruct (negb (is_none (retval (get_namingcontexts W (set_tls t b))))); simpl; auto.
  apply IH. now apply NoDup_keys_process_error.
Qed.

Lemma EnumLdapDomainInfo_run_target (t : Target) :
  workgroup (fst (EnumLdapDomainInfo_run W t)) = workgroup t
  /\ workgroup_from_long_domain (fst (EnumLdapDomainInfo_run W t))
     = workgroup_from_long_domain t.
Proof.
  unfold EnumLdapDomainInfo_run.
  pose proof (ldap_loop_target "enum_ldap_domain_info" [false; true] t
                [("is_parent_dc", VNone); ("is_child_dc", VNone); ("long_domain", VNone)]
                (mkResult VNone "")) as H.
  destruct (ldap_loop W _ _ _ _ _) as [[t' o] r]. simpl in *. exact H.
Qed.

Lemma EnumLdapDomainInfo_run_NoDup (t : Target) :
  NoDup (Dict.keys (snd (EnumLdapDomainInfo_run W t))).
Proof.
  unfold EnumLdapDomainInfo_run.
  pose proof (ldap_loop_NoDup "enum_ldap_domain_info" [false; true] t
                [("is_parent_dc", VNone); ("is_child_dc", VNone); ("long_domain", VNone)]
                (mkResult VNone "")) as H.
  destruct (ldap_loop W _ _ _ _ _) as [[t' o] r]. simpl in *.
  assert (Ho : NoDup (Dict.keys o)).
  { apply H. repeat constructor; simpl; intuition discriminate. }
  destruct (truthy (retval r)); auto.
  repeat match goal with
         | |- context [if ?b then _ else _] => destruct b
         end;
    repeat first [apply NoDup_keys_process_error | apply DictFacts.NoDup_keys_set];
    assumption.
Qed.

(** The keys of the result of the LDAP module. *)
Lemma EnumLdapDomainInfo_run_keys (t : Target) (k : string) :
  k <> "errors" -> k <> "is_parent_dc" -> k <> "is_child_dc" -> k <> "long_domain" ->
  Dict.get k (snd (EnumLdapDomainInfo_run W t)) = None.
Proof.
  intros He Hp Hc Hl. unfold EnumLdapDomainInfo_run.
  pose proof (ldap_loop_get k "enum_ldap_domain_info" [false; true] t
                [("is_parent_dc", VNone); ("is_child_dc", VNone); ("long_domain", VNone)]
                (mkResult VNone "") He) as H.
  destruct (ldap_loop W _ _ _ _ _) as [[t' o] r]. cbn [fst snd] in *.
  assert (Ho : Dict.get k o = None).
  { rewrite H. cbn [Dict.get].
    rewrite (DictFacts.eqb_sym_false k "is_parent_dc" Hp),
            (DictFacts.eqb_sym_false k "is_child_dc" Hc),
            (DictFacts.eqb_sym_false k "long_domain" Hl).
    reflexivity. }
  repeat match goal with
         | |- context [if ?b then _ else _] => destruct b
         end;
    rewrite ?get_process_error by assumption;
    rewrite ?DictFacts.get_set_other by assumption;
    rewrite ?get_process_error by assumption;
    rewrite ?DictFacts.get_set_other by assumption;
    assumption.
Qed.

(** The state [main_ldap] leaves, whether or not the output file could be
    written. *)
Lemma main_ldap_state (out_file : option (string * string)) (s : state) :
  let run := EnumLdapDomainInfo_run W (st_target s) in
  snd (main_ldap W out_file s) =
  mkState
    (if negb (PyStr.truthy (workgroup (fst run))) && get_truthy "long_domain" (snd run)
     then update_workgroup (fst run) (get_str "long_domain" (snd run)) true
     else fst run)
    (Output_merge (st_out s) (snd run)).
Proof.
  unfold main_ldap, bind, get_target, put_target, adopt_workgroup, Output_update.
  simpl. destruct (EnumLdapDomainInfo_run W (st_target s)) as [t' result]. simpl.
  destruct (negb (PyStr.truthy (workgroup t')) && get_truthy "long_domain" result);
    simpl; destruct out_file as [[path kind]|]; simpl;
    try destruct (write_file W path kind _); reflexivity.
Qed.

(** C10.  When [main] sets the workgroup from the long domain name [d] the
    LDAP module found (the target had no workgroup yet), [Target.workgroup]
    is what stands before the first dot of [d], never [d] itself when [d]
    has a dot; the whole of [d] is in the output under [long_domain], and
    the step writes under no key but those of the LDAP module and the
    ledger. *)
Theorem long_domain_workgroup_is_first_label
    (out_file : option (string * string)) (s : state) (d : string) :
  workgroup (st_target s) = "" ->
  workgroup_from_long_domain (st_target s) = false ->
  Dict.get "long_domain" (snd (EnumLdapDomainInfo_run W (st_target s))) = Some (VStr d) ->
  d <> "" ->
  let s' := snd (main_ldap W out_file s) in
  (exists rest,
      d = workgroup (st_target s') ++ rest
      /\ PyStr.has_char "." (workgroup (st_target s')) = false
      /\ (rest = "" \/ exists r, rest = String "." r))
  /\ (PyStr.has_char "." d = true -> workgroup (st_target s') <> d)
  /\ workgroup_from_long_domain (st_target s') = true
  /\ Dict.get "long_domain" (st_out s') = Some (VStr d)
  /\ (forall k, ~ In k ["is_parent_dc"; "is_child_dc"; "long_domain"; "errors"] ->
                Dict.get k (st_out s') = Dict.get k (st_out s)).
Proof.
  intros Hwg Hflag Hld Hd s'. subst s'. rewrite main_ldap_state.
  destruct (EnumLdapDomainInfo_run_target (st_target s)) as [Hwg' Hflag'].
  pose proof (EnumLdapDomainInfo_run_NoDup (st_target s)) as Hnd.
  pose proof (EnumLdapDomainInfo_run_keys (st_target s)) as Hkeys.
  destruct (EnumLdapDomainInfo_run W (st_target s)) as [t' result]. simpl in *.
  rewrite Hwg in Hwg'. rewrite Hflag in Hflag'.
  assert (Htruthy : get_truthy "long_domain" result = true).
  { unfold get_truthy. rewrite Hld. simpl. destruct d; [congruence | reflexivity]. }
  assert (Hstr : get_str "long_domain" result = d).
  { unfold get_str. now rewrite Hld. }
  rewrite Hwg', Htruthy, Hstr. simpl.
  unfold update_workgroup. rewrite Hflag'. simpl.
  destruct (split_hd_prefix "." d) as [rest [Hsplit [Hno Hrest]]].
  repeat split.
  - exists rest. auto.
  - intros Hdot Heq. rewrite Heq in Hno. congruence.
  - rewrite get_Output_merge by discriminate.
    rewrite DictFacts.get_last_NoDup by assumption. now rewrite Hld.
  - intros k Hk.
    assert (He : k <> "errors") by (intros ->; apply Hk; simpl; auto).
    rewrite get_Output_merge by assumption.
    rewrite DictFacts.get_last_NoDup by assumption.
    rewrite Hkeys; auto; intros ->; apply Hk; simpl; auto.
Qed.

End LongDomain.

(** A witness for C10: the LDAP module finds [example.com] and the target
    had no workgroup. *)
Lemma long_domain_workgroup_is_first_label_witness :
  let W := with_naming_contexts ["DC=corp,DC=example,DC=com"] silent_world in
  let s := mkState sample_target Output_init in
  let s' := snd (main_ldap W None s) in
  (exists rest,
      "example.com" = workgroup (st_target s') ++ rest
      /\ PyStr.has_char "." (workgroup (st_target s')) = false
      /\ (rest = "" \/ exists r, rest = String "." r))
  /\ (PyStr.has_char "." "example.com" = true -> workgroup (st_target s') <> "example.com")
  /\ workgroup_from_long_domain (st_target s') = true
  /\ Dict.get "long_domain" (st_out s') = Some (VStr "example.com")
  /\ (forall k, ~ In k ["is_parent_dc"; "is_child_dc"; "long_domain"; "errors"] ->
                Dict.get k (st_out s') = Dict.get k (st_out s)).
Proof.
  apply (long_domain_workgroup_is_first_label
           (with_naming_contexts ["DC=corp,DC=example,DC=com"] silent_world)
           None (mkState sample_target Output_init) "example.com").
  - reflexivity.
  - reflexivity.
  - vm_compute. reflexivity.
  - discriminate.
Defined.

(** ** The merge of the two listings of users *)

Section Users.

Variable W : World.

(** C1, as the code has it.  When both listings succeed, the merged map of
    [EnumUsersRpc.run] is the union of the two keyed by RID in which the
    first listing (querydispinfo) wins: a RID of both has the value of the
    first listing, a RID of one only keeps its value. *)
Theorem merge_users_first_listing_wins
    (target : Target) (creds : Credentials) (qdi edu : dict) (msg_qdi msg_edu : string) :
  enum_from_querydispinfo W target creds = mkResult (VDict qdi) msg_qdi ->
  enum_from_enumdomusers W target creds = mkResult (VDict edu) msg_edu ->
  NoDup (Dict.keys qdi) ->
  NoDup (Dict.keys edu) ->
  exists users,
    Dict.get "users" (EnumUsersRpc_run W target creds false) = Some (VDict users)
    /\ users = as_dict (Some (merge_users (VDict qdi) (VDict edu)))
    /\ NoDup (Dict.keys users)
    /\ forall rid,
        Dict.get rid users =
        match Dict.get rid qdi with
        | Some v => Some v
        | None => Dict.get rid edu
        end.
Proof.
  intros Hq He Hnq Hne.
  exists (Dict.update (Dict.update [] edu) qdi).
  repeat split.
  - unfold EnumUsersRpc_run. rewrite Hq, He. simpl.
    rewrite andb_false_r. reflexivity.
  - apply DictFacts.NoDup_keys_update, DictFacts.NoDup_keys_update. constructor.
  - intros rid. rewrite !DictFacts.get_update.
    rewrite !DictFacts.get_last_NoDup by assumption.
    destruct (Dict.get rid qdi); [reflexivity|].
    destruct (Dict.get rid edu); reflexivity.
Qed.

End Users.

(** A witness for C1: one account in both listings, one in the second
    only. *)
Lemma merge_users_first_listing_wins_witness :
  let W := with_listings (mkResult (VDict sample_qdi) "Found 1 users via 'querydispinfo'")
                         (mkResult (VDict sample_edu) "Found 2 users via 'enumdomusers'")
                         silent_world in
  exists users,
    Dict.get "users" (EnumUsersRpc_run W sample_target sample_creds false)
    = Some (VDict users)
    /\ users = as_dict (Some (merge_users (VDict sample_qdi) (VDict sample_edu)))
    /\ NoDup (Dict.keys users)
    /\ forall rid,
        Dict.get rid users =
        match Dict.get rid sample_qdi with
        | Some v => Some v
        | None => Dict.get rid sample_edu
        end.
Proof.
  apply (merge_users_first_listing_wins
           (with_listings (mkResult (VDict sample_qdi) "Found 1 users via 'querydispinfo'")
                          (mkResult (VDict sample_edu) "Found 2 users via 'enumdomusers'")
                          silent_world)
           sample_target sample_creds sample_qdi sample_edu
           "Found 1 users via 'querydispinfo'" "Found 2 users via 'enumdomusers'").
  - reflexivity.
  - reflexivity.
  - repeat constructor; simpl; intuition discriminate.
  - repeat constructor; simpl; intuition discriminate.
Defined.

(** C1, as the claim states it, fails: RID 500 is in both listings, and what
    the merge keeps for it is not the value of the second listing
    (enumdomusers). *)
Lemma merge_users_second_listing_loses :
  ~ (forall (qdi edu : dict) (rid : string) (v1 v2 : value),
        Dict.get rid qdi = Some v1 ->
        Dict.get rid edu = Some v2 ->
        Dict.get rid (as_dict (Some (merge_users (VDict qdi) (VDict edu)))) = Some v2).
Proof.
  intros H.
  specialize (H sample_qdi sample_edu "500" _ _ eq_refl eq_refl).
  vm_compute in H. discriminate H.
Qed.

(** ** The session gate *)

Section Sessions.

Variable W : World.

Ltac dict_simpl :=
  repeat first
    [ rewrite DictFacts.get_set_same
    | rewrite DictFacts.get_set_other by discriminate
    | rewrite get_process_error by discriminate ].

(** The loop over the ports touches [legacy_session] and [errors] only. *)
Lemma legacy_loop_get (k module_name : string) (ports : list Z) (t : Target) (o : dict) :
  k <> "legacy_session" -> k <> "errors" ->
  Dict.get k (snd (legacy_loop W module_name ports t o)) = Dict.get k o.
Proof.
  intros H1 H2. revert t o.
  induction ports as [|p ports IH]; intros t o; simpl; auto.
  destruct (is_none (retval (check_legacy_session W (set_port t p)))).
  - rewrite IH. now rewrite get_process_error.
  - destruct (truthy (retval (check_legacy_session W (set_port t p)))).
    + destruct (new_samba_config W _); simpl.
      * now rewrite DictFacts.get_set_other.
      * rewrite get_process_error by assumption. now rewrite DictFacts.get_set_other.
    + simpl. now rewrite DictFacts.get_set_other.
Qed.

Lemma legacy_loop_NoDup (module_name : string) (ports : list Z) (t : Target) (o : dict) :
  NoDup (Dict.keys o) -> NoDup (Dict.keys (snd (legacy_loop W module_name ports t o))).
Proof.
  revert t o.
  induction ports as [|p ports IH]; intros t o H; simpl; auto.
  destruct (is_none (retval (check_legacy_session W (set_port t p)))).
  - apply IH. now apply NoDup_keys_process_error.
  - destruct (truthy (retval (check_legacy_session W (set_port t p)))).
    + destruct (new_samba_config W _); simpl;
        repeat first [apply NoDup_keys_process_error | apply DictFacts.NoDup_keys_set];
        assumption.
    + simpl. now apply DictFacts.NoDup_keys_set.
Qed.

Lemma EnumSessions_run_NoDup (target : Target) (creds : Credentials) :
  NoDup (Dict.keys (snd (EnumSessions_run W target creds))).
Proof.
  unfold EnumSessions_run.
  match goal with
  | |- context [legacy_loop W ?m ?p ?t ?o] =>
      pose proof (legacy_loop_NoDup m p t o) as H;
      destruct (legacy_loop W m p t o) as [t1 o1]
  end.
  simpl in *.
  assert (Ho : NoDup (Dict.keys o1)).
  { apply H. repeat constructor; simpl; intuition discriminate. }
  repeat match goal with
         | |- context [if ?b then _ else _] => destruct b
         end;
    repeat first [apply NoDup_keys_process_error | apply DictFacts.NoDup_keys_set];
    assumption.
Qed.

(** What [EnumSessions.run] reports for the three variants and for
    [sessions_possible]. *)
Lemma EnumSessions_run_flags (target : Target) (creds : Credentials) :
  let output := snd (EnumSessions_run W target creds) in
  Dict.get "null_session_possible" output = Some (VBool (null_session_ok W target creds))
  /\ Dict.get "user_session_possible" output = Some (VBool (user_session_ok W target creds))
  /\ Dict.get "random_user_session_possible" output
     = Some (VBool (random_user_session_ok W target creds))
  /\ Dict.get "sessions_possible" output
     = Some (VBool (null_session_ok W target creds
                    || user_session_ok W target creds
                    || random_user_session_ok W target creds)).
Proof.
  unfold EnumSessions_run, null_session_ok, user_session_ok, random_user_session_ok,
    session_target.
  match goal with
  | |- context [legacy_loop W ?m ?p ?t ?o] =>
      pose proof (fun k H1 H2 => legacy_loop_get k m p t o H1 H2) as Hget;
      destruct (legacy_loop W m p t o) as [t1 o1]
  end.
  simpl in Hget. simpl fst.
  assert (Hn : Dict.get "null_session_possible" o1 = Some (VBool false))
    by (rewrite Hget by discriminate; reflexivity).
  assert (Hu : Dict.get "user_session_possible" o1 = Some (VBool false))
    by (rewrite Hget by discriminate; reflexivity).
  assert (Hr : Dict.get "random_user_session_possible" o1 = Some (VBool false))
    by (rewrite Hget by discriminate; reflexivity).
  assert (Hs : Dict.get "sessions_possible" o1 = Some (VBool false))
    by (rewrite Hget by discriminate; reflexivity).
  clear Hget.
  destruct (truthy (retval (check_user_session W t1 (mkCredentials "" "" (random_user creds)) false)));
    destruct (PyStr.truthy (user creds));
    try destruct (truthy (retval (check_user_session W t1 creds false)));
    destruct (truthy (retval (check_user_session W t1 creds true)));
    cbv zeta; unfold get_truthy; dict_simpl; rewrite ?Hn, ?Hu, ?Hr; simpl;
    dict_simpl; rewrite ?Hn, ?Hu, ?Hr, ?Hs; auto.
Qed.

(** The step of [main] that follows the session checks never returns when
    none of them succeeded: it exits with status 1 and leaves the tree as
    the update with the result of the session checks made it. *)
Lemma main_sessions_aborts (creds : Credentials) (out_file : option (string * string))
    (s : state) :
  null_session_ok W (st_target s) creds
  || user_session_ok W (st_target s) creds
  || random_user_session_ok W (st_target s) creds = false ->
  main_sessions W creds out_file s =
  (Raise (SystemExit 1),
   mkState (fst (EnumSessions_run W (st_target s) creds))
           (Output_merge (st_out s) (snd (EnumSessions_run W (st_target s) creds)))).
Proof.
  intros Hfail.
  pose proof (EnumSessions_run_flags (st_target s) creds) as [_ [_ [_ Hsp]]].
  pose proof (EnumSessions_run_NoDup (st_target s) creds) as Hnd.
  rewrite Hfail in Hsp.
  unfold main_sessions, bind, get_target, put_target, Output_update, abort, lift.
  destruct (EnumSessions_run W (st_target s) creds) as [t' result].
  simpl in *.
  assert (Hgate : get_truthy "sessions_possible" (Output_merge (st_out s) result) = false).
  { unfold get_truthy. rewrite get_Output_merge by discriminate.
    rewrite DictFacts.get_last_NoDup by assumption. now rewrite Hsp. }
  destruct out_file as [[path kind]|]; simpl.
  - destruct (write_file W path kind _); simpl; [now rewrite Hgate | reflexivity].
  - now rewrite Hgate.
Qed.

(** C3.  [sessions_possible] is true exactly when one of the three session
    variants (null, supplied credentials, random user name) succeeded; and
    when none did, [main] exits with status 1 and the tree is the one the
    update with the result of the session checks left: no later module has
    run. *)
Theorem sessions_gate (args : Args) :
  (forall target creds,
      Dict.get "sessions_possible" (snd (EnumSessions_run W target creds))
      = Some (VBool (null_session_ok W target creds
                     || user_session_ok W target creds
                     || random_user_session_ok W target creds)))
  /\
  (forall params s,
      main_setup W args (mkState (target_of args) Output_init) = (Ret params, s) ->
      null_session_ok W (st_target s) (creds_of W args)
      || user_session_ok W (st_target s) (creds_of W args)
      || random_user_session_ok W (st_target s) (creds_of W args) = false ->
      main W args =
      (Raise (SystemExit 1),
       mkState (fst (EnumSessions_run W (st_target s) (creds_of W args)))
               (Output_merge (st_out s)
                             (snd (EnumSessions_run W (st_target s) (creds_of W args)))))
      /\ exit_code (main W args) = 1%Z).
Proof.
  split.
  - intros target creds. apply EnumSessions_run_flags.
  - intros params s Hsetup Hfail.
    assert (Hmain : main W args =
                    (Raise (SystemExit 1),
                     mkState (fst (EnumSessions_run W (st_target s) (creds_of W args)))
                             (Output_merge (st_out s)
                                (snd (EnumSessions_run W (st_target s) (creds_of W args)))))).
    { unfold main. unfold bind at 1. rewrite Hsetup.
      unfold bind at 1. now rewrite main_sessions_aborts. }
    split; [exact Hmain | now rewrite Hmain].
Qed.

End Sessions.

(** ** RID cycling *)

Lemma fold_left_flat_map {A B C} (f : A -> C -> A) (g : B -> list C) (l : list B) (a : A) :
  fold_left (fun a b => fold_left f (g b) a) l a = fold_left f (flat_map g l) a.
Proof.
  revert a. induction l as [|b l IH]; intros a; simpl; auto.
  now rewrite fold_left_app, IH.
Qed.

Lemma fold_left_preserves {A B} (f : A -> B -> A) (P : A -> Prop) (Q : B -> Prop) :
  (forall a b, Q b -> P a -> P (f a b)) ->
  forall l a, (forall b, In b l -> Q b) -> P a -> P (fold_left f l a).
Proof.
  intros Hstep l. induction l as [|b l IH]; intros a HQ Ha; simpl; auto.
  apply IH; [intros; apply HQ; now right|].
  apply Hstep; [apply HQ; now left | assumption].
Qed.

Lemma set_set_same {A} (k : string) (v v' : A) d :
  Dict.set k v' (Dict.set k v d) = Dict.set k v' d.
Proof.
  induction d as [|[k2 v2] d IH]; simpl.
  - now rewrite String.eqb_refl.
  - destruct (String.eqb k2 k) eqn:E; simpl; rewrite E; [reflexivity | now rewrite IH].
Qed.

Lemma entries_set_other (key k : string) (v : value) (o : dict) :
  key <> k -> entries key (Dict.set k v o) = entries key o.
Proof. intros H. unfold entries. now rewrite DictFacts.get_set_other. Qed.

Lemma entries_process_error (key msg module_name : string) affected (o : dict) :
  key <> "errors" -> entries key (process_error msg affected module_name o) = entries key o.
Proof. intros H. unfold entries. now rewrite get_process_error. Qed.

Lemma entries_set_entry (key k rid : string) (e : value) (o : dict) :
  entries k (set_entry key rid e o) =
  if String.eqb key k then Dict.set rid e (entries k o) else entries k o.
Proof.
  unfold entries, set_entry. rewrite DictFacts.get_set.
  destruct (String.eqb key k) eqn:E; [|reflexivity].
  apply String.eqb_eq in E. now subst.
Qed.

Lemma key_known_entries (key rid : string) (o : dict) :
  key_known key rid o = Dict.has rid (entries key o).
Proof.
  unfold key_known, entries.
  destruct (Dict.get key o) as [[| | | | |]|]; reflexivity.
Qed.

Lemma has_bump (k key : string) (fc : list (string * Z)) :
  Dict.has k (bump key fc) = Dict.has k fc.
Proof.
  unfold bump. destruct (Dict.get key fc) eqn:E; auto.
  unfold Dict.has. rewrite DictFacts.get_set.
  destruct (String.eqb key k) eqn:Ek; auto.
  apply String.eqb_eq in Ek. subst. now rewrite E.
Qed.

Lemma count_of_bump (k key : string) (fc : list (string * Z)) :
  Dict.has key fc = true ->
  count_of k (bump key fc) = (if String.eqb key k then count_of k fc + 1 else count_of k fc)%Z.
Proof.
  unfold Dict.has, bump, count_of. intros H.
  destruct (Dict.get key fc) eqn:E; [|discriminate].
  rewrite DictFacts.get_set.
  destruct (String.eqb key k) eqn:Ek; auto.
  apply String.eqb_eq in Ek. subst. now rewrite E.
Qed.


Section Cycling.

Variable W : World.
Variable target : Target.
Variable creds : Credentials.
Variable detailed : bool.
Variable module_name : string.

(** What one turn of the loop does: nothing, or it records a domain SID, or
    it adds one entry that was not there. *)
Lemma cycle_step_cases (o : dict) (fc : list (string * Z)) (r : Result) :
  let st' := cycle_step W target creds detailed module_name (o, fc) r in
  (st' = (o, fc)
   /\ (first_item (retval r) = None
       \/ exists key v,
           first_item (retval r) = Some (key, v) /\ key <> "domain_sid"
           /\ (first_item v = None
               \/ exists rid e,
                   first_item v = Some (rid, e)
                   /\ Dict.has rid (entries key o) = true)))
  \/ (exists v,
         first_item (retval r) = Some ("domain_sid", v)
         /\ st' = (Dict.set "domain_sid" v o, fc))
  \/ (exists key v rid e0 e,
         first_item (retval r) = Some (key, v) /\ key <> "domain_sid"
         /\ first_item v = Some (rid, e0)
         /\ Dict.has rid (entries key o) = false
         /\ snd st' = bump key fc
         /\ forall k, k <> "errors" ->
                 entries k (fst st') =
                 if String.eqb key k then Dict.set rid e (entries k o) else entries k o).
Proof.
  unfold cycle_step.
  destruct (first_item (retval r)) as [[key v]|] eqn:Hfirst; [|left; auto].
  destruct (String.eqb key "domain_sid") eqn:Ekey.
  { apply String.eqb_eq in Ekey. subst key. right. left. eauto. }
  apply String.eqb_neq in Ekey.
  destruct (first_item v) as [[rid e0]|] eqn:Hv.
  2:{ left. split; auto. right. exists key, v. auto. }
  rewrite key_known_entries.
  destruct (Dict.has rid (entries key o)) eqn:Hknown.
  { left. split; auto. right. exists key, v. repeat split; auto.
    right. exists rid, e0. auto. }
  right. right.
  destruct (detailed && (PyStr.contains "users" key || PyStr.contains "groups" key)).
  - match goal with
    | |- context [set_entry key rid ?e' (if ?b then ?x else ?y)] =>
        exists key, v, rid, e0, e'; repeat split; auto; intros k Hk; cbn [fst];
        destruct b
    end.
    + rewrite !entries_set_entry.
      destruct (String.eqb key k); auto. apply set_set_same.
    + rewrite entries_set_entry, entries_process_error, entries_set_entry by assumption.
      destruct (String.eqb key k); auto. apply set_set_same.
  - exists key, v, rid, e0, e0. repeat split; auto.
    intros k Hk. simpl. apply entries_set_entry.
Qed.

(** An entry that is there stays as it is. *)
Lemma cycle_step_keeps (key rid : string) (v : value) (st : dict * list (string * Z))
    (r : Result) :
  key <> "errors" -> key <> "domain_sid" ->
  Dict.get rid (entries key (fst st)) = Some v ->
  Dict.get rid (entries key (fst (cycle_step W target creds detailed module_name st r)))
  = Some v.
Proof.
  intros He Hd Hget. destruct st as [o fc]. simpl in Hget.
  destruct (cycle_step_cases o fc r) as [[-> _]|[[v' [_ ->]]|Hnew]]; simpl; auto.
  - now rewrite entries_set_other.
  - destruct Hnew as [k [v' [rid' [e0 [e [_ [_ [_ [Hnot [_ Hent]]]]]]]]]].
    rewrite Hent by assumption.
    destruct (String.eqb k key) eqn:E; auto.
    apply String.eqb_eq in E. subst k.
    rewrite DictFacts.get_set_other; auto.
    intros ->. unfold Dict.has in Hnot. now rewrite Hget in Hnot.
Qed.

Lemma cycle_step_NoDup (key : string) (st : dict * list (string * Z)) (r : Result) :
  key <> "errors" -> key <> "domain_sid" ->
  NoDup (Dict.keys (entries key (fst st))) ->
  NoDup (Dict.keys (entries key
                      (fst (cycle_step W target creds detailed module_name st r)))).
Proof.
  intros He Hd Hnd. destruct st as [o fc]. simpl in Hnd.
  destruct (cycle_step_cases o fc r) as [[-> _]|[[v' [_ ->]]|Hnew]]; simpl; auto.
  - now rewrite entries_set_other.
  - destruct Hnew as [k [v' [rid' [e0 [e [_ [_ [_ [_ [_ Hent]]]]]]]]]].
    rewrite Hent by assumption.
    destruct (String.eqb k key); auto. now apply DictFacts.NoDup_keys_set.
Qed.

(** The size of a map grows by what its counter counts. *)
Definition counted (key : string) (seed : dict) (st : dict * list (string * Z)) : Prop :=
  (forall k, In k identity_keys -> Dict.has k (snd st) = true)
  /\ (0 <= count_of key (snd st))%Z
  /\ Z.of_nat (length (entries key (fst st)))
     = (Z.of_nat (length (entries key seed)) + count_of key (snd st))%Z.

Lemma cycle_step_counted (key : string) (seed : dict) (st : dict * list (string * Z))
    (r : Result) :
  In key identity_keys -> is_hit r ->
  counted key seed st ->
  counted key seed (cycle_step W target creds detailed module_name st r).
Proof.
  intros Hkey Hhit [Hhas [Hpos Hlen]]. destruct st as [o fc]. cbn [fst snd] in *.
  assert (He : key <> "errors") by (intros ->; simpl in Hkey; intuition discriminate).
  assert (Hd : key <> "domain_sid") by (intros ->; simpl in Hkey; intuition discriminate).
  destruct (cycle_step_cases o fc r) as [[-> _]|[[v' [_ ->]]|Hnew]];
    unfold counted; cbn [fst snd].
  - repeat split; auto.
  - rewrite entries_set_other by assumption. repeat split; auto.
  - destruct Hnew as [k [v' [rid' [e0 [e [Hfirst [Hkd [Hv [Hnot [Hfc Hent]]]]]]]]]].
    assert (Hk : In k identity_keys).
    { destruct Hhit as [[w Hw]|[k2 [rid2 [e2 [Hin Hw]]]]];
        rewrite Hw in Hfirst; simpl in Hfirst; inversion Hfirst; subst; auto.
      congruence. }
    destruct (cycle_step W target creds detailed module_name (o, fc) r) as [o' fc'].
    simpl in *. subst fc'.
    split; [intros k2 Hk2; rewrite has_bump; auto|].
    rewrite Hent by assumption.
    rewrite count_of_bump by auto.
    destruct (String.eqb k key) eqn:E.
    + apply String.eqb_eq in E. subst k.
      rewrite DictFacts.length_set, Hnot. split; lia.
    + split; auto.
Qed.

(** A RID that is known stays known. *)
Lemma cycle_step_known (key rid : string) (st : dict * list (string * Z)) (r : Result) :
  key <> "errors" -> key <> "domain_sid" ->
  Dict.has rid (entries key (fst st)) = true ->
  Dict.has rid (entries key (fst (cycle_step W target creds detailed module_name st r)))
  = true.
Proof.
  intros He Hd Hhas. unfold Dict.has in *.
  destruct (Dict.get rid (entries key (fst st))) as [v|] eqn:Hget; [|discriminate].
  now rewrite (cycle_step_keeps key rid v st r He Hd Hget).
Qed.

(** After its turn, the RID of a result is known. *)
Lemma cycle_step_absorbs (key rid : string) (e : value) (st : dict * list (string * Z))
    (r : Result) :
  In key identity_keys ->
  retval r = VDict [(key, VDict [(rid, e)])] ->
  Dict.has rid (entries key (fst (cycle_step W target creds detailed module_name st r)))
  = true.
Proof.
  intros Hkey Hr. destruct st as [o fc].
  assert (He : key <> "errors") by (intros ->; simpl in Hkey; intuition discriminate).
  assert (Hd : key <> "domain_sid") by (intros ->; simpl in Hkey; intuition discriminate).
  destruct (cycle_step_cases o fc r) as [[-> Hsame]|[[v' [Hfirst _]]|Hnew]];
    rewrite Hr in *; simpl in *.
  - destruct Hsame as [Hnone|[k [v [Hfirst [_ [Hnone|[rid' [e' [Hv Hhas]]]]]]]]];
      try discriminate; inversion Hfirst; subst; simpl in *; try discriminate.
    inversion Hv; subst. assumption.
  - inversion Hfirst. congruence.
  - destruct Hnew as [k [v' [rid' [e0 [e' [Hfirst [_ [Hv [_ [_ Hent]]]]]]]]]].
    inversion Hfirst; subst. simpl in Hv. inversion Hv; subst.
    rewrite Hent by assumption. rewrite String.eqb_refl.
    apply DictFacts.has_set_same.
Qed.

(** A pass over results whose RIDs are all known adds nothing. *)
Definition absorbed (hits : list Result) (o : dict) : Prop :=
  forall r key rid e,
    In r hits -> In key identity_keys ->
    retval r = VDict [(key, VDict [(rid, e)])] ->
    Dict.has rid (entries key o) = true.

Lemma cycle_step_idle (hits : list Result) (st : dict * list (string * Z)) (r : Result) :
  In r hits -> is_hit r -> absorbed hits (fst st) ->
  let st' := cycle_step W target creds detailed module_name st r in
  snd st' = snd st
  /\ (forall k, In k identity_keys -> entries k (fst st') = entries k (fst st)).
Proof.
  intros Hin Hhit Habs. destruct st as [o fc]. cbn [fst snd] in *. cbv zeta.
  destruct (cycle_step_cases o fc r) as [[-> _]|[[v' [_ ->]]|Hnew]];
    cbn [fst snd]; auto.
  - split; auto. intros k Hk. apply entries_set_other.
    intros ->. simpl in Hk. intuition discriminate.
  - exfalso.
    destruct Hnew as [k [v' [rid' [e0 [e [Hfirst [Hkd [Hv [Hnot _]]]]]]]]].
    destruct Hhit as [[w Hw]|[k2 [rid2 [e2 [Hk2 Hw]]]]];
      rewrite Hw in Hfirst; simpl in Hfirst; inversion Hfirst; subst.
    + congruence.
    + simpl in Hv. inversion Hv; subst.
      rewrite (Habs r k rid' e0 Hin Hk2 Hw) in Hnot. discriminate.
Qed.

End Cycling.

Section CyclingRun.

Variable W : World.
Variable target : Target.
Variable creds : Credentials.
Variable detailed : bool.

Lemma rid_cycle_one_hits (sid : string) (rid : Z) (r : Result) :
  In r (rid_cycle_one W target creds sid rid) -> is_hit r.
Proof.
  unfold rid_cycle_one.
  destruct (Re.search re_lookupsids _) as [m|]; cbv iota; [|intros []].
  destruct (Re.search re_name_is_rid _); cbv iota; [intros []|].
  repeat match goal with
         | |- context [if ?b then _ else _] => destruct b
         end;
    simpl; intros H; try contradiction; destruct H as [<-|[]];
    try (left; eexists; reflexivity);
    right; do 3 eexists; (split; [|reflexivity]); simpl; auto.
Qed.

(** All the results of the sweep over the SIDs in [sids], in order. *)
Definition sweep (cycle_params : RidCycleParams) (sids : list string) : list Result :=
  flat_map (fun sid => rid_cycle W target creds sid (rid_ranges cycle_params)) sids.

Lemma sweep_hits (cycle_params : RidCycleParams) (sids : list string) (r : Result) :
  In r (sweep cycle_params sids) -> is_hit r.
Proof.
  unfold sweep, rid_cycle. intros H.
  apply in_flat_map in H. destruct H as [sid [_ H]].
  apply in_flat_map in H. destruct H as [[a b] [_ H]].
  apply in_flat_map in H. destruct H as [rid [_ H]].
  now apply rid_cycle_one_hits in H.
Qed.

Lemma cycle_all_sweep (cycle_params : RidCycleParams) (sids : list string) (o : dict) :
  cycle_all W cycle_params target creds detailed sids o =
  fold_left (cycle_step W target creds detailed "rid_cycling")
            (sweep cycle_params sids) (o, nothing_found).
Proof. unfold cycle_all, sweep. apply fold_left_flat_map. Qed.

Lemma sweep_absorbed (l : list Result) (st : dict * list (string * Z)) :
  (forall r, In r l -> is_hit r) ->
  absorbed l (fst (fold_left (cycle_step W target creds detailed "rid_cycling") l st)).
Proof.
  revert st. induction l as [|r l IH]; intros st Hhits.
  - intros r key rid e [].
  - simpl. intros r' key rid e [<-|Hin] Hkey Hr.
    + assert (He : key <> "errors") by (intros ->; simpl in Hkey; intuition discriminate).
      assert (Hd : key <> "domain_sid")
        by (intros ->; simpl in Hkey; intuition discriminate).
      apply (fold_left_preserves
               (cycle_step W target creds detailed "rid_cycling")
               (fun st => Dict.has rid (entries key (fst st)) = true)
               (fun _ => True)); auto.
      * intros a b _. now apply cycle_step_known.
      * now apply cycle_step_absorbs with (e := e).
    + apply (IH (cycle_step W target creds detailed "rid_cycling" st r)) with (r := r') (e := e);
        auto.
      intros r0 H0. apply Hhits. now right.
Qed.

Lemma sweep_idle (hits l : list Result) (st : dict * list (string * Z)) :
  (forall r, In r l -> is_hit r /\ In r hits) ->
  absorbed hits (fst st) ->
  let st' := fold_left (cycle_step W target creds detailed "rid_cycling") l st in
  snd st' = snd st
  /\ (forall k, In k identity_keys -> entries k (fst st') = entries k (fst st)).
Proof.
  revert st. induction l as [|r l IH]; intros st Hl Habs; simpl; auto.
  destruct (Hl r (or_introl eq_refl)) as [Hhit Hin].
  destruct (cycle_step_idle W target creds detailed "rid_cycling" hits st r Hin Hhit Habs)
    as [Hfc Hent].
  destruct (IH (cycle_step W target creds detailed "rid_cycling" st r)) as [Hfc' Hent'].
  - intros r0 H0. apply Hl. now right.
  - intros r0 key rid e H0 Hkey Hr. rewrite Hent by assumption. eapply Habs; eauto.
  - split; [congruence|]. intros k Hk. rewrite Hent', Hent; auto.
Qed.

Lemma sids_to_cycle_same (cp cp' : RidCycleParams) (o o' : dict) :
  known_usernames cp = known_usernames cp' ->
  Dict.get "domain_sid" o = Dict.get "domain_sid" o' ->
  sids_to_cycle W cp target creds o = sids_to_cycle W cp' target creds o'.
Proof. intros Hu Hd. unfold sids_to_cycle. now rewrite Hu, Hd. Qed.

(** The end of [RidCycling.run]: the error when nothing new was found. *)
Definition finish (st : dict * list (string * Z)) : dict :=
  if (count_of "users" (snd st) =? 0)%Z
     && (count_of "groups" (snd st) =? 0)%Z
     && (count_of "machines" (snd st) =? 0)%Z
  then process_error "Could not find any (new) users, (new) groups or (new) machines"
         ["users"; "groups"; "machines"] "rid_cycling" (fst st)
  else fst st.

Lemma run_counted_failed (cp : RidCycleParams) (sids : Result) :
  sids_to_cycle W cp target creds (enumerated_input cp) = inl sids ->
  RidCycling_run_counted W cp target creds detailed =
  (process_error (retmsg sids) ["users"; "groups"; "machines"] "rid_cycling"
                 (enumerated_input cp), None).
Proof. intros H. unfold RidCycling_run_counted. now rewrite H. Qed.

Lemma run_counted_cycled (cp : RidCycleParams) (sids : list string) :
  sids_to_cycle W cp target creds (enumerated_input cp) = inr sids ->
  RidCycling_run_counted W cp target creds detailed =
  let st := fold_left (cycle_step W target creds detailed "rid_cycling")
                      (sweep cp sids) (enumerated_input cp, nothing_found) in
  (finish st, Some (snd st)).
Proof.
  intros H. unfold RidCycling_run_counted. rewrite H, cycle_all_sweep.
  destruct (fold_left _ _ _) as [o fc]. reflexivity.
Qed.

Lemma entries_finish (key : string) (st : dict * list (string * Z)) :
  key <> "errors" -> entries key (finish st) = entries key (fst st).
Proof.
  intros H. unfold finish.
  destruct (_ && _); auto. now apply entries_process_error.
Qed.

Lemma count_of_nothing_found (key : string) : count_of key nothing_found = 0%Z.
Proof.
  unfold count_of, nothing_found. simpl.
  repeat match goal with
         | |- context [if ?b then _ else _] => destruct b
         end; reflexivity.
Qed.

Lemma identity_key_plain (key : string) :
  In key identity_keys -> key <> "errors" /\ key <> "domain_sid".
Proof. simpl. intros H. split; intros ->; intuition discriminate. Qed.

(** C2, as the code has it.  For each of the maps [users], [groups] and
    [machines] a run of RID cycling keeps every entry of the seed as it is,
    keeps the RIDs distinct, and makes the map larger by exactly the number
    of new entities it counts; and a second run of the same object adds no
    entity and counts none, provided the first run left the domain SID of
    its input as it was. *)
Theorem rid_cycling_extends_only (cycle_params : RidCycleParams) (key : string) :
  In key identity_keys ->
  let seed := enumerated_input cycle_params in
  let first := RidCycling_run_counted W cycle_params target creds detailed in
  let found := match snd first with Some fc => count_of key fc | None => 0%Z end in
  (forall rid v,
      Dict.get rid (entries key seed) = Some v ->
      Dict.get rid (entries key (fst first)) = Some v)
  /\ (NoDup (Dict.keys (entries key seed)) ->
      NoDup (Dict.keys (entries key (fst first))))
  /\ (0 <= found)%Z
  /\ Z.of_nat (length (entries key (fst first)))
     = (Z.of_nat (length (entries key seed)) + found)%Z
  /\ (Dict.get "domain_sid" (fst first) = Dict.get "domain_sid" seed ->
      let second := RidCycling_run_again W cycle_params target creds detailed in
      entries key (fst second) = entries key (fst first)
      /\ (snd second = None \/ snd second = Some nothing_found)).
Proof.
  intros Hkey seed first found.
  destruct (identity_key_plain key Hkey) as [He Hd].
  destruct (sids_to_cycle W cycle_params target creds seed) as [sids|sids] eqn:Hsids.
  - (* no SID: the run returns before the loop *)
    subst first found. rewrite (run_counted_failed cycle_params sids Hsids).
    cbn [fst snd]. rewrite entries_process_error by assumption.
    split; [auto|]. split; [auto|]. split; [lia|]. split; [unfold seed; lia|].
    intros Hdom. unfold RidCycling_run_again, RidCycling_run.
    rewrite (run_counted_failed cycle_params sids Hsids). cbn [fst].
    rewrite (run_counted_failed _ sids).
    + cbn [fst snd enumerated_input]. split; auto.
      now rewrite !entries_process_error by assumption.
    + cbn [enumerated_input]. rewrite <- Hsids. apply sids_to_cycle_same; auto.
  - (* the sweep *)
    subst first found. rewrite (run_counted_cycled cycle_params sids Hsids).
    set (step := cycle_step W target creds detailed "rid_cycling").
    set (hits := sweep cycle_params sids).
    cbv zeta. cbn [fst snd]. rewrite entries_finish by assumption.
    assert (Hhits : forall r, In r hits -> is_hit r) by (intros r; apply sweep_hits).
    assert (Hcount : counted key seed (fold_left step hits (seed, nothing_found))).
    { apply (fold_left_preserves step (counted key seed) is_hit); auto.
      - intros a b Hb Ha. now apply cycle_step_counted.
      - unfold counted. cbn [fst snd]. repeat split.
        + intros k Hk. simpl in Hk.
          destruct Hk as [<-|[<-|[<-|[]]]]; reflexivity.
        + rewrite count_of_nothing_found. lia.
        + rewrite count_of_nothing_found. lia. }
    destruct Hcount as [_ [Hpos Hlen]].
    split; [|split; [|split; [|split]]]; auto.
    + intros rid v Hget.
      apply (fold_left_preserves step
               (fun st => Dict.get rid (entries key (fst st)) = Some v)
               (fun _ => True)); auto.
      intros a b _. now apply cycle_step_keeps.
    + intros Hnd.
      apply (fold_left_preserves step
               (fun st => NoDup (Dict.keys (entries key (fst st))))
               (fun _ => True)); auto.
      intros a b _. now apply cycle_step_NoDup.
    + intros Hdom. unfold RidCycling_run_again, RidCycling_run.
      rewrite (run_counted_cycled cycle_params sids Hsids).
      fold step. fold hits. cbv zeta. cbn [fst].
      rewrite (run_counted_cycled _ sids).
      2:{ cbn [enumerated_input]. rewrite <- Hsids. apply sids_to_cycle_same; auto. }
      cbv zeta. cbn [fst snd enumerated_input].
      change (sweep _ sids) with hits. fold step.
      destruct (sweep_idle hits hits (finish (fold_left step hits (seed, nothing_found)),
                                       nothing_found)) as [Hfc Hent].
      * intros r Hr. split; auto.
      * cbn [fst]. intros r k rid e Hr Hk Hret.
        rewrite entries_finish by (apply identity_key_plain; assumption).
        apply (sweep_absorbed hits (seed, nothing_found) Hhits r k rid e Hr Hk Hret).
      * cbn [fst snd] in *. fold step in Hfc, Hent. unfold seed in *. split.
        -- rewrite entries_finish by assumption. rewrite Hent by assumption.
           now rewrite entries_finish.
        -- right. now rewrite Hfc.
Qed.

End CyclingRun.

(** A witness for C2: the users map holds the administrator, the sweep of
    500 to 502 finds [alice] under RID 501, and a second run finds nothing
    new. *)
Lemma rid_cycling_extends_only_witness :
  let first := RidCycling_run_counted alice_world alice_params sample_target sample_creds false in
  let second := RidCycling_run_again alice_world alice_params sample_target sample_creds false in
  Dict.get "500" (entries "users" (fst first))
  = Some (VDict [("username", VStr "Administrator")])
  /\ NoDup (Dict.keys (entries "users" (fst first)))
  /\ Z.of_nat (length (entries "users" (fst first))) = 2%Z
  /\ entries "users" (fst second) = entries "users" (fst first)
  /\ (snd second = None \/ snd second = Some nothing_found).
Proof.
  destruct (rid_cycling_extends_only alice_world sample_target sample_creds false
              alice_params "users" (or_introl eq_refl))
    as [Hkeep [Hnodup [_ [Hsize Hagain]]]].
  split; [apply Hkeep; reflexivity|].
  split; [apply Hnodup; repeat constructor; simpl; intuition discriminate|].
  split; [rewrite Hsize; vm_compute; reflexivity|].
  apply Hagain. vm_compute. reflexivity.
Defined.

(** C2, as the claim states it, fails: the first run on [nested_world]
    records the domain SID the lookup of RID 500 reports, and the second
    run, over the same range and with the same answers, cycles that SID
    and counts one new user. *)
Lemma second_run_finds_a_user :
  ~ (forall (W : World) (cycle_params : RidCycleParams) (target : Target)
            (creds : Credentials) (detailed : bool),
        snd (RidCycling_run_again W cycle_params target creds detailed) = None
        \/ snd (RidCycling_run_again W cycle_params target creds detailed)
           = Some nothing_found).
Proof.
  intros H.
  specialize (H nested_world nested_params sample_target sample_creds false).
  vm_compute in H. destruct H as [H|H]; discriminate H.
Qed.

(** What the two runs on [nested_world] leave. *)
Example nested_runs :
  let first := RidCycling_run nested_world nested_params sample_target sample_creds false in
  let second := RidCycling_run_again nested_world nested_params sample_target sample_creds false in
  Dict.get "users" first = Some VNone
  /\ Dict.get "domain_sid" first = Some (VStr "S-1-5-21-1111-2222-3333-500")
  /\ Dict.get "users" (fst second)
     = Some (VDict [("500", VDict [("username", VStr "CORP\alice")])])
  /\ snd second = Some [("users", 1%Z); ("groups", 0%Z); ("machines", 0%Z)].
Proof. vm_compute. repeat split. Qed.

(** A witness for C3: the silent host refuses the three sessions. *)
Lemma sessions_gate_witness :
  Dict.get "sessions_possible"
           (snd (EnumSessions_run silent_world sample_target sample_creds))
  = Some (VBool false)
  /\ fst (main silent_world sample_args) = Raise (SystemExit 1)
  /\ Dict.keys (st_out (snd (main silent_world sample_args)))
     = ["target"; "credentials"; "is_parent_dc"; "is_child_dc"; "long_domain";
        "workgroup"; "nmblookup"; "sessions_possible"; "legacy_session";
        "null_session_possible"; "user_session_possible";
        "random_user_session_possible"; "errors"]
  /\ exit_code (main silent_world sample_args) = 1%Z.
Proof.
  destruct (sessions_gate silent_world sample_args) as [Hflag Hgate].
  split; [rewrite Hflag; vm_compute; reflexivity|].
  destruct (Hgate (fst (match fst silent_setup with Ret p => p | Raise _ => (None, None) end),
                   snd (match fst silent_setup with Ret p => p | Raise _ => (None, None) end))
                  (snd silent_setup))
    as [Hmain Hexit].
  - vm_compute. reflexivity.
  - vm_compute. reflexivity.
  - split; [rewrite Hmain; reflexivity|].
    split; [rewrite Hmain; vm_compute; reflexivity | exact Hexit].
Defined.

(** ** The discovery of SIDs *)

Section Sids.

Variable W : World.
Variable target : Target.
Variable creds : Credentials.

(** The lookup of a well-known name adds nothing, whatever it prints. *)
Lemma lookupnames_step_skips (sids : list string) (known_username : string) :
  lookupnames_step W target creds sids known_username = sids.
Proof. reflexivity. Qed.

Lemma lookupnames_loop_skips (names : list string) (sids : list string) :
  fold_left (lookupnames_step W target creds) names sids = sids.
Proof. induction names as [|n names IH]; simpl; auto. Qed.

(** [enum_sids] does not depend on the list of well-known names. *)
Lemma enum_sids_ignores_names (users users' : string) :
  enum_sids W target creds users = enum_sids W target creds users'.
Proof. unfold enum_sids. now rewrite !lookupnames_loop_skips. Qed.

End Sids.

(** C5 fails on the code.  The output of [lookupnames administrator] holds
    a SID that the first pattern matches and no status token, and
    [enum_sids] returns no SID at all: the test before the patterns,
    ["NT_STATUS_ACCESS_DENIED" or ... in sid_string], is true for every
    output. *)
Theorem enum_sids_drops_lookupnames_sid :
  let sid_string :=
    run lookupnames_world
        ["rpcclient"; "-W"; workgroup sample_target; "-U";
         user sample_creds ++ "%" ++ pw sample_creds;
         "-c"; "lookupnames administrator"; host sample_target]
        (samba_config sample_target) in
  PyStr.contains "NT_STATUS_ACCESS_DENIED" sid_string = false
  /\ PyStr.contains "NT_STATUS_NONE_MAPPED" sid_string = false
  /\ option_map (Re.group_str 1) (Re.search (sid_pattern "S-1-5-21-") sid_string)
     = Some "S-1-5-21-1111-2222-3333"
  /\ enum_sids lookupnames_world sample_target sample_creds "administrator"
     = mkResult VNone "Could not get any SIDs"
  /\ (forall W target creds users,
         enum_sids W target creds users = enum_sids W target creds "").
Proof.
  split; [vm_compute; reflexivity|].
  split; [vm_compute; reflexivity|].
  split; [vm_compute; reflexivity|].
  split; [vm_compute; reflexivity|].
  intros. apply enum_sids_ignores_names.
Qed.

(** ** Domain or workgroup *)

(** The classifier answers [workgroup] for every output of [lsaquery]. *)
Lemma membership_is_always_workgroup (lsaquery_result : string) :
  check_is_part_of_workgroup_or_domain lsaquery_result
  = mkResult (VStr "workgroup") "Host is part of a workgroup (not a domain)".
Proof. reflexivity. Qed.

(** C6 fails on the code.  The output of a domain member has a domain SID
    that the pattern of the classifier matches and no null SID, and the
    classifier returns [workgroup]; it does so for every output. *)
Theorem membership_of_domain_member :
  matches re_domain_sid domain_member_lsaquery = true
  /\ PyStr.contains "Domain Sid: (NULL SID)" domain_member_lsaquery = false
  /\ PyStr.contains "Domain Sid: S-0-0" domain_member_lsaquery = false
  /\ retval (check_is_part_of_workgroup_or_domain domain_member_lsaquery)
     = VStr "workgroup"
  /\ (forall lsaquery_result,
         retval (check_is_part_of_workgroup_or_domain lsaquery_result)
         = VStr "workgroup").
Proof.
  split; [vm_compute; reflexivity|].
  split; [vm_compute; reflexivity|].
  split; [vm_compute; reflexivity|].
  split; [reflexivity|].
  intros. now rewrite membership_is_always_workgroup.
Qed.

(** ** Parent or child domain controller *)

(** [check_parent_dc] answers "parent" for every list of naming contexts. *)
Lemma parent_dc_is_always_true (namingcontexts_result : list value) :
  check_parent_dc namingcontexts_result
  = mkResult (VBool true) "Appears to be root/parent DC".
Proof. reflexivity. Qed.

Section ParentDc.

Variable W : World.

(** The run never reports a child domain controller. *)
Lemma EnumLdapDomainInfo_run_never_child (t : Target) :
  let output := snd (EnumLdapDomainInfo_run W t) in
  (Dict.get "is_parent_dc" output = Some VNone
   /\ Dict.get "is_child_dc" output = Some VNone)
  \/ (Dict.get "is_parent_dc" output = Some (VBool true)
      /\ Dict.get "is_child_dc" output = Some (VBool false)).
Proof.
  unfold EnumLdapDomainInfo_run.
  pose proof (fun k H => ldap_loop_get W k "enum_ldap_domain_info" [false; true] t
                [("is_parent_dc", VNone); ("is_child_dc", VNone); ("long_domain", VNone)]
                (mkResult VNone "") H) as Hget.
  destruct (ldap_loop W _ _ _ _ _) as [[t' o] r]. cbn [fst snd] in *.
  assert (Hp : Dict.get "is_parent_dc" o = Some VNone)
    by (rewrite Hget by discriminate; reflexivity).
  assert (Hc : Dict.get "is_child_dc" o = Some VNone)
    by (rewrite Hget by discriminate; reflexivity).
  destruct (truthy (retval r)); [right | left; auto].
  rewrite parent_dc_is_always_true. cbn [retval truthy].
  destruct (truthy (retval (get_long_domain _)));
    rewrite ?get_process_error by discriminate;
    rewrite ?DictFacts.get_set_other by discriminate;
    rewrite ?DictFacts.get_set_same;
    rewrite ?DictFacts.get_set_other by discriminate;
    rewrite ?DictFacts.get_set_same; auto.
Qed.

End ParentDc.

(** C7 fails on the code.  None of the naming contexts of
    [child_dc_contexts] is or contains a DNS zone entry, and the run reports
    [is_parent_dc = True] and [is_child_dc = False]: the test of
    [check_parent_dc], ["DC=DomainDnsZones" or ... in namingcontexts_result],
    is true for every list, and both branches of the run store the same
    pair. *)
Theorem child_dc_reported_as_parent :
  let output :=
    snd (EnumLdapDomainInfo_run (with_naming_contexts child_dc_contexts silent_world)
                                sample_target) in
  forallb (fun c => negb (PyStr.contains "DnsZones" c)) child_dc_contexts = true
  /\ Dict.get "is_parent_dc" output = Some (VBool true)
  /\ Dict.get "is_child_dc" output = Some (VBool false)
  /\ (forall l, retval (check_parent_dc l) = VBool true)
  /\ (forall W target,
         Dict.get "is_child_dc" (snd (EnumLdapDomainInfo_run W target))
         <> Some (VBool true)).
Proof.
  split; [vm_compute; reflexivity|].
  split; [vm_compute; reflexivity|].
  split; [vm_compute; reflexivity|].
  split; [intros; now rewrite parent_dc_is_always_true|].
  intros W target.
  destruct (EnumLdapDomainInfo_run_never_child W target) as [[_ H]|[_ H]];
    rewrite H; discriminate.
Qed.

(** ** The word list of the share brute force *)

Section Brute.

Variable W : World.

(** When the word list cannot be opened or read, [BruteForceShares.run]
    raises [NameError] from its handler. *)
Lemma unreadable_wordlist_raises (brute_params : ShareBruteParams) (target : Target)
    (creds : Credentials) :
  snd (read_file W (shares_file brute_params)) = true ->
  BruteForceShares_run W brute_params target creds = Raise (NameError "brute_params").
Proof.
  intros H. unfold BruteForceShares_run.
  destruct (read_file W (shares_file brute_params)) as [lines raised].
  simpl in H. subst raised.
  destruct (fold_left _ _ _) as [o n]. reflexivity.
Qed.

End Brute.

(** C9 fails on the code.  The word list cannot be opened; the run of the
    module raises [NameError] instead of recording an error for [shares],
    [main] ends there with status 1, and the ledger of the tree has no
    entry for [shares]. *)
Theorem unreadable_wordlist_is_fatal :
  snd (read_file open_world "/tmp/shares.txt") = true
  /\ BruteForceShares_run open_world
       (ShareBruteParams_set_enumerated_input (ShareBruteParams_init "/tmp/shares.txt")
                                              Output_init)
       sample_target sample_creds
     = Raise (NameError "brute_params")
  /\ fst (main open_world brute_args) = Raise (NameError "brute_params")
  /\ exit_code (main open_world brute_args) = 1%Z
  /\ Dict.get "shares"
       (as_dict (Dict.get "errors" (st_out (snd (main open_world brute_args)))))
     = None.
Proof. vm_compute. repeat split. Qed.

(** ** The durations of the policy *)

(** A string that is empty or starts with a digit. *)
Definition digit_led (s : string) : Prop :=
  s = "" \/ exists c rest, s = String c rest /\ Re.is_digit c = true.

Lemma digit_led_app (a b : string) : digit_led a -> digit_led b -> digit_led (a ++ b).
Proof.
  intros [->|[c [rest [-> Hc]]]] Hb; simpl; auto.
  right. exists c, (rest ++ b). auto.
Qed.

Lemma digit_led_not_set (s : string) : digit_led s -> s <> "not set".
Proof.
  intros [->|[c [rest [-> Hc]]]] H; [discriminate|].
  inversion H; subst. vm_compute in Hc. discriminate.
Qed.

Lemma digit_char_is_digit (m : Z) :
  (0 <= m < 10)%Z -> Re.is_digit (PyNum.digit_char m) = true.
Proof.
  intros H.
  assert (Hm : (m = 0 \/ m = 1 \/ m = 2 \/ m = 3 \/ m = 4 \/ m = 5 \/ m = 6
                \/ m = 7 \/ m = 8 \/ m = 9)%Z) by lia.
  repeat (destruct Hm as [->|Hm]; [reflexivity|]). subst. reflexivity.
Qed.

Lemma digits_head (fuel : nat) (n : Z) (acc : string) :
  exists c rest,
    PyNum.digits (S fuel) 10 n acc = String c rest /\ Re.is_digit c = true.
Proof.
  revert n acc. induction fuel as [|fuel IH]; intros n acc.
  - simpl. destruct (n / 10 =? 0)%Z;
      eexists; eexists; (split; [reflexivity|]);
      apply digit_char_is_digit; apply Z.mod_pos_bound; lia.
  - change (PyNum.digits (S (S fuel)) 10 n acc)
      with (if (n / 10 =? 0)%Z
            then String (PyNum.digit_char (n mod 10)) acc
            else PyNum.digits (S fuel) 10 (n / 10)
                              (String (PyNum.digit_char (n mod 10)) acc)).
    destruct (n / 10 =? 0)%Z; [|apply IH].
    eexists; eexists; (split; [reflexivity|]).
    apply digit_char_is_digit. apply Z.mod_pos_bound. lia.
Qed.

Lemma str_head (n : Z) :
  (0 < n)%Z -> exists c rest, PyNum.str n = String c rest /\ Re.is_digit c = true.
Proof.
  intros Hn. unfold PyNum.str. destruct (n <? 0)%Z eqn:E; [lia|].
  unfold PyNum.magnitude. apply digits_head.
Qed.

Lemma plural_digit_led (n : Z) (unit_name after : string) :
  digit_led (plural n unit_name after).
Proof.
  unfold plural.
  destruct (n >? 1)%Z eqn:E1.
  - destruct (str_head n ltac:(lia)) as [c [rest [H Hc]]].
    rewrite H. right. simpl. eauto.
  - destruct (n =? 1)%Z eqn:E2; [|now left].
    destruct (str_head n ltac:(lia)) as [c [rest [H Hc]]].
    rewrite H. right. simpl. eauto.
Qed.

Section Policy.

Variable W : World.

(** Whatever the clock, the string of a duration is not the word of the
    sentinel. *)
Lemma duration_string_not_set (ticks : Z) : duration_string W ticks <> "not set".
Proof.
  unfold duration_string.
  destruct (utc_fields W ticks) as [[[days hours] minutes]|]; [|discriminate].
  apply digit_led_not_set.
  repeat apply digit_led_app; apply plural_digit_led.
Qed.


End Policy.


(** * More properties of the program *)

(** ** The ledger of errors *)

Section Ledger.

(** The messages of a ledger, below ["errors"]. *)
Let msgs_in (entry module_name : string) (errors : dict) : list value :=
  as_list (Dict.get module_name (as_dict (Dict.get entry errors))).

Lemma has_false_get {A} (k : string) (d : list (string * A)) :
  Dict.has k d = false -> Dict.get k d = None.
Proof. unfold Dict.has. destruct (Dict.get k d); congruence. Qed.

Lemma add_error_msgs (msg module_name : string) (errors : dict) (entry e m : string) :
  msgs_in e m (add_error msg module_name errors entry) =
  if String.eqb e entry && String.eqb m module_name
  then (msgs_in e m errors ++ [VStr msg])%list
  else msgs_in e m errors.
Proof.
  unfold msgs_in, add_error.
  destruct (String.eqb e entry) eqn:Ee.
  - apply String.eqb_eq in Ee. subst e. rewrite DictFacts.get_set_same.
    cbn [as_dict andb].
    assert (Hentry : as_dict (Dict.get entry
                       (if negb (Dict.has entry errors)
                        then Dict.set entry (VDict []) errors else errors))
                     = as_dict (Dict.get entry errors)).
    { destruct (Dict.has entry errors) eqn:Eh; cbn [negb]; [reflexivity|].
      rewrite DictFacts.get_set_same. now rewrite (has_false_get _ _ Eh). }
    rewrite Hentry.
    set (of_entry := as_dict (Dict.get entry errors)).
    assert (Hmod : Dict.get module_name
                     (if negb (Dict.has module_name of_entry)
                      then Dict.set module_name (VList []) of_entry else of_entry)
                   = match Dict.get module_name of_entry with
                     | Some v => Some v
                     | None => Some (VList [])
                     end).
    { destruct (Dict.has module_name of_entry) eqn:Eh; cbn [negb].
      - unfold Dict.has in Eh. destruct (Dict.get module_name of_entry); congruence.
      - rewrite DictFacts.get_set_same. now rewrite (has_false_get _ _ Eh). }
    destruct (String.eqb m module_name) eqn:Em.
    + apply String.eqb_eq in Em. subst m. rewrite DictFacts.get_set_same.
      rewrite Hmod. cbn [as_list].
      destruct (Dict.get module_name of_entry); reflexivity.
    + apply String.eqb_neq in Em.
      rewrite DictFacts.get_set_other by congruence.
      destruct (Dict.has module_name of_entry) eqn:Eh; cbn [negb]; [reflexivity|].
      now rewrite DictFacts.get_set_other by congruence.
  - apply String.eqb_neq in Ee. cbn [andb].
    rewrite DictFacts.get_set_other by congruence.
    destruct (Dict.has entry errors); cbn [negb]; [reflexivity|].
    now rewrite DictFacts.get_set_other by congruence.
Qed.

Lemma fold_add_error_msgs (msg module_name : string) (affected : list string)
    (errors : dict) (e m : string) :
  msgs_in e m (fold_left (add_error msg module_name) affected errors) =
  if String.eqb m module_name
  then (msgs_in e m errors ++ repeat (VStr msg) (count_occ string_dec affected e))%list
  else msgs_in e m errors.
Proof.
  revert errors. induction affected as [|a l IH]; intros errors; cbn [fold_left count_occ].
  - cbn [repeat]. rewrite app_nil_r. now destruct (String.eqb m module_name).
  - rewrite IH, add_error_msgs.
    destruct (String.eqb m module_name) eqn:Em.
    + destruct (string_dec a e) as [->|Hne].
      * rewrite String.eqb_refl. cbn [andb repeat]. now rewrite <- app_assoc.
      * rewrite (DictFacts.eqb_sym_false a e Hne). reflexivity.
    + now rewrite andb_false_r.
Qed.

Lemma forallb_set {A} (P : string * A -> bool) (k : string) (v : A) (d : list (string * A)) :
  (forall k1 k2 x, P (k1, x) = P (k2, x)) ->
  forallb P d = true -> P (k, v) = true -> forallb P (Dict.set k v d) = true.
Proof.
  intros Hkey. induction d as [|[k' v'] d IH]; cbn [Dict.set forallb]; intros Hd Hv.
  - now rewrite Hv.
  - apply andb_true_iff in Hd. destruct Hd as [H1 H2].
    destruct (String.eqb k' k); cbn [forallb].
    + rewrite (Hkey k' k), Hv. assumption.
    + rewrite H1. cbn [andb]. auto.
Qed.

Lemma forallb_get {A} (P : string * A -> bool) (k : string) (v : A) (d : list (string * A)) :
  forallb P d = true -> Dict.get k d = Some v -> exists k', P (k', v) = true.
Proof.
  induction d as [|[k' v'] d IH]; cbn [Dict.get forallb]; intros Hd Hg; [discriminate|].
  apply andb_true_iff in Hd. destruct Hd as [H1 H2].
  destruct (String.eqb k' k).
  - injection Hg as <-. eauto.
  - auto.
Qed.

Lemma is_ledger_add_error (msg module_name : string) (errors : dict) (entry : string) :
  is_ledger errors = true -> is_ledger (add_error msg module_name errors entry) = true.
Proof.
  intros Hl. unfold add_error.
  set (all_lists := forallb (fun mv : string * value =>
                               match snd mv with VList _ => true | _ => false end)).
  assert (H1 : is_ledger (if negb (Dict.has entry errors)
                          then Dict.set entry (VDict []) errors else errors) = true).
  { destruct (Dict.has entry errors); cbn [negb]; [assumption|].
    apply forallb_set; [reflexivity | assumption | reflexivity]. }
  set (errors1 := if negb (Dict.has entry errors)
                  then Dict.set entry (VDict []) errors else errors) in *.
  assert (H2 : all_lists (as_dict (Dict.get entry errors1)) = true).
  { destruct (Dict.get entry errors1) as [v|] eqn:Eg; [|reflexivity].
    destruct (forallb_get _ _ _ _ H1 Eg) as [k' Hv]. cbn [snd] in Hv.
    destruct v; try discriminate. exact Hv. }
  apply forallb_set; [reflexivity | assumption |].
  cbn [snd]. apply forallb_set; [reflexivity | | reflexivity].
  destruct (Dict.has module_name (as_dict (Dict.get entry errors1))); cbn [negb];
    [assumption|].
  apply forallb_set; [reflexivity | assumption | reflexivity].
Qed.

Lemma is_ledger_fold (msg module_name : string) (affected : list string) (errors : dict) :
  is_ledger errors = true ->
  is_ledger (fold_left (add_error msg module_name) affected errors) = true.
Proof.
  revert errors. induction affected as [|a l IH]; intros errors H; cbn [fold_left];
    [assumption|].
  apply IH. now apply is_ledger_add_error.
Qed.

Lemma errors_before_process_error (output : dict) :
  as_dict (Dict.get "errors"
             (if negb (Dict.has "errors" output)
              then Dict.set "errors" (VDict []) output else output))
  = as_dict (Dict.get "errors" output).
Proof.
  destruct (Dict.has "errors" output) eqn:Eh; cbn [negb]; [reflexivity|].
  rewrite DictFacts.get_set_same. now rewrite (has_false_get _ _ Eh).
Qed.

(** The messages after [process_error]. *)
Lemma messages_process_error (msg module_name : string) (affected : list string)
    (output : dict) (entry m : string) :
  messages entry m (process_error msg affected module_name output) =
  if String.eqb m module_name
  then (messages entry m output
          ++ repeat (VStr msg) (count_occ string_dec affected entry))%list
  else messages entry m output.
Proof.
  unfold messages, process_error. rewrite DictFacts.get_set_same. cbn [as_dict].
  rewrite errors_before_process_error.
  apply (fold_add_error_msgs msg module_name affected).
Qed.

Lemma ledger_ok_process_error (msg module_name : string) (affected : list string)
    (output : dict) :
  ledger_ok output = true ->
  ledger_ok (process_error msg affected module_name output) = true.
Proof.
  intros Hok. unfold ledger_ok, process_error. rewrite DictFacts.get_set_same.
  apply is_ledger_fold. rewrite errors_before_process_error.
  unfold ledger_ok in Hok.
  destruct (Dict.get "errors" output) as [[| | | | |errors]|]; try discriminate;
    cbn [as_dict]; auto.
Qed.

End Ledger.

(** [process_error] keeps what the ledger holds and adds the message at the
    end of the list of every affected field, under the module's name, once
    for each time the field is named; the lists of the other modules stay as
    they are, and the ledger stays a dictionary of dictionaries of lists. *)
Theorem process_error_appends (msg module_name : string) (affected : list string)
    (output : dict) :
  ledger_ok output = true ->
  ledger_ok (process_error msg affected module_name output) = true
  /\ (forall entry,
         messages entry module_name (process_error msg affected module_name output)
         = (messages entry module_name output
              ++ repeat (VStr msg) (count_occ string_dec affected entry))%list)
  /\ (forall entry m, m <> module_name ->
         messages entry m (process_error msg affected module_name output)
         = messages entry m output)
  /\ (forall k, k <> "errors" ->
         Dict.get k (process_error msg affected module_name output) = Dict.get k output).
Proof.
  intros Hok. split; [now apply ledger_ok_process_error|]. split; [|split].
  - intros entry. rewrite messages_process_error. now rewrite String.eqb_refl.
  - intros entry m Hm. rewrite messages_process_error.
    now rewrite (proj2 (String.eqb_neq m module_name) Hm).
  - intros k Hk. now apply get_process_error.
Qed.

Lemma process_error_appends_witness :
  let output := process_error "timed out" ["legacy_session"] "enum_sessions"
                              [("legacy_session", VBool false)] in
  ledger_ok (process_error "refused" ["legacy_session"; "sessions_possible"]
                           "enum_sessions" output) = true
  /\ (forall entry,
         messages entry "enum_sessions"
           (process_error "refused" ["legacy_session"; "sessions_possible"]
                          "enum_sessions" output)
         = (messages entry "enum_sessions" output
              ++ repeat (VStr "refused")
                   (count_occ string_dec ["legacy_session"; "sessions_possible"] entry))%list)
  /\ (forall entry m, m <> "enum_sessions" ->
         messages entry m
           (process_error "refused" ["legacy_session"; "sessions_possible"]
                          "enum_sessions" output)
         = messages entry m output)
  /\ (forall k, k <> "errors" ->
         Dict.get k (process_error "refused" ["legacy_session"; "sessions_possible"]
                                   "enum_sessions" output)
         = Dict.get k output).
Proof.
  apply (process_error_appends "refused" "enum_sessions"
           ["legacy_session"; "sessions_possible"]
           (process_error "timed out" ["legacy_session"] "enum_sessions"
                          [("legacy_session", VBool false)])).
  reflexivity.
Defined.

(** ** The shape of the output tree *)

Lemma keys_remove_not_in {A} (k : string) (d : list (string * A)) :
  ~ In k (Dict.keys (Dict.remove k d)).
Proof.
  induction d as [|[k' v] d IH]; cbn [Dict.remove Dict.keys map]; [tauto|].
  destruct (String.eqb k' k) eqn:E; [exact IH|].
  cbn [Dict.keys map fst]. intros [->|H]; [|now apply IH].
  now rewrite String.eqb_refl in E.
Qed.

Lemma keys_remove_incl {A} (k x : string) (d : list (string * A)) :
  In x (Dict.keys (Dict.remove k d)) -> In x (Dict.keys d).
Proof.
  induction d as [|[k' v] d IH]; cbn [Dict.remove Dict.keys map]; [tauto|].
  destruct (String.eqb k' k); cbn [Dict.keys map fst In]; intros H.
  - right. now apply IH.
  - destruct H; [left | right; apply IH]; assumption.
Qed.

Lemma NoDup_keys_remove {A} (k : string) (d : list (string * A)) :
  NoDup (Dict.keys d) -> NoDup (Dict.keys (Dict.remove k d)).
Proof.
  induction d as [|[k' v] d IH]; cbn [Dict.remove Dict.keys map fst]; intros H;
    [constructor|].
  inversion H as [|? ? Hnin Hnd]; subst.
  destruct (String.eqb k' k); [now apply IH|].
  cbn [Dict.keys map fst]. constructor; [|now apply IH].
  intros Hin. apply Hnin. now apply keys_remove_incl in Hin.
Qed.

Lemma keys_app {A} (d1 d2 : list (string * A)) :
  Dict.keys (d1 ++ d2) = (Dict.keys d1 ++ Dict.keys d2)%list.
Proof. apply map_app. Qed.

Lemma tree_ok_move_to_end (e : dict) (out : dict) :
  NoDup (Dict.keys out) -> Dict.get "errors" out = Some (VDict e) ->
  tree_ok (Dict.move_to_end "errors" out).
Proof.
  intros Hnd Hget. unfold Dict.move_to_end. rewrite Hget. split.
  - rewrite keys_app. cbn [Dict.keys map fst].
    apply NoDup_app; [now apply NoDup_keys_remove | repeat constructor; simpl; tauto |].
    intros x Hx [<-|[]]. now apply keys_remove_not_in in Hx.
  - eauto.
Qed.

(** The merge of [Output.update] gives a tree of that shape. *)
Lemma tree_ok_Output_merge (out content : dict) :
  NoDup (Dict.keys out) -> tree_ok (Output_merge out content).
Proof.
  intros Hnd. unfold Output_merge.
  destruct (Dict.has "errors" content).
  - eapply tree_ok_move_to_end; [|apply DictFacts.get_set_same].
    do 2 apply DictFacts.NoDup_keys_set. now apply DictFacts.NoDup_keys_update.
  - eapply tree_ok_move_to_end; [|apply DictFacts.get_set_same].
    apply DictFacts.NoDup_keys_set. now apply DictFacts.NoDup_keys_update.
Qed.

Section Tree.

Variable W : World.

Lemma keeps_ret {A} (a : A) : keeps_tree (ret a).
Proof. intros s H. exact H. Qed.

Lemma keeps_lift {A} (r : py A) : keeps_tree (lift r).
Proof. intros s H. exact H. Qed.

Lemma keeps_abort {A} (code : Z) : keeps_tree (@abort A code).
Proof. intros s H. exact H. Qed.

Lemma keeps_get_target : keeps_tree get_target.
Proof. intros s H. exact H. Qed.

Lemma keeps_put_target (t : Target) : keeps_tree (put_target t).
Proof. intros s H. exact H. Qed.

Lemma keeps_bind {A B} (c : step A) (k : A -> step B) :
  keeps_tree c -> (forall a, keeps_tree (k a)) -> keeps_tree (bind c k).
Proof.
  intros Hc Hk s H. unfold bind. specialize (Hc s H).
  destruct (c s) as [[a|e] s']; cbn [snd] in *; [now apply Hk | assumption].
Qed.

Lemma keeps_when (b : bool) (c : step unit) : keeps_tree c -> keeps_tree (when b c).
Proof. intros Hc. destruct b; [exact Hc | apply keeps_ret]. Qed.

Lemma keeps_adopt_workgroup (result : dict) (key : string) (long_domain : bool) :
  keeps_tree (adopt_workgroup result key long_domain).
Proof.
  intros s H. unfold adopt_workgroup.
  destruct (negb (PyStr.truthy (workgroup (st_target s))) && get_truthy key result);
    exact H.
Qed.

Lemma keeps_Output_update (out_file : option (string * string)) (content : dict) :
  keeps_tree (Output_update W out_file content).
Proof.
  intros s [Hnd _]. unfold Output_update.
  destruct out_file as [[path kind]|];
    [destruct (write_file W path kind _)|]; cbn [snd st_out];
    now apply tree_ok_Output_merge.
Qed.

Lemma keeps_simple_module (enabled : bool) (out_file : option (string * string))
    (module : Target -> py dict) :
  keeps_tree (simple_module W enabled out_file module).
Proof.
  unfold simple_module. apply keeps_when.
  apply keeps_bind; [apply keeps_get_target|]. intros target.
  apply keeps_bind; [apply keeps_lift|]. intros result.
  apply keeps_Output_update.
Qed.

Lemma keeps_main_ldap (out_file : option (string * string)) :
  keeps_tree (main_ldap W out_file).
Proof.
  unfold main_ldap. apply keeps_bind; [apply keeps_get_target|]. intros target.
  destruct (EnumLdapDomainInfo_run W target) as [target' result].
  apply keeps_bind; [apply keeps_put_target|]. intros _.
  apply keeps_bind; [apply keeps_adopt_workgroup|]. intros _.
  apply keeps_Output_update.
Qed.

Lemma keeps_main_before_sessions (args : Args) (out_file : option (string * string)) :
  keeps_tree (main_before_sessions W args out_file).
Proof.
  unfold main_before_sessions.
  apply keeps_bind; [apply keeps_when, keeps_main_ldap|]. intros _.
  apply keeps_when.
  apply keeps_bind; [apply keeps_get_target|]. intros target.
  apply keeps_bind; [apply keeps_lift|]. intros result.
  apply keeps_bind; [apply keeps_adopt_workgroup|]. intros _.
  apply keeps_Output_update.
Qed.

Lemma keeps_main_setup (args : Args) : keeps_tree (main_setup W args).
Proof.
  unfold main_setup.
  apply keeps_bind.
  { destruct (arg_R args); [|apply keeps_ret].
    apply keeps_bind; [apply keeps_lift|]. intros r. apply keeps_ret. }
  intros cycle_params.
  apply keeps_bind; [apply keeps_Output_update|]. intros _.
  apply keeps_bind; [apply keeps_Output_update|]. intros _.
  apply keeps_bind; [apply keeps_main_before_sessions|]. intros _.
  apply keeps_ret.
Qed.

Lemma keeps_main_sessions (creds : Credentials) (out_file : option (string * string)) :
  keeps_tree (main_sessions W creds out_file).
Proof.
  unfold main_sessions. apply keeps_bind; [apply keeps_get_target|]. intros target.
  destruct (EnumSessions_run W target creds) as [target' result].
  apply keeps_bind; [apply keeps_put_target|]. intros _.
  apply keeps_bind; [apply keeps_Output_update|]. intros _.
  intros s H. destruct (negb (get_truthy "sessions_possible" (st_out s))); exact H.
Qed.

Lemma keeps_main_after_sessions (args : Args) (creds : Credentials)
    (out_file : option (string * string)) (cycle_params : option RidCycleParams)
    (share_brute_params : option ShareBruteParams) :
  keeps_tree (main_after_sessions W args creds out_file cycle_params share_brute_params).
Proof.
  unfold main_after_sessions.
  apply keeps_bind.
  { apply keeps_bind; [apply keeps_get_target|]. intros target.
    apply keeps_bind; [apply keeps_adopt_workgroup|]. intros _.
    apply keeps_Output_update. }
  intros _.
  do 5 (apply keeps_bind; [apply keeps_simple_module|]; intros _).
  apply keeps_bind.
  { apply keeps_when. apply keeps_bind; [apply keeps_get_target|]. intros target.
    destruct (EnumPolicy_run W target creds) as [target' result]. cbv iota.
    apply keeps_bind; [apply keeps_put_target|]. intros _.
    apply keeps_Output_update. }
  intros _.
  apply keeps_bind; [apply keeps_simple_module|]; intros _.
  apply keeps_bind.
  { destruct cycle_params as [cycle_params|]; [|apply keeps_ret].
    intros s H.
    destruct (RidCycleParams_set_enumerated_input cycle_params (st_out s));
      [now apply keeps_Output_update | exact H]. }
  intros _.
  destruct share_brute_params as [share_brute_params|]; [|apply keeps_ret].
  intros s H.
  destruct (BruteForceShares_run W _ (st_target s) creds);
    [now apply keeps_Output_update | exact H].
Qed.

End Tree.

(** However the host answers and however the run ends (it returns, it
    aborts, a module raises), the output tree [main] leaves has no key twice
    and the ledger of errors is its last key. *)
Theorem main_keeps_errors_last (W : World) (args : Args) :
  let out := st_out (snd (main W args)) in
  NoDup (Dict.keys out)
  /\ exists d e, out = (d ++ [("errors", VDict e)])%list /\ ~ In "errors" (Dict.keys d).
Proof.
  assert (H : tree_ok (st_out (snd (main W args)))).
  { unfold main.
    apply (keeps_bind (main_setup W args)); [apply keeps_main_setup | |].
    - intros params.
      apply keeps_bind; [apply keeps_main_sessions|]. intros _.
      apply keeps_main_after_sessions.
    - cbn [st_out]. split; [repeat constructor; simpl; tauto|].
      exists [], []. reflexivity. }
  destruct H as [Hnd [d [e Heq]]]. cbn zeta. split; [exact Hnd|].
  exists d, e. split; [exact Heq|].
  rewrite Heq, keys_app in Hnd. cbn [Dict.keys map fst] in Hnd.
  intros Hin. apply NoDup_remove_2 in Hnd. apply Hnd. rewrite app_nil_r. exact Hin.
Qed.

(** ** Domain information via lsaquery, and what RID cycling takes from it *)

Lemma messages_set_other (entry m k : string) (v : value) (output : dict) :
  k <> "errors" -> messages entry m (Dict.set k v output) = messages entry m output.
Proof.
  intros Hk. unfold messages. now rewrite DictFacts.get_set_other by congruence.
Qed.

Lemma truthy_lsaquery_get_workgroup (text : string) :
  retval (lsaquery_get_workgroup text) = VNone
  \/ truthy (retval (lsaquery_get_workgroup text)) = true.
Proof.
  unfold lsaquery_get_workgroup.
  match goal with |- context [if PyStr.truthy ?w then _ else _] =>
    destruct (PyStr.truthy w) eqn:E end; cbn [retval truthy]; auto.
Qed.

Lemma truthy_get_domain_sid (text : string) :
  retval (get_domain_sid text) = VNone
  \/ (exists sid, retval (get_domain_sid text) = VStr sid /\ PyStr.truthy sid = true).
Proof.
  unfold get_domain_sid.
  match goal with |- context [if PyStr.truthy ?w then _ else _] =>
    destruct (PyStr.truthy w) eqn:E end; cbn [retval]; eauto.
Qed.

Section Lsaquery.

Variable W : World.

(** The keys of the output of the module. *)
Lemma EnumLsaqueryDomainInfo_run_NoDup (t : Target) (c : Credentials) :
  NoDup (Dict.keys (EnumLsaqueryDomainInfo_run W t c)).
Proof.
  unfold EnumLsaqueryDomainInfo_run.
  repeat match goal with
         | |- context [if ?b then _ else _] => destruct b
         end;
    repeat first [apply NoDup_keys_process_error | apply DictFacts.NoDup_keys_set];
    repeat constructor; simpl; intuition discriminate.
Qed.

(** The domain SID in the output of the module: what [get_domain_sid] finds
    in the answer to the query, [None] when there is no answer. *)
Lemma EnumLsaqueryDomainInfo_run_domain_sid (t : Target) (c : Credentials) :
  Dict.get "domain_sid" (EnumLsaqueryDomainInfo_run W t c) =
  Some (if is_none (retval (lsaquery W t c)) then VNone
        else retval (get_domain_sid (str_of (retval (lsaquery W t c))))).
Proof.
  unfold EnumLsaqueryDomainInfo_run.
  destruct (is_none (retval (lsaquery W t c))); cbn [negb].
  - now rewrite get_process_error by discriminate.
  - set (text := str_of (retval (lsaquery W t c))).
    assert (Hsid : forall o,
               Dict.get "domain_sid" o = Some VNone ->
               Dict.get "domain_sid"
                 (if truthy (retval (get_domain_sid text))
                  then Dict.set "domain_sid" (retval (get_domain_sid text)) o
                  else process_error (retmsg (get_domain_sid text)) ["domain_sid"]
                         "enum_lsaquery_domain_info" o)
               = Some (retval (get_domain_sid text))).
    { intros o Ho. destruct (truthy_get_domain_sid text) as [E|[sid [E Ht]]]; rewrite E.
      - cbn [truthy]. now rewrite get_process_error by discriminate.
      - cbn [truthy]. rewrite Ht. apply DictFacts.get_set_same. }
    destruct (truthy (retval (check_is_part_of_workgroup_or_domain text)));
      [rewrite DictFacts.get_set_other by discriminate
      |rewrite get_process_error by discriminate];
      apply Hsid;
      destruct (truthy (retval (lsaquery_get_workgroup text)));
      first [rewrite DictFacts.get_set_other by discriminate
            |rewrite get_process_error by discriminate]; reflexivity.
Qed.

End Lsaquery.

(** [RidCycleParams.set_enumerated_input] on the tree, right after the
    output of the lsaquery module went into it: when the module found no
    domain SID the tree holds [None] there, and the test
    ["NULL SID" not in enum_input["domain_sid"]] raises [TypeError];
    otherwise the parameters of RID cycling get the SID, or the empty string
    for the null SID. *)
Theorem set_enumerated_input_after_lsaquery (W : World) (t : Target) (c : Credentials)
    (out : dict) (self : RidCycleParams) :
  let query := lsaquery W t c in
  let sid := retval (get_domain_sid (str_of (retval query))) in
  let tree := Output_merge out (EnumLsaqueryDomainInfo_run W t c) in
  if is_none (retval query) || is_none sid
  then RidCycleParams_set_enumerated_input self tree
       = Raise (TypeError "argument of type 'NoneType' is not iterable")
  else exists p,
      RidCycleParams_set_enumerated_input self tree = Ret p
      /\ rid_ranges p = rid_ranges self
      /\ known_usernames p = known_usernames self
      /\ Dict.get "domain_sid" (enumerated_input p)
         = Some (VStr (if PyStr.contains "NULL SID" (str_of sid) then "" else str_of sid)).
Proof.
  intros query sid tree.
  assert (Htree : Dict.get "domain_sid" tree
                  = Some (if is_none (retval query) then VNone else sid)).
  { unfold tree. rewrite get_Output_merge by discriminate.
    rewrite DictFacts.get_last_NoDup by apply EnumLsaqueryDomainInfo_run_NoDup.
    now rewrite EnumLsaqueryDomainInfo_run_domain_sid. }
  unfold RidCycleParams_set_enumerated_input. rewrite Htree.
  destruct (is_none (retval query)); cbn [orb]; [reflexivity|].
  destruct (truthy_get_domain_sid (str_of (retval query))) as [E|[s [E Ht]]];
    fold sid in E; rewrite E; cbn [is_none null_sid_not_in str_of]; [reflexivity|].
  destruct (PyStr.contains "NULL SID" s); cbn [negb];
    eexists; (split; [reflexivity|]); cbn [rid_ranges known_usernames enumerated_input];
    (split; [reflexivity|]); (split; [reflexivity|]); apply DictFacts.get_set_same.
Qed.

Lemma messages_one (entry m msg : string) (affected : list string) (output : dict) :
  In entry affected ->
  messages entry m (process_error msg affected m output) <> [].
Proof.
  intros Hin. rewrite messages_process_error, String.eqb_refl.
  destruct (count_occ string_dec affected entry) eqn:E.
  - apply (count_occ_In string_dec) in Hin. lia.
  - cbn [repeat]. intros H. now apply app_eq_nil in H.
Qed.

Lemma messages_other_entry (entry m msg : string) (affected : list string) (output : dict) :
  ~ In entry affected ->
  messages entry m (process_error msg affected m output) = messages entry m output.
Proof.
  intros Hnin. rewrite messages_process_error, String.eqb_refl.
  rewrite (proj1 (count_occ_not_In string_dec affected entry) Hnin).
  apply app_nil_r.
Qed.

(** One field of a module's output after the step
    [if result.retval: output[field] = result.retval
     else: output = process_error(result.retmsg, [field], module_name, output)]. *)
Lemma found_or_reported_step (m field : string) (r : Result) (output : dict) :
  field <> "errors" ->
  Dict.get field output = Some VNone -> messages field m output = [] ->
  found_or_reported m field
    (if truthy (retval r) then Dict.set field (retval r) output
     else process_error (retmsg r) [field] m output).
Proof.
  intros Hf Hget Hmsg. unfold found_or_reported.
  destruct (truthy (retval r)) eqn:Et.
  - rewrite DictFacts.get_set_same, messages_set_other, Hmsg by assumption.
    destruct (retval r); try discriminate; auto.
  - rewrite get_process_error, Hget by assumption.
    apply messages_one. now left.
Qed.

(** A later step on another field leaves the field as it is. *)
Lemma found_or_reported_kept (m field field' : string) (r : Result) (output : dict) :
  field <> field' -> field <> "errors" -> field' <> "errors" ->
  found_or_reported m field output ->
  found_or_reported m field
    (if truthy (retval r) then Dict.set field' (retval r) output
     else process_error (retmsg r) [field'] m output).
Proof.
  intros Hne Hfe Hf H. unfold found_or_reported in *.
  destruct (truthy (retval r)).
  - rewrite DictFacts.get_set_other, messages_set_other by congruence. exact H.
  - rewrite get_process_error by assumption.
    rewrite messages_other_entry by (simpl; intuition congruence). exact H.
Qed.

Section LsaqueryFields.

Variable W : World.

(** Every field of the output of the lsaquery module holds what was found,
    or [None] with an error of the module in the ledger under the name of
    the field: nothing is missing without a message. *)
Theorem lsaquery_fields_found_or_reported (t : Target) (c : Credentials) :
  let output := EnumLsaqueryDomainInfo_run W t c in
  found_or_reported "enum_lsaquery_domain_info" "workgroup" output
  /\ found_or_reported "enum_lsaquery_domain_info" "domain_sid" output
  /\ found_or_reported "enum_lsaquery_domain_info" "member_of" output.
Proof.
  cbn zeta. unfold EnumLsaqueryDomainInfo_run.
  destruct (is_none (retval (lsaquery W t c))); cbn [negb].
  - unfold found_or_reported.
    rewrite !get_process_error by discriminate. cbn [Dict.get String.eqb Ascii.eqb Bool.eqb].
    repeat split; apply messages_one; simpl; auto.
  - set (text := str_of (retval (lsaquery W t c))).
    repeat split.
    + do 2 (apply found_or_reported_kept; [discriminate ..|]).
      now apply found_or_reported_step.
    + apply found_or_reported_kept; [discriminate ..|].
      apply found_or_reported_step; [discriminate | |].
      * destruct (truthy (retval (lsaquery_get_workgroup text)));
          [now rewrite DictFacts.get_set_other by discriminate
          |now rewrite get_process_error by discriminate].
      * destruct (truthy (retval (lsaquery_get_workgroup text)));
          [now rewrite messages_set_other by discriminate
          |now rewrite messages_other_entry by (simpl; intuition discriminate)].
    + apply found_or_reported_step; [discriminate | |].
      * repeat match goal with
               | |- context [if ?b then _ else _] => destruct b
               end;
          repeat first [rewrite DictFacts.get_set_other by discriminate
                       |rewrite get_process_error by discriminate]; reflexivity.
      * repeat match goal with
               | |- context [if ?b then _ else _] => destruct b
               end;
          repeat first [rewrite messages_set_other by discriminate
                       |rewrite messages_other_entry by (simpl; intuition discriminate)];
          reflexivity.
Qed.

End LsaqueryFields.

(** ** Guessing shares from a word list that can be read *)

Section BruteRun.

Variable W : World.
Variable target : Target.
Variable creds : Credentials.

(** What the loop over the lines keeps: the shares known at the start, the
    origin of the new ones, the counter, the ledger. *)
Let brute_inv (start : dict) (lines : list string) (st : dict * Z) : Prop :=
  (forall share v, Dict.get share (entries "shares" start) = Some v ->
                   Dict.get share (entries "shares" (fst st)) = Some v)
  /\ (forall share v,
         Dict.get share (entries "shares" (fst st)) = Some v ->
         Dict.get share (entries "shares" start) = Some v
         \/ exists line, In line lines /\ share = PyStr.rstrip line
                         /\ v = retval (check_access W target creds share)
                         /\ truthy v = true)
  /\ Z.of_nat (length (entries "shares" (fst st)))
     = (Z.of_nat (length (entries "shares" start)) + snd st)%Z
  /\ (0 <= snd st)%Z
  /\ (snd st = 0%Z -> fst st = start)
  /\ (forall entry m, messages entry m (fst st) = messages entry m start).

Lemma brute_inv_step (start : dict) (lines : list string) (st : dict * Z) (line : string) :
  In line lines -> brute_inv start lines st ->
  brute_inv start lines (brute_step W target creds st line).
Proof.
  intros Hin (Hkeep & Hnew & Hlen & Hpos & Hzero & Hmsg).
  destruct st as [o n]. unfold brute_step. cbn [fst snd] in *.
  rewrite key_known_entries.
  destruct (Dict.has (PyStr.rstrip line) (entries "shares" o)) eqn:Eh;
    [repeat split; assumption|].
  destruct (truthy (retval (check_access W target creds (PyStr.rstrip line)))) eqn:Et;
    [|repeat split; assumption].
  cbn [fst snd]. unfold brute_inv. cbn [fst snd].
  rewrite entries_set_entry, String.eqb_refl.
  apply has_false_get in Eh.
  split; [|split; [|split; [|split; [|split]]]].
  - intros share v Hs. specialize (Hkeep _ _ Hs).
    rewrite DictFacts.get_set_other; [assumption|]. intros E. subst share. congruence.
  - intros share v. rewrite DictFacts.get_set.
    destruct (String.eqb (PyStr.rstrip line) share) eqn:E.
    + apply String.eqb_eq in E. subst share. intros [= <-]. right. eauto.
    + apply Hnew.
  - rewrite DictFacts.length_set. unfold Dict.has. rewrite Eh. lia.
  - lia.
  - lia.
  - intros entry m. unfold set_entry.
    rewrite messages_set_other by discriminate. apply Hmsg.
Qed.

Lemma brute_inv_fold (start : dict) (lines l : list string) (st : dict * Z) :
  (forall line, In line l -> In line lines) -> brute_inv start lines st ->
  brute_inv start lines (fold_left (brute_step W target creds) l st).
Proof.
  revert st. induction l as [|line l IH]; intros st Hl Hst; cbn [fold_left];
    [assumption|].
  apply IH; [intros; apply Hl; now right|].
  apply brute_inv_step; [apply Hl; now left | assumption].
Qed.

(** [BruteForceShares.run] as [main] calls it, whenever it returns: the
    word list was read to its end (a failure inside the [try] ends in the
    [NameError] of the handler instead); the shares the tree had keep their
    values; a share comes in only for a line of the word list, stripped on
    the right as [rstrip] does, that [check_access] answers with a true
    value; and the error "Could not find any (new) shares" is recorded for
    [shares] exactly when no share came in, the shares being those of the
    tree then. *)
Theorem brute_force_extends_shares (file : string) (tree output : dict) :
  let brute_params :=
    ShareBruteParams_set_enumerated_input (ShareBruteParams_init file) tree in
  let lines := fst (read_file W file) in
  shares_typed tree ->
  BruteForceShares_run W brute_params target creds = Ret output ->
  snd (read_file W file) = false
  /\ (forall share v, Dict.get share (entries "shares" tree) = Some v ->
                      Dict.get share (entries "shares" output) = Some v)
  /\ (forall share v,
         Dict.get share (entries "shares" output) = Some v ->
         Dict.get share (entries "shares" tree) = Some v
         \/ exists line, In line lines /\ share = PyStr.rstrip line
                         /\ v = retval (check_access W target creds share)
                         /\ truthy v = true)
  /\ ((entries "shares" output = entries "shares" tree
       /\ messages "shares" "brute_force_shares" output
          = [VStr "Could not find any (new) shares"])
      \/ ((length (entries "shares" tree) < length (entries "shares" output))%nat
          /\ messages "shares" "brute_force_shares" output = [])).
Proof.
  intros brute_params lines _.
  unfold BruteForceShares_run. cbn [shares_file brute_params ShareBruteParams_init
    ShareBruteParams_set_enumerated_input brute_enumerated_input].
  unfold lines. destruct (read_file W file) as [ls raised]. cbn [fst snd] in *.
  match goal with
  | |- context [fold_left _ _ (?x, _)] => set (start := x)
  end.
  assert (Hstart : entries "shares" start = entries "shares" tree).
  { unfold start, entries. destruct (Dict.get "shares" tree); reflexivity. }
  assert (Hm0 : forall entry m, messages entry m start = []).
  { intros. unfold start. destruct (Dict.get "shares" tree); reflexivity. }
  assert (Hinv : brute_inv start ls (fold_left (brute_step W target creds) ls (start, 0%Z))).
  { apply brute_inv_fold; [auto|]. unfold brute_inv. cbn [fst snd].
    repeat split; auto; lia. }
  destruct (fold_left (brute_step W target creds) ls (start, 0%Z)) as [o n].
  destruct Hinv as (Hkeep & Hnew & Hlen & Hpos & Hzero & Hmsg). cbn [fst snd] in *.
  rewrite Hstart in *.
  destruct raised; [discriminate|]. cbv iota.
  destruct (n =? 0)%Z eqn:En.
  - apply Z.eqb_eq in En. specialize (Hzero En). subst o n. intros [= <-].
    split; [reflexivity|].
    rewrite entries_process_error, Hstart by discriminate.
    split; [auto|]. split; [auto|]. left. split; [reflexivity|].
    rewrite messages_process_error, String.eqb_refl, Hm0. reflexivity.
  - apply Z.eqb_neq in En. intros [= <-]. split; [reflexivity|].
    split; [assumption|]. split; [assumption|]. right.
    split; [lia|]. now rewrite Hmsg, Hm0.
Qed.

End BruteRun.

Lemma brute_force_extends_shares_witness :
  let W := brute_world in
  let tree := Output_init in
  let output :=
    [("shares",
      VDict [("backup", VDict [("mapping", VStr "ok"); ("listing", VStr "denied")])])] in
  snd (read_file W "/tmp/shares.txt") = false
  /\ (forall share v, Dict.get share (entries "shares" tree) = Some v ->
                      Dict.get share (entries "shares" output) = Some v)
  /\ (forall share v,
         Dict.get share (entries "shares" output) = Some v ->
         Dict.get share (entries "shares" tree) = Some v
         \/ exists line, In line (fst (read_file W "/tmp/shares.txt"))
                         /\ share = PyStr.rstrip line
                         /\ v = retval (check_access W sample_target sample_creds share)
                         /\ truthy v = true)
  /\ ((entries "shares" output = entries "shares" tree
       /\ messages "shares" "brute_force_shares" output
          = [VStr "Could not find any (new) shares"])
      \/ ((length (entries "shares" tree) < length (entries "shares" output))%nat
          /\ messages "shares" "brute_force_shares" output = [])).
Proof.
  apply (brute_force_extends_shares brute_world sample_target sample_creds
           "/tmp/shares.txt" Output_init).
  - exact I.
  - vm_compute. reflexivity.
Defined.

(** ** Regular expressions *)

Module ReFacts.

(** What [Re.exec] finds is a match. *)
Lemma exec_sound (r : Re.regex) :
  forall (R : Type) s c (k : list ascii -> Re.captures -> option R) x,
    Re.exec r s c k = Some x ->
    exists s' c', re_matches r s c s' c' /\ k s' c' = Some x.
Proof.
  induction r as [|p|a IHa b IHb|a IHa|n a IHa|n|]; intros R s c k x; cbn [Re.exec].
  - intros H. exists s, c. split; [constructor | exact H].
  - destruct s as [|y s']; [discriminate|].
    destruct (p y) eqn:E; [|discriminate].
    intros H. exists s', c. split; [now constructor | exact H].
  - intros H. apply IHa in H. destruct H as (s1 & c1 & Ha & H).
    apply IHb in H. destruct H as (s2 & c2 & Hb & H).
    exists s2, c2. split; [econstructor; eassumption | exact H].
  - generalize (length s) as fuel. intros fuel. revert s c.
    induction fuel as [|fuel IH]; intros s c H.
    + exists s, c. split; [constructor | exact H].
    + match type of H with
      | match ?e with _ => _ end = _ => destruct e as [y|] eqn:E
      end.
      * injection H as ->. apply IHa in E. destruct E as (s1 & c1 & Ha & E).
        destruct (length s1 <? length s)%nat; [|discriminate].
        apply IH in E. destruct E as (s2 & c2 & Hs & E).
        exists s2, c2. split; [econstructor; eassumption | exact E].
      * exists s, c. split; [constructor | exact H].
  - intros H. apply IHa in H. destruct H as (s1 & c1 & Ha & H).
    eexists _, _. split; [constructor; eassumption | exact H].
  - destruct (Re.group n c) as [g|] eqn:Eg; [|discriminate].
    destruct (Re.starts_with g s) eqn:Es; [|discriminate].
    intros H. eexists _, _. split; [econstructor; eassumption | exact H].
  - intros H. exists s, c. split; [|destruct s as [|y [|z s']]; try discriminate;
      [exact H | destruct (Ascii.eqb y "010"); [exact H | discriminate]]].
    constructor. destruct s as [|y [|z s']]; try discriminate; auto.
    destruct (Ascii.eqb y "010") eqn:E; [|discriminate].
    apply Ascii.eqb_eq in E. subst. auto.
Qed.

(** A match at the first position, by what it matched. *)
Lemma match_here_sound (r : Re.regex) (s : list ascii) (f : Re.found) :
  Re.match_here r s = Some f ->
  re_matches r s [] (Re.rest f) (Re.groups f)
  /\ Re.whole f = firstn (length s - length (Re.rest f)) s.
Proof.
  unfold Re.match_here. intros H. apply exec_sound in H.
  destruct H as (s' & c' & Hm & H). injection H as <-. cbn [Re.rest Re.groups Re.whole].
  auto.
Qed.

(** A match takes a prefix of the input. *)
Lemma matches_suffix r s c s' c' :
  re_matches r s c s' c' -> exists m, s = (m ++ s')%list.
Proof.
  induction 1 as [s c|p x s c Hp|a b s c s1 c1 s2 c2 _ [m1 ->] _ [m2 ->]
                 |a s c|a s c s1 c1 s2 c2 _ [m1 ->] _ [m2 ->]
                 |n a s c s1 c1 _ IH|n g s c Hg Hs|s c H].
  - now exists [].
  - now exists [x].
  - exists (m1 ++ m2)%list. now rewrite app_assoc.
  - now exists [].
  - exists (m1 ++ m2)%list. now rewrite app_assoc.
  - exact IH.
  - exists (firstn (length g) s). now rewrite firstn_skipn.
  - now exists [].
Qed.

(** Inversions. *)
Lemma matches_Cls p s c s' c' :
  re_matches (Re.Cls p) s c s' c' -> exists x, s = x :: s' /\ p x = true /\ c' = c.
Proof. inversion 1; subst. eauto. Qed.

Lemma matches_Seq a b s c s2 c2 :
  re_matches (Re.Seq a b) s c s2 c2 ->
  exists s1 c1, re_matches a s c s1 c1 /\ re_matches b s1 c1 s2 c2.
Proof. inversion 1; subst. eauto. Qed.

Lemma matches_Eol s c s' c' :
  re_matches Re.Eol s c s' c' -> s' = s /\ c' = c /\ (s = [] \/ s = ["010"%char]).
Proof. inversion 1; subst. auto. Qed.

Lemma matches_Group n a s c s' c' :
  re_matches (Re.Group n a) s c s' c' ->
  exists c1, re_matches a s c s' c1 /\ c' = (n, firstn (length s - length s') s) :: c1.
Proof. inversion 1; subst. eauto. Qed.

Lemma matches_Star_Cls p s c s' c' :
  re_matches (Re.Star (Re.Cls p)) s c s' c' ->
  c' = c /\ exists m, s = (m ++ s')%list /\ forallb p m = true.
Proof.
  remember (Re.Star (Re.Cls p)) as r eqn:Er. intros H.
  induction H as [| | |a s c|a s c s1 c1 s2 c2 Ha _ Hs IH| | |]; try discriminate.
  - split; [reflexivity|]. now exists [].
  - injection Er as ->. apply matches_Cls in Ha. destruct Ha as (x & -> & Hp & ->).
    destruct (IH eq_refl) as (-> & m & -> & Hm).
    split; [reflexivity|]. exists (x :: m). cbn [forallb app]. now rewrite Hp, Hm.
Qed.

Lemma matches_plus_Cls p s c s' c' :
  re_matches (Re.plus (Re.Cls p)) s c s' c' ->
  c' = c /\ exists m, s = (m ++ s')%list /\ m <> [] /\ forallb p m = true.
Proof.
  unfold Re.plus. intros H. apply matches_Seq in H. destruct H as (s1 & c1 & Ha & Hs).
  apply matches_Cls in Ha. destruct Ha as (x & -> & Hp & ->).
  apply matches_Star_Cls in Hs. destruct Hs as (-> & m & -> & Hm).
  split; [reflexivity|]. exists (x :: m). cbn [forallb app]. rewrite Hp, Hm.
  repeat split. discriminate.
Qed.

Lemma matches_lit_list l s c s' c' :
  re_matches (Re.lit_list l) s c s' c' -> c' = c /\ s = (l ++ s')%list.
Proof.
  revert s c. induction l as [|x l IH]; intros s c H; cbn [Re.lit_list] in H.
  - inversion H; subst. auto.
  - destruct l as [|y l'].
    + apply matches_Cls in H. destruct H as (z & -> & Hz & ->).
      apply Ascii.eqb_eq in Hz. subst. auto.
    + apply matches_Seq in H. destruct H as (s1 & c1 & Ha & Hb).
      apply matches_Cls in Ha. destruct Ha as (z & -> & Hz & ->).
      apply Ascii.eqb_eq in Hz. subst z.
      apply IH in Hb. destruct Hb as (-> & ->). auto.
Qed.

(** The equations of [Re.exec]. *)
Lemma exec_Seq {R} a b s c (k : list ascii -> Re.captures -> option R) :
  Re.exec (Re.Seq a b) s c k = Re.exec a s c (fun s' c' => Re.exec b s' c' k).
Proof. reflexivity. Qed.

Lemma exec_Cls {R} p x s c (k : list ascii -> Re.captures -> option R) :
  Re.exec (Re.Cls p) (x :: s) c k = if p x then k s c else None.
Proof. reflexivity. Qed.

Lemma exec_Cls_nil {R} p c (k : list ascii -> Re.captures -> option R) :
  Re.exec (Re.Cls p) [] c k = None.
Proof. reflexivity. Qed.

Lemma exec_Group {R} n a s c (k : list ascii -> Re.captures -> option R) :
  Re.exec (Re.Group n a) s c k =
  Re.exec a s c (fun s' c' => k s' ((n, firstn (length s - length s') s) :: c')).
Proof. reflexivity. Qed.

(** One turn of a repeated class. *)
Lemma exec_Star_Cls {R} p (k : list ascii -> Re.captures -> option R) s c :
  Re.exec (Re.Star (Re.Cls p)) s c k =
  match s with
  | x :: s' =>
      if p x
      then match Re.exec (Re.Star (Re.Cls p)) s' c k with
           | Some r => Some r
           | None => k s c
           end
      else k s c
  | [] => k s c
  end.
Proof.
  destruct s as [|x s']; [reflexivity|].
  cbn [Re.exec length]. destruct (p x); [|reflexivity].
  assert (E : (length s' <? S (length s'))%nat = true) by (apply Nat.ltb_lt; lia).
  rewrite E. reflexivity.
Qed.

(** A repeated class takes all it can when what follows matches there. *)
Lemma exec_Star_Cls_greedy {R} p (k : list ascii -> Re.captures -> option R) m s c x :
  forallb p m = true -> k s c = Some x ->
  (match s with y :: _ => p y = false | [] => True end) ->
  Re.exec (Re.Star (Re.Cls p)) (m ++ s) c k = Some x.
Proof.
  intros Hm Hk Hs. induction m as [|a m IH]; cbn [app].
  - rewrite exec_Star_Cls. destruct s as [|y s']; [exact Hk|]. now rewrite Hs.
  - cbn [forallb] in Hm. apply andb_true_iff in Hm. destruct Hm as [Ha Hm].
    rewrite exec_Star_Cls, Ha, (IH Hm). reflexivity.
Qed.

End ReFacts.

(** ** The validation functions *)

Lemma list_of_append (a b : string) :
  list_ascii_of_string (a ++ b) = (list_ascii_of_string a ++ list_ascii_of_string b)%list.
Proof. induction a as [|c a IH]; cbn; [reflexivity | now rewrite IH]. Qed.

Lemma string_of_app (a b : list ascii) :
  string_of_list_ascii (a ++ b) = string_of_list_ascii a ++ string_of_list_ascii b.
Proof. induction a as [|c a IH]; cbn; [reflexivity | now rewrite IH]. Qed.

Lemma append_empty (s : string) : s ++ "" = s.
Proof. induction s as [|c s IH]; cbn; [reflexivity | now rewrite IH]. Qed.

Lemma string_of_list_inj (s : string) (l : list ascii) :
  list_ascii_of_string s = l -> s = string_of_list_ascii l.
Proof. intros <-. now rewrite string_of_list_ascii_of_string. Qed.

(** A pattern "^[...]+$" at the first position. *)
Lemma anchored_class (p : ascii -> bool) (s : string) :
  p "010"%char = false ->
  is_some (re_match (Re.Seq (Re.plus (Re.Cls p)) Re.Eol) s) = true <-> line_over p s.
Proof.
  intros Hnl. unfold re_match, line_over, over. split.
  - destruct (Re.match_here _ _) as [f|] eqn:E; [intros _ | discriminate].
    apply ReFacts.match_here_sound in E. destruct E as [E _].
    apply ReFacts.matches_Seq in E. destruct E as (s1 & c1 & Hp & He).
    apply ReFacts.matches_plus_Cls in Hp. destruct Hp as (-> & m & Hs & Hm & Hall).
    apply ReFacts.matches_Eol in He. destruct He as (_ & _ & Hend).
    exists (string_of_list_ascii m). split; [|split].
    + destruct m; [congruence | discriminate].
    + now rewrite list_ascii_of_string_of_list_ascii.
    + apply string_of_list_inj in Hs. rewrite string_of_app in Hs.
      destruct Hend as [->| ->]; [left | right]; rewrite Hs; [apply append_empty | reflexivity].
  - intros (body & Hne & Hall & Hs).
    assert (E : exists tail, list_ascii_of_string s
                             = (list_ascii_of_string body ++ tail)%list
                             /\ (tail = [] \/ tail = ["010"%char])).
    { destruct Hs as [->| ->].
      - exists []. now rewrite app_nil_r; auto.
      - exists ["010"%char]. rewrite list_of_append. auto. }
    destruct E as (tail & -> & Htail).
    destruct body as [|a body]; [congruence|]. cbn [list_ascii_of_string forallb] in *.
    apply andb_true_iff in Hall. destruct Hall as [Ha Hall].
    unfold Re.match_here, Re.plus. cbn [app].
    rewrite !ReFacts.exec_Seq, ReFacts.exec_Cls, Ha.
    erewrite ReFacts.exec_Star_Cls_greedy; [reflexivity | exact Hall | |].
    + destruct Htail as [->| ->]; reflexivity.
    + destruct Htail as [->| ->]; [exact I | exact Hnl].
Qed.

(** The same with a group around the class. *)
Lemma anchored_class_group (p : ascii -> bool) (s : string) :
  p "010"%char = false ->
  is_some (re_match (Re.Seq (Re.Group 1 (Re.plus (Re.Cls p))) Re.Eol) s) = true
  <-> line_over p s.
Proof.
  intros Hnl. rewrite <- (anchored_class p s Hnl). unfold re_match, Re.match_here.
  rewrite !ReFacts.exec_Seq, ReFacts.exec_Group.
  split.
  - destruct (Re.exec _ _ _ _) as [f|] eqn:E; [intros _ | discriminate].
    apply ReFacts.exec_sound in E. destruct E as (s1 & c1 & Hm & E).
    destruct (Re.exec Re.Eol s1 _ _) as [f'|] eqn:E'; [|discriminate].
    apply ReFacts.exec_sound in E'. destruct E' as (s2 & c2 & He & _).
    apply ReFacts.matches_Eol in He. destruct He as (_ & _ & Hend).
    apply ReFacts.matches_plus_Cls in Hm. destruct Hm as (_ & m & Hs & Hm & Hall).
    rewrite Hs. destruct m as [|a m]; [congruence|].
    cbn [forallb app] in *. apply andb_true_iff in Hall. destruct Hall as [Ha Hall].
    unfold Re.plus. rewrite ReFacts.exec_Seq, ReFacts.exec_Cls, Ha.
    erewrite ReFacts.exec_Star_Cls_greedy; [reflexivity | exact Hall | |].
    + destruct Hend as [->| ->]; reflexivity.
    + destruct Hend as [->| ->]; [exact I | exact Hnl].
  - destruct (Re.exec _ _ _ _) as [f|] eqn:E; [intros _ | discriminate].
    apply ReFacts.exec_sound in E. destruct E as (s1 & c1 & Hm & E).
    destruct (Re.exec Re.Eol s1 _ _) as [f'|] eqn:E'; [|discriminate].
    apply ReFacts.exec_sound in E'. destruct E' as (s2 & c2 & He & _).
    apply ReFacts.matches_Eol in He. destruct He as (_ & _ & Hend).
    apply ReFacts.matches_plus_Cls in Hm. destruct Hm as (_ & m & Hs & Hm & Hall).
    rewrite Hs. destruct m as [|a m]; [congruence|].
    cbn [forallb app] in *. apply andb_true_iff in Hall. destruct Hall as [Ha Hall].
    unfold Re.plus. rewrite ReFacts.exec_Seq, ReFacts.exec_Cls, Ha.
    erewrite ReFacts.exec_Star_Cls_greedy; [reflexivity | exact Hall | |].
    + destruct Hend as [->| ->]; reflexivity.
    + destruct Hend as [->| ->]; [exact I | exact Hnl].
Qed.

(** [valid_host], [valid_workgroup] and [valid_share] let through the
    strings over their classes of characters that are not empty, and the
    same strings with one newline after them; nothing else. *)
Theorem validators_accept_their_alphabet :
  (forall host, valid_host host = true <-> line_over host_char host)
  /\ (forall workgroup,
         valid_workgroup workgroup = true <-> line_over workgroup_char workgroup)
  /\ (forall share, valid_share share = true <-> line_over share_char share).
Proof.
  split; [|split]; intros s.
  - now apply anchored_class_group.
  - now apply anchored_class.
  - now apply anchored_class.
Qed.

(** The newline at the end goes through: a host name with one is valid. *)
Example valid_host_with_newline :
  valid_host ("10.10.10.5" ++ PyStr.nl) = true /\ valid_host "10.10.10.5;id" = false.
Proof. split; reflexivity. Qed.

(** ** Hexadecimal numbers *)

Ltac each_char c :=
  destruct c as [[] [] [] [] [] [] [] []]; vm_compute; try reflexivity;
  try (intros; discriminate); auto.

Lemma lower_char_zero (c : ascii) : PyText.lower_char c = "0"%char -> c = "0"%char.
Proof. each_char c. Qed.

Lemma lower_char_x (c : ascii) :
  PyText.lower_char c = "x"%char -> Ascii.eqb c "x" || Ascii.eqb c "X" = true.
Proof. each_char c. Qed.

Lemma lower_char_newline (c : ascii) : PyText.lower_char c = "010"%char -> c = "010"%char.
Proof. each_char c. Qed.

(** A character that [lower] turns into one of "[0-9a-f]" is a digit of
    base 16, neither an underscore nor white space. *)
Lemma lower_char_hex (c : ascii) :
  hex_lower_char (PyText.lower_char c) = true ->
  match PyInt.digit_value c with
  | Some d => ((0 <=? d) && (d <? 16))%Z
  | None => false
  end && negb (Ascii.eqb c "_") && negb (PyInt.isspace c) = true.
Proof. each_char c. Qed.

Lemma list_of_lower (s : string) :
  list_ascii_of_string (PyText.lower s) = map PyText.lower_char (list_ascii_of_string s).
Proof. induction s as [|c s IH]; cbn; [reflexivity | now rewrite IH]. Qed.

(** Digits of base 16 make a literal. *)
Lemma digits_hex (m : list ascii) :
  forall acc after_digit,
    (0 <= acc)%Z -> (m <> [] \/ after_digit = true) ->
    forallb (fun c => hex_lower_char (PyText.lower_char c)) m = true ->
    exists n, PyInt.digits 16 acc after_digit m = Some n /\ (0 <= n)%Z.
Proof.
  induction m as [|c m IH]; intros acc after_digit Hacc Hne Hall; cbn [PyInt.digits].
  - destruct Hne as [Hne| ->]; [congruence|]. eauto.
  - cbn [forallb] in Hall. apply andb_true_iff in Hall. destruct Hall as [Hc Hall].
    apply lower_char_hex in Hc.
    apply andb_true_iff in Hc. destruct Hc as [Hc _].
    apply andb_true_iff in Hc. destruct Hc as [Hd Hu].
    apply negb_true_iff in Hu. rewrite Hu.
    destruct (PyInt.digit_value c) as [d|]; [|discriminate].
    apply andb_true_iff in Hd. destruct Hd as [Hd0 Hd1]. rewrite Hd1.
    apply IH; [apply Z.leb_le in Hd0; lia | now right | exact Hall].
Qed.

Lemma lstrip_spaces (t l : list ascii) :
  forallb PyInt.isspace t = true -> PyInt.lstrip (t ++ l) = PyInt.lstrip l.
Proof.
  induction t as [|c t IH]; cbn [app forallb PyInt.lstrip]; [reflexivity|].
  intros H. apply andb_true_iff in H. destruct H as [Hc Ht]. rewrite Hc. auto.
Qed.

Lemma forallb_map' {A B} (f : A -> B) (p : B -> bool) (l : list A) :
  forallb p (map f l) = forallb (fun x => p (f x)) l.
Proof. induction l as [|x l IH]; cbn; [reflexivity | now rewrite IH]. Qed.

Lemma forallb_rev' {A} (p : A -> bool) (l : list A) :
  forallb p l = true -> forallb p (rev l) = true.
Proof.
  rewrite !forallb_forall. intros H x Hx. apply H. now apply in_rev.
Qed.

(** What [strip] leaves of a literal with white space after it. *)
Lemma strip_tail (a z : ascii) (m t : list ascii) :
  PyInt.isspace a = false -> PyInt.isspace z = false ->
  forallb PyInt.isspace t = true ->
  PyInt.strip (a :: m ++ z :: t) = (a :: m ++ [z])%list.
Proof.
  intros Ha Hz Ht. unfold PyInt.strip. cbn [PyInt.lstrip]. rewrite Ha.
  change (a :: m ++ z :: t)%list with ((a :: m) ++ z :: t)%list.
  rewrite rev_app_distr. cbn [rev]. rewrite <- app_assoc.
  rewrite lstrip_spaces by (now apply forallb_rev').
  cbn [app PyInt.lstrip]. rewrite Hz.
  cbn [rev]. rewrite rev_app_distr, rev_involutive. reflexivity.
Qed.

Lemma valid_hex_reads (hexnumber : string) :
  valid_hex hexnumber = true ->
  exists n, PyInt.int16 hexnumber = Ret n /\ (0 <= n)%Z.
Proof.
  unfold valid_hex, re_match. intros H.
  destruct (Re.match_here _ _) as [f|] eqn:E; [clear H | discriminate].
  apply ReFacts.match_here_sound in E. destruct E as [E _].
  cbn [Re.seqs] in E.
  apply ReFacts.matches_Seq in E. destruct E as (s1 & c1 & H0x & E).
  apply ReFacts.matches_lit_list in H0x. destruct H0x as [-> Hs].
  apply ReFacts.matches_Seq in E. destruct E as (s2 & c2 & Hp & He).
  apply ReFacts.matches_plus_Cls in Hp. destruct Hp as (-> & m & -> & Hm & Hall).
  apply ReFacts.matches_Eol in He. destruct He as (_ & _ & Hend).
  rewrite list_of_lower in Hs. cbn [list_ascii_of_string app] in Hs.
  unfold PyInt.int16.
  destruct (list_ascii_of_string hexnumber) as [|a [|x l]]; try discriminate.
  cbn [map] in Hs. injection Hs as Ha Hx Hl.
  apply lower_char_zero in Ha. subst a. apply lower_char_x in Hx.
  apply map_eq_app in Hl. destruct Hl as (m' & t & -> & Hm' & Ht).
  assert (Hhex : forallb (fun c => hex_lower_char (PyText.lower_char c)) m' = true).
  { rewrite <- Hm' in Hall. now rewrite forallb_map' in Hall. }
  assert (Hspace : forallb PyInt.isspace t = true).
  { destruct Hend as [->| ->].
    - destruct t; [reflexivity | discriminate].
    - destruct t as [|c [|? ?]]; try discriminate. injection Ht as Hc.
      apply lower_char_newline in Hc. now subst c. }
  assert (Hne : m' <> []) by (intros ->; apply Hm; now rewrite <- Hm').
  destruct (exists_last Hne) as (m0 & z & ->).
  assert (Hz : PyInt.isspace z = false).
  { rewrite forallb_app in Hhex. apply andb_true_iff in Hhex. destruct Hhex as [_ Hz].
    cbn [forallb] in Hz. rewrite andb_true_r in Hz. apply lower_char_hex in Hz.
    apply andb_true_iff in Hz. destruct Hz as [_ Hz]. now apply negb_true_iff in Hz. }
  assert (Hxs : PyInt.isspace x = false).
  { apply orb_true_iff in Hx. destruct Hx as [Hx|Hx]; apply Ascii.eqb_eq in Hx; now subst. }
  replace ("0"%char :: x :: (m0 ++ [z]) ++ t)%list
    with ("0"%char :: (x :: m0) ++ z :: t)%list
    by (cbn [app]; now rewrite <- app_assoc).
  rewrite strip_tail by (assumption || reflexivity).
  cbn [app]. rewrite Hx.
  destruct (digits_hex (m0 ++ [z]) 0 false) as (n & Hn & Hpos);
    [lia | now left | exact Hhex |].
  assert (Hhead : match (m0 ++ [z])%list with "_"%char :: l'' => l'' | _ => (m0 ++ [z])%list end
                  = (m0 ++ [z])%list).
  { destruct (m0 ++ [z])%list as [|c l'] eqn:El; [reflexivity|].
    cbn [forallb] in Hhex. apply andb_true_iff in Hhex. destruct Hhex as [Hc _].
    apply lower_char_hex in Hc. apply andb_true_iff in Hc. destruct Hc as [Hc _].
    apply andb_true_iff in Hc. destruct Hc as [_ Hc]. apply negb_true_iff in Hc.
    apply Ascii.eqb_neq in Hc.
    destruct c as [[] [] [] [] [] [] [] []]; try reflexivity. congruence. }
  rewrite Hhead, Hn. exists n. split; [f_equal; lia | exact Hpos].
Qed.

(** Line 1040 tests [valid_hex] before line 1042 reads the number: what
    [valid_hex] lets through, [int(s, 16)] reads without raising, as a
    number that is not negative. *)
Theorem valid_hex_guards_int (hexnumber : string) :
  valid_hex hexnumber = true ->
  exists n, PyInt.int16 hexnumber = Ret n /\ (0 <= n)%Z.
Proof.
  intros H. destruct (valid_hex_reads hexnumber H) as (n & Hn & Hpos).
  exists n. split; assumption.
Qed.

Lemma valid_hex_guards_int_witness :
  exists n, PyInt.int16 "0x00000210" = Ret n /\ (0 <= n)%Z.
Proof. apply (valid_hex_guards_int "0x00000210"). reflexivity. Defined.

(** ** The RID ranges: from [valid_rid_ranges] to [prepare_rid_ranges] *)

Lemma over_append (p : ascii -> bool) (a b : string) :
  over p (a ++ b) = over p a && over p b.
Proof. unfold over. now rewrite list_of_append, forallb_app. Qed.

Lemma split_ascii (sep : ascii) (s : string) :
  PyText.is_ascii s = true ->
  forallb PyText.is_ascii (PyStr.split sep s) = true.
Proof.
  induction s as [|c s IH]; [reflexivity|].
  unfold PyText.is_ascii at 1. cbn [list_ascii_of_string forallb PyStr.split].
  intros H. apply andb_true_iff in H. destruct H as [Hc Hs]. specialize (IH Hs).
  destruct (Ascii.eqb c sep); [exact IH|].
  destruct (PyStr.split sep s) as [|h t]; cbn [forallb] in *.
  - unfold PyText.is_ascii. cbn [list_ascii_of_string forallb]. now rewrite Hc.
  - apply andb_true_iff in IH. destruct IH as [Hh Ht]. rewrite Ht, andb_true_r.
    unfold PyText.is_ascii in *. cbn [list_ascii_of_string forallb]. now rewrite Hc, Hh.
Qed.

(** Splitting at a separator that is not there, and at the first one. *)
Lemma split_none (sep : ascii) (s : string) :
  over (fun c => negb (Ascii.eqb c sep)) s = true -> PyStr.split sep s = [s].
Proof.
  unfold over. induction s as [|c s IH]; [reflexivity|].
  cbn [list_ascii_of_string forallb PyStr.split]. intros H.
  apply andb_true_iff in H. destruct H as [Hc Hs]. apply negb_true_iff in Hc.
  now rewrite Hc, (IH Hs).
Qed.

Lemma split_first (sep : ascii) (a b : string) :
  over (fun c => negb (Ascii.eqb c sep)) a = true ->
  PyStr.split sep (a ++ String sep b) = a :: PyStr.split sep b.
Proof.
  unfold over. induction a as [|c a IH]; cbn [append list_ascii_of_string forallb PyStr.split].
  - intros _. now rewrite Ascii.eqb_refl.
  - intros H. apply andb_true_iff in H. destruct H as [Hc Ha]. apply negb_true_iff in Hc.
    now rewrite Hc, (IH Ha).
Qed.

Lemma digit_not_space (c : ascii) : Re.is_digit c = true -> negb (PyStr.is_space c) = true.
Proof. each_char c. Qed.

Lemma digit_not_dash (c : ascii) : Re.is_digit c = true -> negb (Ascii.eqb c "-") = true.
Proof. each_char c. Qed.

Lemma digit_value_pos (c : ascii) :
  Re.is_digit c = true -> (48 <=? Z.of_nat (nat_of_ascii c))%Z = true.
Proof. each_char c. Qed.

Lemma digit_plain (c : ascii) :
  Re.is_digit c = true ->
  PyInt.isspace c || Ascii.eqb c "_" || Ascii.eqb c "+" || Ascii.eqb c "-" = false.
Proof. each_char c. Qed.

Lemma digit_value_decimal (c : ascii) :
  Re.is_digit c = true ->
  PyInt.digit_value c = Some (Z.of_nat (nat_of_ascii c) - 48)%Z.
Proof. each_char c. Qed.

Lemma digit_below_ten (c : ascii) :
  Re.is_digit c = true -> (Z.of_nat (nat_of_ascii c) - 48 <? 10)%Z = true.
Proof. each_char c. Qed.

Lemma ascii_isdigit_char (c : ascii) :
  (nat_of_ascii c <? 128)%nat = true -> PyText.isdigit_char c = true ->
  Re.is_digit c = true.
Proof. each_char c. Qed.

Lemma over_impl (p q : ascii -> bool) (s : string) :
  (forall c, p c = true -> q c = true) -> over p s = true -> over q s = true.
Proof.
  unfold over. intros H. rewrite !forallb_forall. auto.
Qed.

Lemma over_string_of_list (p : ascii -> bool) (l : list ascii) :
  over p (string_of_list_ascii l) = forallb p l.
Proof. unfold over. now rewrite list_ascii_of_string_of_list_ascii. Qed.

Lemma string_of_list_not_empty (l : list ascii) : l <> [] -> string_of_list_ascii l <> "".
Proof. destruct l; [congruence | discriminate]. Qed.

(** The conversion of digits in base 10. *)
Lemma fold_decimal_nonneg (l : list ascii) (acc : Z) :
  (0 <= acc)%Z -> forallb Re.is_digit l = true ->
  (0 <= fold_left (fun n c => n * 10 + (Z.of_nat (nat_of_ascii c) - 48)) l acc)%Z.
Proof.
  revert acc. induction l as [|x l IH]; intros acc Hacc Hl; cbn [fold_left]; [assumption|].
  cbn [forallb] in Hl. apply andb_true_iff in Hl. destruct Hl as [Hx Hl].
  apply IH; [|assumption]. apply digit_value_pos in Hx. apply Z.leb_le in Hx. lia.
Qed.

Lemma decimal_nonneg (d : string) : over Re.is_digit d = true -> (0 <= decimal d)%Z.
Proof. intros H. apply fold_decimal_nonneg; [lia | exact H]. Qed.

Lemma scan_digits (l : list ascii) :
  forallb Re.is_digit l = true -> PyInt.scan false l = Some (length l).
Proof.
  induction l as [|c l IH]; [reflexivity|]. cbn [forallb PyInt.scan length]. intros H.
  apply andb_true_iff in H. destruct H as [Hc Hl].
  pose proof (digit_plain c Hc) as Hp.
  apply orb_false_iff in Hp. destruct Hp as [Hp _].
  apply orb_false_iff in Hp. destruct Hp as [Hp _].
  apply orb_false_iff in Hp. destruct Hp as [_ Hu].
  rewrite Hu, (digit_value_decimal c Hc), (digit_below_ten c Hc), (IH Hl). reflexivity.
Qed.

Lemma digits_decimal (l : list ascii) :
  forall acc after_digit,
    (l <> [] \/ after_digit = true) -> forallb Re.is_digit l = true ->
    PyInt.digits 10 acc after_digit l
    = Some (fold_left (fun n c => n * 10 + (Z.of_nat (nat_of_ascii c) - 48))%Z l acc).
Proof.
  induction l as [|c l IH]; intros acc after_digit Hne Hl; cbn [PyInt.digits fold_left].
  - destruct Hne as [Hne| ->]; [congruence | reflexivity].
  - cbn [forallb] in Hl. apply andb_true_iff in Hl. destruct Hl as [Hc Hl].
    pose proof (digit_plain c Hc) as Hp.
    apply orb_false_iff in Hp. destruct Hp as [Hp _].
    apply orb_false_iff in Hp. destruct Hp as [Hp _].
    apply orb_false_iff in Hp. destruct Hp as [_ Hu].
    rewrite Hu, (digit_value_decimal c Hc), (digit_below_ten c Hc).
    apply IH; [now right | exact Hl].
Qed.

Lemma lstrip_all_spaces (t : list ascii) :
  forallb PyInt.isspace t = true -> PyInt.lstrip t = [].
Proof.
  induction t as [|c t IH]; [reflexivity|]. cbn [forallb PyInt.lstrip]. intros H.
  apply andb_true_iff in H. destruct H as [Hc Ht]. rewrite Hc. auto.
Qed.

Lemma lstrip_digits (l : list ascii) :
  forallb Re.is_digit l = true -> PyInt.lstrip l = l.
Proof.
  destruct l as [|c l]; [reflexivity|]. cbn [forallb PyInt.lstrip]. intros H.
  apply andb_true_iff in H. destruct H as [Hc _].
  pose proof (digit_plain c Hc) as Hp.
  apply orb_false_iff in Hp. destruct Hp as [Hp _].
  apply orb_false_iff in Hp. destruct Hp as [Hp _].
  apply orb_false_iff in Hp. destruct Hp as [Hs _]. now rewrite Hs.
Qed.

(** What [strip] leaves of digits with white space after them. *)
Lemma strip_digits (l t : list ascii) :
  forallb Re.is_digit l = true -> forallb PyInt.isspace t = true ->
  PyInt.strip (l ++ t) = l.
Proof.
  intros Hl Ht. unfold PyInt.strip. destruct l as [|c l].
  - cbn [app]. rewrite (lstrip_all_spaces t Ht). reflexivity.
  - assert (E : PyInt.lstrip ((c :: l) ++ t) = ((c :: l) ++ t)%list).
    { cbn [app PyInt.lstrip]. cbn [forallb] in Hl. apply andb_true_iff in Hl.
      destruct Hl as [Hc _]. pose proof (digit_plain c Hc) as Hp.
      apply orb_false_iff in Hp. destruct Hp as [Hp _].
      apply orb_false_iff in Hp. destruct Hp as [Hp _].
      apply orb_false_iff in Hp. destruct Hp as [Hs _]. now rewrite Hs. }
    rewrite E, rev_app_distr, lstrip_spaces by (now apply forallb_rev').
    rewrite lstrip_digits by (now apply forallb_rev'). apply rev_involutive.
Qed.

(** A literal that starts with a digit has no sign and no underscore in
    front. *)
Lemma int10_unsigned (s : string) (c : ascii) (l : list ascii) :
  PyInt.strip (list_ascii_of_string s) = c :: l ->
  Ascii.eqb c "_" || Ascii.eqb c "+" || Ascii.eqb c "-" = false ->
  PyInt.int10 s =
  match PyInt.scan false (c :: l) with
  | None => Raise (PyInt.invalid_literal "10" s)
  | Some count =>
      if (PyInt.max_str_digits <? count)%nat then
        Raise (ValueError
                 ("Exceeds the limit (4300 digits) for integer string conversion: "
                    ++ "value has " ++ PyNum.str (Z.of_nat count)
                    ++ " digits; use sys.set_int_max_str_digits() to increase the limit"))
      else
        match PyInt.digits 10 0 false (c :: l) with
        | Some n => Ret (1 * n)%Z
        | None => Raise (PyInt.invalid_literal "10" s)
        end
  end.
Proof.
  intros Hs. unfold PyInt.int10. rewrite Hs. clear Hs.
  destruct c as [[] [] [] [] [] [] [] []]; cbn [Ascii.eqb Bool.eqb andb orb];
    intros H; try discriminate H; reflexivity.
Qed.

(** [int] of a string of at most 4300 decimal digits, with or without a
    newline after it. *)
Lemma py_int_digits (d tail : string) :
  is_number d -> (String.length d <= 4300)%nat -> tail = "" \/ tail = PyStr.nl ->
  py_int (d ++ tail) = Ret (decimal d).
Proof.
  intros [Hne Hd] Hlen Htail. unfold py_int, over in *.
  assert (Hstrip : PyInt.strip (list_ascii_of_string (d ++ tail)) = list_ascii_of_string d).
  { rewrite list_of_append. apply strip_digits; [exact Hd|].
    destruct Htail as [->| ->]; reflexivity. }
  destruct (list_ascii_of_string d) as [|c l] eqn:El.
  { destruct d; [congruence | discriminate]. }
  assert (Hc : Re.is_digit c = true).
  { cbn [forallb] in Hd. now apply andb_true_iff in Hd. }
  pose proof (digit_plain c Hc) as Hp.
  rewrite (int10_unsigned _ c l Hstrip).
  2:{ apply orb_false_iff in Hp. destruct Hp as [Hp Hm].
      apply orb_false_iff in Hp. destruct Hp as [Hp Hplus].
      apply orb_false_iff in Hp. destruct Hp as [_ Hu]. now rewrite Hu, Hplus, Hm. }
  rewrite scan_digits by exact Hd.
  assert (Hcount : (PyInt.max_str_digits <? length (c :: l))%nat = false).
  { apply Nat.ltb_ge. unfold PyInt.max_str_digits. rewrite <- El.
    clear -Hlen. revert Hlen. generalize 4300%nat.
    induction d as [|x d IH]; intros n Hn; cbn [list_ascii_of_string length String.length] in *;
      [lia|].
    destruct n; [lia|]. specialize (IH n). lia. }
  rewrite Hcount, digits_decimal by (exact Hd || (left; discriminate)).
  unfold decimal. rewrite El. f_equal.
  match goal with |- (1 * ?x)%Z = _ => destruct x; reflexivity end.
Qed.

Lemma length_append (a b : string) :
  String.length (a ++ b) = String.length a + String.length b.
Proof. induction a as [|c a IH]; cbn [append String.length]; [reflexivity | now rewrite IH]. Qed.

Lemma number_length (d rest : string) :
  (String.length (d ++ rest) <= 4300)%nat -> (String.length d <= 4300)%nat.
Proof. rewrite length_append. lia. Qed.

Lemma number_not_isdigit_with_dash (d1 rest : string) :
  PyText.isdigit (d1 ++ String "-" rest) = false.
Proof.
  unfold PyText.isdigit. rewrite list_of_append, forallb_app.
  cbn [list_ascii_of_string forallb]. change (PyText.isdigit_char "-") with false.
  now rewrite andb_false_r, andb_false_r.
Qed.

Lemma ordered_pair (a b : Z) :
  (if (a >? b)%Z then Ret (b, a) else Ret (a, b)) = Ret (Z.min a b, Z.max a b) :> py (Z * Z).
Proof.
  destruct (a >? b)%Z eqn:E; f_equal; f_equal.
  - apply Z.gtb_lt in E. lia.
  - apply Z.gtb_lt in E. lia.
  - assert (~ (b < a)%Z) by (intros H; apply Z.gtb_lt in H; congruence). lia.
  - assert (~ (b < a)%Z) by (intros H; apply Z.gtb_lt in H; congruence). lia.
Qed.

(** One item that is a number. *)
Lemma prepare_number (item : string) :
  PyText.is_ascii item = true -> (String.length item <= 4300)%nat ->
  PyText.isdigit item = true ->
  exists a b, item_numbers item a b
              /\ prepare_rid_range item = Ret (Z.min a b, Z.max a b).
Proof.
  intros Ha Hlen H. unfold prepare_rid_range. rewrite H.
  assert (Hn : is_number item).
  { unfold PyText.isdigit in H. apply andb_true_iff in H. destruct H as [Hne Hd]. split.
    - destruct item; [discriminate | congruence].
    - unfold over, PyText.is_ascii in *. rewrite forallb_forall in *.
      intros c Hc. apply ascii_isdigit_char; auto. }
  pose proof (py_int_digits item "" Hn Hlen (or_introl eq_refl)) as Hint.
  rewrite append_empty in Hint. rewrite Hint, ordered_pair.
  exists (decimal item), (decimal item). split; [|reflexivity].
  exists item, item. repeat split; try apply Hn. left. auto.
Qed.

(** One item that is a range. *)
Lemma prepare_range (item : string) :
  (String.length item <= 4300)%nat ->
  is_some (re_match re_rid_range item) = true ->
  exists a b, item_numbers item a b
              /\ prepare_rid_range item = Ret (Z.min a b, Z.max a b).
Proof.
  unfold re_match. intros Hlen H.
  destruct (Re.match_here _ _) as [f|] eqn:E; [clear H | discriminate].
  apply ReFacts.match_here_sound in E. destruct E as [E _].
  unfold re_rid_range in E. cbn [Re.seqs] in E.
  apply ReFacts.matches_Seq in E. destruct E as (s1 & c1 & H1 & E).
  apply ReFacts.matches_Group in H1. destruct H1 as (c1' & H1 & _).
  apply ReFacts.matches_plus_Cls in H1. destruct H1 as (_ & m1 & Hs & Hm1 & Hd1).
  apply ReFacts.matches_Seq in E. destruct E as (s2 & c2 & Hdash & E).
  apply ReFacts.matches_Cls in Hdash. destruct Hdash as (x & -> & Hx & _).
  apply Ascii.eqb_eq in Hx. subst x.
  apply ReFacts.matches_Seq in E. destruct E as (s3 & c3 & H2 & He).
  apply ReFacts.matches_Group in H2. destruct H2 as (c2' & H2 & _).
  apply ReFacts.matches_plus_Cls in H2. destruct H2 as (_ & m2 & -> & Hm2 & Hd2).
  apply ReFacts.matches_Eol in He. destruct He as (_ & _ & Hend).
  set (d1 := string_of_list_ascii m1). set (d2 := string_of_list_ascii m2).
  set (t := string_of_list_ascii s3).
  assert (Hitem : item = d1 ++ String "-" (d2 ++ t)).
  { apply string_of_list_inj in Hs. rewrite Hs, string_of_app. cbn [string_of_list_ascii].
    now rewrite string_of_app. }
  assert (Ht : t = "" \/ t = PyStr.nl) by (destruct Hend as [->| ->]; auto).
  assert (Hn1 : is_number d1).
  { split; [now apply string_of_list_not_empty | unfold d1; now rewrite over_string_of_list]. }
  assert (Hn2 : is_number d2).
  { split; [now apply string_of_list_not_empty | unfold d2; now rewrite over_string_of_list]. }
  assert (Hsplit : PyStr.split "-" item = [d1; d2 ++ t]).
  { rewrite Hitem, split_first
      by (eapply over_impl; [apply digit_not_dash | apply Hn1]).
    rewrite split_none; [reflexivity|]. rewrite over_append.
    rewrite (over_impl _ _ _ digit_not_dash (proj2 Hn2)).
    destruct Ht as [->| ->]; reflexivity. }
  assert (Hl1 : (String.length d1 <= 4300)%nat).
  { rewrite Hitem in Hlen. now apply number_length in Hlen. }
  assert (Hl2 : (String.length d2 <= 4300)%nat).
  { rewrite Hitem, length_append in Hlen. cbn [String.length] in Hlen.
    rewrite length_append in Hlen. lia. }
  assert (Hnd : PyText.isdigit item = false)
    by (rewrite Hitem; apply number_not_isdigit_with_dash).
  unfold prepare_rid_range. rewrite Hnd, Hsplit.
  pose proof (py_int_digits d1 "" Hn1 Hl1 (or_introl eq_refl)) as E1.
  rewrite append_empty in E1.
  rewrite E1, (py_int_digits d2 t Hn2 Hl2 Ht), ordered_pair.
  exists (decimal d1), (decimal d2). split; [|reflexivity].
  exists d1, d2. split; [exact Hn1|]. split; [exact Hn2|]. split; [|auto].
  right. rewrite Hitem. destruct Ht as [->| ->]; [left | right].
  - now rewrite append_empty.
  - reflexivity.
Qed.

Lemma item_numbers_nonneg (item : string) (a b : Z) :
  item_numbers item a b -> (0 <= Z.min a b <= Z.max a b)%Z.
Proof.
  intros (d1 & d2 & [_ H1] & [_ H2] & _ & -> & ->).
  pose proof (decimal_nonneg d1 H1). pose proof (decimal_nonneg d2 H2). lia.
Qed.

Lemma prepare_all_valid (items : list string) :
  forallb PyText.is_ascii items = true ->
  forallb (fun item => (String.length item <=? 4300)%nat) items = true ->
  forallb (fun rid_range =>
             is_some (re_match re_rid_range rid_range) || PyText.isdigit rid_range)
          items = true ->
  exists l, prepare_all items = Ret l
            /\ Forall2 (fun item r =>
                          exists a b, item_numbers item a b /\ r = (Z.min a b, Z.max a b))
                       items l.
Proof.
  induction items as [|item items IH]; cbn [forallb prepare_all]; intros Ha Hl Hv.
  - exists []. split; [reflexivity | constructor].
  - apply andb_true_iff in Ha. destruct Ha as [Ha Has].
    apply andb_true_iff in Hl. destruct Hl as [Hl Hls]. apply Nat.leb_le in Hl.
    apply andb_true_iff in Hv. destruct Hv as [Hv Hvs].
    destruct (IH Has Hls Hvs) as (l & El & Hall).
    assert (Hitem : exists a b, item_numbers item a b
                                /\ prepare_rid_range item = Ret (Z.min a b, Z.max a b)).
    { apply orb_true_iff in Hv. destruct Hv as [Hv|Hv].
      - now apply prepare_range.
      - now apply prepare_number. }
    destruct Hitem as (a & b & Hab & Eab). rewrite Eab, El.
    exists ((Z.min a b, Z.max a b) :: l). split; [reflexivity|].
    constructor; [eauto | assumption].
Qed.

Lemma ranges_ordered (items : list string) (l : list (Z * Z)) :
  Forall2 (fun item r => exists a b, item_numbers item a b /\ r = (Z.min a b, Z.max a b))
          items l ->
  Forall (fun r => (0 <= fst r <= snd r)%Z) l.
Proof.
  induction 1 as [|item r items l (a & b & Hab & ->) _ IH]; constructor; [|exact IH].
  cbn [fst snd]. now apply item_numbers_nonneg in Hab.
Qed.

(** [check_args] lets the run go on only with ranges that [valid_rid_ranges]
    accepts, and [main] hands them to [prepare_rid_ranges]: for what was
    accepted, when it is ASCII text with no item longer than the 4300
    digits [int] converts, that call does not raise.  It returns one pair
    for each item between the commas: for the item "n" the pair of [n] and
    [n], for the item "a-b" the lower of [a] and [b], then the higher (a
    range given backwards is reversed); no start is negative. *)
Theorem valid_rid_ranges_prepare (rid_ranges : string) :
  PyText.is_ascii rid_ranges = true ->
  forallb (fun item => (String.length item <=? 4300)%nat) (PyStr.split "," rid_ranges)
  = true ->
  valid_rid_ranges rid_ranges = true ->
  exists l,
    prepare_rid_ranges rid_ranges = Ret l
    /\ Forall2 (fun item r => exists a b, item_numbers item a b /\ r = (Z.min a b, Z.max a b))
               (PyStr.split "," rid_ranges) l
    /\ length l = length (PyStr.split "," rid_ranges)
    /\ Forall (fun r => (0 <= fst r <= snd r)%Z) l.
Proof.
  intros Ha Hl Hv. unfold valid_rid_ranges in Hv.
  destruct (negb (PyStr.truthy rid_ranges)); [discriminate|].
  unfold prepare_rid_ranges.
  destruct (prepare_all_valid (PyStr.split "," rid_ranges)) as (l & El & Hall);
    [now apply split_ascii | exact Hl | exact Hv |].
  exists l. split; [exact El|]. split; [exact Hall|]. split.
  - symmetry. eapply Forall2_length. exact Hall.
  - eapply ranges_ordered. exact Hall.
Qed.

Lemma valid_rid_ranges_prepare_witness :
  exists l,
    prepare_rid_ranges "550-500,1000-1050,3000" = Ret l
    /\ Forall2 (fun item r => exists a b, item_numbers item a b /\ r = (Z.min a b, Z.max a b))
               (PyStr.split "," "550-500,1000-1050,3000") l
    /\ length l = length (PyStr.split "," "550-500,1000-1050,3000")
    /\ Forall (fun r => (0 <= fst r <= snd r)%Z) l.
Proof.
  apply (valid_rid_ranges_prepare "550-500,1000-1050,3000"); reflexivity.
Defined.

(** What the first item of the ranges above gives. *)
Example backwards_range_is_reversed :
  prepare_rid_ranges "550-500,1000-1050,3000"
  = Ret [(500, 550); (1000, 1050); (3000, 3000)]%Z.
Proof. reflexivity. Qed.

(** Why the text has to be ASCII: [isdigit] takes the superscript 2, which
    [int] refuses, so an item [valid_rid_ranges] accepts makes
    [prepare_rid_ranges] raise. *)
Example superscript_range_raises :
  valid_rid_ranges (String "178" "") = true
  /\ prepare_rid_ranges (String "178" "")
     = Raise (ValueError ("invalid literal for int() with base 10: '"
                            ++ String "178" "'")).
Proof. split; reflexivity. Qed.

(** ** The filter of [run] *)

Lemma rstrip_newlines_end (s t : string) : PyStr2.rstrip_newlines s <> t ++ PyStr.nl.
Proof.
  revert t. induction s as [|c s IH]; intros t; cbn [PyStr2.rstrip_newlines].
  - destruct t; discriminate.
  - destruct (PyStr2.rstrip_newlines s) as [|a r] eqn:E.
    + destruct (Ascii.eqb c "010") eqn:Ec.
      * destruct t; discriminate.
      * destruct t as [|x [|y t]]; cbn; try discriminate.
        intros [= ->]. discriminate.
    + destruct t as [|x t]; cbn; [discriminate|].
      intros [= -> H]. now apply (IH t).
Qed.

Lemma rstrip_newlines_id (s : string) :
  (forall t, s <> t ++ PyStr.nl) -> PyStr2.rstrip_newlines s = s.
Proof.
  induction s as [|c s IH]; intros H; cbn [PyStr2.rstrip_newlines]; [reflexivity|].
  rewrite IH.
  - destruct s; [|reflexivity].
    destruct (Ascii.eqb c "010") eqn:Ec; [|reflexivity].
    apply Ascii.eqb_eq in Ec. subst c. exfalso. now apply (H "").
  - intros t ->. now apply (H (String c t)).
Qed.

Lemma replace_from_absent (old new s : string) :
  PyStr.contains old s = false -> PyStr2.replace_from old new 0 s = s.
Proof.
  induction s as [|c s IH]; [reflexivity|].
  cbn [PyStr.contains PyStr2.replace_from].
  destruct (String.prefix old (String c s)); [discriminate|].
  intros H. now rewrite IH.
Qed.

Section Run.

Variable W : World.

(** The command [run] executes: the one it is given, with the path of the
    Samba configuration after it when there is one. *)
Let executed (command : list string) (samba_config : option string) : list string :=
  match samba_config with
  | Some path => (command ++ ["-s"; path])%list
  | None => command
  end.

(** What [run] returns never ends with a newline; and an output of the
    command that does not, and has none of the three lines [run] drops,
    comes back as it is. *)
Theorem run_filters_output (command : list string) (samba_config : option string) :
  (forall text, run W command samba_config <> text ++ PyStr.nl)
  /\ (let output := check_output W (executed command samba_config) in
      PyStr.contains ("Unable to initialize messaging context" ++ PyStr.nl) output = false ->
      PyStr.contains ("WARNING: no network interfaces found" ++ PyStr.nl) output = false ->
      PyStr.contains ("Can't load /etc/samba/smb.conf - run testparm to debug it"
                        ++ PyStr.nl) output = false ->
      (forall text, output <> text ++ PyStr.nl) ->
      run W command samba_config = output).
Proof.
  split.
  - intros text. unfold run. apply rstrip_newlines_end.
  - cbn zeta. intros H1 H2 H3 Hend. unfold run, PyStr2.replace.
    fold (executed command samba_config).
    rewrite (replace_from_absent _ _ _ H1), (replace_from_absent _ _ _ H2),
      (replace_from_absent _ _ _ H3).
    now apply rstrip_newlines_id.
Qed.

End Run.

(** The three lines go, and the newlines at the end. *)
Example run_drops_the_warning :
  run (with_commands
         (fun _ => "WARNING: no network interfaces found" ++ PyStr.nl
                   ++ "Domain Name: CORP" ++ PyStr.nl ++ PyStr.nl)
         silent_world)
      ["rpcclient"; "-c"; "lsaquery"] (Some "/tmp/smb.conf")
  = "Domain Name: CORP".
Proof. reflexivity. Qed.

(** ** Naming contexts that cannot be read *)

Section SilentLdap.

Variable W : World.

(** When the LDAP bind works and the RootDSE gives no naming contexts (an
    empty list, or reading them raises), [get_namingcontexts] returns the
    empty list with the message "NamingContexts are not readable"; the run
    stops trying (LDAPS is not tried), drops the message, and returns its
    three fields as [None] with no ledger of errors at all. *)
Theorem unreadable_naming_contexts_leave_no_error (t : Target) :
  ldap_connect W (host t) (Some false) (timeout t) = LdapInfo None
  \/ ldap_connect W (host t) (Some false) (timeout t) = LdapInfo (Some []) ->
  get_namingcontexts W (set_tls t false)
    = mkResult (VList []) "NamingContexts are not readable"
  /\ EnumLdapDomainInfo_run W t
     = (set_tls t false,
        [("is_parent_dc", VNone); ("is_child_dc", VNone); ("long_domain", VNone)])
  /\ Dict.has "errors" (snd (EnumLdapDomainInfo_run W t)) = false.
Proof.
  intros H.
  assert (Hn : get_namingcontexts W (set_tls t false)
               = mkResult (VList []) "NamingContexts are not readable").
  { unfold get_namingcontexts. cbn [host timeout tls set_tls].
    destruct H as [-> | ->]; reflexivity. }
  split; [exact Hn|].
  assert (Hrun : EnumLdapDomainInfo_run W t
                 = (set_tls t false,
                    [("is_parent_dc", VNone); ("is_child_dc", VNone);
                     ("long_domain", VNone)])).
  { unfold EnumLdapDomainInfo_run. cbn [ldap_loop]. rewrite Hn. reflexivity. }
  split; [exact Hrun|]. now rewrite Hrun.
Qed.

End SilentLdap.

Lemma unreadable_naming_contexts_leave_no_error_witness :
  let W := with_naming_contexts [] silent_world in
  get_namingcontexts W (set_tls sample_target false)
    = mkResult (VList []) "NamingContexts are not readable"
  /\ EnumLdapDomainInfo_run W sample_target
     = (set_tls sample_target false,
        [("is_parent_dc", VNone); ("is_child_dc", VNone); ("long_domain", VNone)])
  /\ Dict.has "errors" (snd (EnumLdapDomainInfo_run W sample_target)) = false.
Proof.
  apply (unreadable_naming_contexts_leave_no_error
           (with_naming_contexts [] silent_world) sample_target).
  right. reflexivity.
Defined.

(** ** The users module with details *)

Section UserDetails.

Variable W : World.
Variable target : Target.
Variable creds : Credentials.
Variable module_name : string.

(** What the loop over [users.keys()] keeps, on the pair of [users] and
    [output]: [seen] are the RIDs it went through. *)
Let details_inv (listing : dict) (seen : list string) (st : dict * dict) : Prop :=
  Dict.keys (fst st) = Dict.keys listing
  /\ (forall rid v, Dict.get rid (fst st) = Some v ->
                    Dict.get rid listing = Some v
                    \/ detailed_entry W target creds listing rid v)
  /\ (forall rid, In rid seen ->
                  exists v, Dict.get rid (fst st) = Some v
                            /\ detailed_entry W target creds listing rid v)
  /\ Dict.get "users" (snd st) = None.

Lemma details_inv_step (listing : dict) (seen : list string) (st : dict * dict)
    (rid : string) :
  In rid (Dict.keys listing) -> details_inv listing seen st ->
  details_inv listing (rid :: seen) (user_details_step W target creds module_name st rid).
Proof.
  intros Hin (Hkeys & Hval & Hseen & Hout). destruct st as [users output].
  cbn [fst snd] in *. unfold user_details_step.
  set (entry := as_dict (Dict.get rid users)).
  set (name := match Dict.get "username" entry with
               | Some v => str_of v
               | None => ""
               end).
  set (r := user_details_from_rid W target creds rid name).
  set (entry0 := as_dict (Dict.get rid listing)).
  set (name0 := match Dict.get "username" entry0 with
                | Some v => str_of v
                | None => ""
                end).
  set (r0 := user_details_from_rid W target creds rid name0).
  set (x0 := if truthy (retval r0) then retval r0 else VStr "").
  assert (Hhas : Dict.get rid users <> None).
  { rewrite <- Hkeys in Hin. intros E. now apply DictFacts.get_None_not_in in E. }
  (* the entry is the one of the listing, with its details or not yet *)
  assert (Hentry : entry = entry0 \/ entry = Dict.set "details" x0 entry0).
  { unfold entry. destruct (Dict.get rid users) as [v|] eqn:E; [|congruence].
    destruct (Hval _ _ E) as [E0|Hd].
    - left. unfold entry0. now rewrite E0.
    - right. unfold detailed_entry in Hd. cbv zeta in Hd. fold entry0 name0 r0 x0 in Hd.
      now rewrite Hd. }
  assert (Hname : name = name0).
  { unfold name, name0. destruct Hentry as [->| ->]; [reflexivity|].
    now rewrite DictFacts.get_set_other by discriminate. }
  assert (Hr : r = r0) by (unfold r, r0; now rewrite Hname).
  assert (Hnew : detailed_entry W target creds listing rid
                   (VDict (Dict.set "details" x0 entry))).
  { unfold detailed_entry. cbv zeta. fold entry0 name0 r0 x0.
    destruct Hentry as [->| ->]; [reflexivity|]. now rewrite set_set_same. }
  assert (Hgoal : forall out,
             Dict.get "users" out = None ->
             details_inv listing (rid :: seen)
               (Dict.set rid (VDict (Dict.set "details" x0 entry)) users, out)).
  { intros out Ho. unfold details_inv. cbn [fst snd].
    split; [|split; [|split]].
    - now rewrite DictFacts.keys_set_in.
    - intros rid' v. rewrite DictFacts.get_set.
      destruct (String.eqb rid rid') eqn:E.
      + apply String.eqb_eq in E. subst rid'. intros [= <-]. right. exact Hnew.
      + apply Hval.
    - intros rid' Hin'. rewrite DictFacts.get_set.
      destruct (String.eqb rid rid') eqn:E.
      + apply String.eqb_eq in E. subst rid'. eexists. split; [reflexivity|]. exact Hnew.
      + destruct Hin' as [->|Hin']; [now rewrite String.eqb_refl in E|]. now apply Hseen.
    - exact Ho. }
  rewrite Hr. unfold x0 in Hgoal.
  destruct (truthy (retval r0)) eqn:Et.
  - now apply Hgoal.
  - apply Hgoal. now rewrite get_process_error by discriminate.
Qed.

Lemma details_inv_fold (listing : dict) (l seen : list string) (st : dict * dict) :
  (forall rid, In rid l -> In rid (Dict.keys listing)) ->
  details_inv listing seen st ->
  details_inv listing (rev l ++ seen)
    (fold_left (user_details_step W target creds module_name) l st).
Proof.
  revert seen st. induction l as [|rid l IH]; intros seen st Hl Hst; cbn [fold_left rev app];
    [assumption|].
  rewrite <- app_assoc. cbn [app]. apply IH; [intros; apply Hl; now right|].
  apply details_inv_step; [apply Hl; now left | assumption].
Qed.

End UserDetails.

Section UsersDetailed.

Variable W : World.

(** [EnumUsersRpc.run] with details ([-d]) against the run without: when
    the merged listing is not empty the detailed run has the same RIDs in
    the same order, and each entry is the entry of the listing with one
    more field, [details]: what [get_details_from_rid] returned for the RID
    and the user name of the entry when that is a true value, the empty
    string when it is not; when the listing is empty or [None] the two runs
    give the same [users]. *)
Theorem detailed_users_keep_their_rids (target : Target) (creds : Credentials) :
  exists users,
    Dict.get "users" (EnumUsersRpc_run W target creds false) = Some users
    /\ if truthy users then
         exists d,
           Dict.get "users" (EnumUsersRpc_run W target creds true) = Some (VDict d)
           /\ Dict.keys d = Dict.keys (as_dict (Some users))
           /\ forall rid, In rid (Dict.keys d) ->
                          exists v, Dict.get rid d = Some v
                                    /\ detailed_entry W target creds
                                         (as_dict (Some users)) rid v
       else Dict.get "users" (EnumUsersRpc_run W target creds true) = Some users.
Proof.
  assert (Htail : forall (users : value) (o2 : dict),
             Dict.get "users" o2 = None ->
             Dict.get "users" (Dict.set "users" users o2) = Some users
             /\ if truthy users then
                  exists d,
                    Dict.get "users"
                      (let '(users', output) :=
                         let '(d, output) :=
                           fold_left (user_details_step W target creds "enum_users_rpc")
                                     (Dict.keys (as_dict (Some users)))
                                     (as_dict (Some users), o2) in
                         (VDict d, output) in
                       Dict.set "users" users' output) = Some (VDict d)
                    /\ Dict.keys d = Dict.keys (as_dict (Some users))
                    /\ forall rid, In rid (Dict.keys d) ->
                                   exists v, Dict.get rid d = Some v
                                             /\ detailed_entry W target creds
                                                  (as_dict (Some users)) rid v
                else True).
  { intros users o2 Ho2. split; [apply DictFacts.get_set_same|].
    destruct (truthy users); [|exact I].
    pose proof (details_inv_fold W target creds "enum_users_rpc" (as_dict (Some users))
                  (Dict.keys (as_dict (Some users))) [] (as_dict (Some users), o2)) as H.
    destruct (fold_left _ _ _) as [d o3].
    destruct H as (Hkeys & _ & Hseen & _); [auto | |].
    { cbn [fst snd]. repeat split; auto. intros rid []. }
    cbn [fst snd] in *. exists d. split; [apply DictFacts.get_set_same|].
    split; [exact Hkeys|]. intros rid Hin. apply Hseen.
    rewrite app_nil_r. apply in_rev. rewrite rev_involutive. now rewrite <- Hkeys. }
  unfold EnumUsersRpc_run.
  destruct (is_none (retval (enum_from_querydispinfo W target creds)));
    destruct (is_none (retval (enum_from_enumdomusers W target creds)));
    cbv iota beta zeta; rewrite andb_false_r, andb_true_r; cbv iota;
    match goal with
    | |- context [Dict.set "users" (merge_users ?q ?e) ?o] =>
        destruct (Htail (merge_users q e) o) as [H1 H2];
          [repeat rewrite get_process_error by discriminate; reflexivity|];
          exists (merge_users q e)
    end;
    (split; [exact H1|]);
    destruct (truthy (merge_users _ _)); cbv iota; assumption.
Qed.

End UsersDetailed.

(** ** The long domain name *)

Lemma exec_lit_list {R} (l s : list ascii) c (k : list ascii -> Re.captures -> option R) :
  Re.exec (Re.lit_list l) (l ++ s) c k = k s c.
Proof.
  induction l as [|x l IH]; [reflexivity|].
  cbn [Re.lit_list]. destruct l as [|y l'].
  - cbn [app]. unfold Re.chr. rewrite ReFacts.exec_Cls. now rewrite Ascii.eqb_refl.
  - rewrite ReFacts.exec_Seq. cbn [app]. unfold Re.chr at 1. rewrite ReFacts.exec_Cls.
    rewrite Ascii.eqb_refl. exact IH.
Qed.

Lemma commas_app (a b : list ascii) : commas (a ++ b) = commas a + commas b.
Proof. apply count_occ_app. Qed.

Lemma commas_none (m : list ascii) :
  forallb (fun c => negb (Ascii.eqb c ",")) m = true -> commas m = 0.
Proof.
  unfold commas. induction m as [|x m IH]; [reflexivity|]. cbn [forallb count_occ].
  intros H. apply andb_true_iff in H. destruct H as [Hx Hm].
  apply negb_true_iff, Ascii.eqb_neq in Hx.
  destruct (ascii_dec x ","); [congruence | auto].
Qed.

(** The pattern of the long domain takes one comma, no more. *)
Lemma long_domain_one_comma (s : list ascii) (f : Re.found) :
  Re.match_here re_long_domain s = Some f -> commas s = 1.
Proof.
  intros H. apply ReFacts.match_here_sound in H. destruct H as [H _].
  unfold re_long_domain in H. cbn [Re.seqs] in H.
  apply ReFacts.matches_Seq in H. destruct H as (s1 & c1 & Hg & He).
  apply ReFacts.matches_Eol in He. destruct He as (_ & _ & Hend).
  apply ReFacts.matches_Group in Hg. destruct Hg as (c1' & Hg & _).
  apply ReFacts.matches_Seq in Hg. destruct Hg as (s2 & c2 & Hl1 & Hg).
  apply ReFacts.matches_lit_list in Hl1. destruct Hl1 as [_ ->].
  apply ReFacts.matches_Seq in Hg. destruct Hg as (s3 & c3 & Hp1 & Hg).
  apply ReFacts.matches_plus_Cls in Hp1. destruct Hp1 as (_ & m1 & -> & _ & Hm1).
  apply ReFacts.matches_Seq in Hg. destruct Hg as (s4 & c4 & Hl2 & Hp2).
  apply ReFacts.matches_lit_list in Hl2. destruct Hl2 as [_ ->].
  apply ReFacts.matches_plus_Cls in Hp2. destruct Hp2 as (_ & m2 & -> & _ & Hm2).
  rewrite !commas_app, (commas_none m1 Hm1), (commas_none m2 Hm2).
  destruct Hend as [->| ->]; reflexivity.
Qed.

(** The pattern on two components and nothing else. *)
Lemma long_domain_two_components (b c : list ascii) :
  b <> [] -> c <> [] ->
  forallb (fun x => negb (Ascii.eqb x ",")) b = true ->
  forallb (fun x => negb (Ascii.eqb x ",")) c = true ->
  let s := (list_ascii_of_string "DC=" ++ b ++ list_ascii_of_string ",DC=" ++ c)%list in
  Re.match_here re_long_domain s = Some (Re.mkFound s [(1, s)] []).
Proof.
  intros Hb Hc Hbn Hcn s.
  destruct b as [|b0 b]; [congruence|]. destruct c as [|c0 c]; [congruence|].
  cbn [forallb] in Hbn, Hcn.
  apply andb_true_iff in Hbn. destruct Hbn as [Hb0 Hbn].
  apply andb_true_iff in Hcn. destruct Hcn as [Hc0 Hcn].
  unfold Re.match_here, re_long_domain. cbn [Re.seqs]. unfold Re.lit.
  rewrite ReFacts.exec_Seq, ReFacts.exec_Group, ReFacts.exec_Seq.
  unfold s at 1. rewrite exec_lit_list.
  unfold Re.plus, Re.not_chr.
  rewrite !ReFacts.exec_Seq. cbn [app]. rewrite ReFacts.exec_Cls, Hb0.
  erewrite ReFacts.exec_Star_Cls_greedy; [reflexivity | exact Hbn | | reflexivity].
  rewrite ReFacts.exec_Seq, exec_lit_list, ReFacts.exec_Seq, ReFacts.exec_Cls, Hc0.
  rewrite <- (app_nil_r c).
  erewrite ReFacts.exec_Star_Cls_greedy; [reflexivity | exact Hcn | | exact I].
  cbn [Re.exec]. rewrite Nat.sub_0_r, firstn_all. reflexivity.
Qed.

(** [re.search] goes past a prefix none of whose positions gives a match. *)
Lemma search_list_skip (r : Re.regex) (p s : list ascii) :
  (forall p1 p2, p = (p1 ++ p2)%list -> p2 <> [] -> Re.match_here r (p2 ++ s) = None) ->
  Re.search_list r (p ++ s) = Re.search_list r s.
Proof.
  induction p as [|x p IH]; intros H; [reflexivity|].
  cbn [app Re.search_list].
  pose proof (H [] (x :: p) eq_refl ltac:(discriminate)) as H0.
  cbn [app] in H0. rewrite H0.
  apply IH. intros p1 p2 -> Hp2. now apply (H (x :: p1) p2).
Qed.

Lemma search_list_here (r : Re.regex) (s : list ascii) (f : Re.found) :
  Re.match_here r s = Some f -> Re.search_list r s = Some f.
Proof. intros H. destruct s; cbn [Re.search_list]; now rewrite H. Qed.

Lemma prefix_DC (s : string) :
  String.prefix "DC=" s = true -> exists t, s = "DC=" ++ t.
Proof.
  destruct s as [|x [|y [|z t]]]; cbn [String.prefix]; try discriminate;
    repeat match goal with
           | |- context [ascii_dec ?a ?b] => destruct (ascii_dec a b); try discriminate
           end.
  intros _. subst. exists t. reflexivity.
Qed.

Lemma prefix_DC_true (rest : string) : String.prefix "DC=" ("DC=" ++ rest) = true.
Proof. destruct rest; reflexivity. Qed.

Lemma replace_from_here (old new : string) (c : ascii) (s : string) :
  PyStr2.replace_from old new 0 (String c s)
  = if String.prefix old (String c s)
    then new ++ PyStr2.replace_from old new (String.length old - 1) s
    else String c (PyStr2.replace_from old new 0 s).
Proof. reflexivity. Qed.

(** [replace("DC=", "")] drops the "DC=" a text starts with. *)
Lemma replace_DC_head (rest : string) :
  PyStr2.replace_from "DC=" "" 0 ("DC=" ++ rest) = PyStr2.replace_from "DC=" "" 0 rest.
Proof.
  change ("DC=" ++ rest) with (String "D" ("C=" ++ rest)).
  rewrite replace_from_here.
  change (String "D" ("C=" ++ rest)) with ("DC=" ++ rest).
  rewrite prefix_DC_true. reflexivity.
Qed.

(** [replace("DC=", "")] leaves a component as it is. *)
Lemma replace_DC_label (b rest : string) :
  over (fun c => negb (Ascii.eqb c ",") && negb (Ascii.eqb c "=")) b = true ->
  rest = "" \/ (exists t, rest = String "," (String "D" t)) ->
  PyStr2.replace_from "DC=" "" 0 (b ++ rest) = b ++ PyStr2.replace_from "DC=" "" 0 rest.
Proof.
  intros Hb Hrest. unfold over in Hb.
  induction b as [|x b IH]; [reflexivity|].
  cbn [list_ascii_of_string forallb] in Hb. apply andb_true_iff in Hb.
  destruct Hb as [Hx Hb]. cbn [append].
  assert (Hp : String.prefix "DC=" (String x (b ++ rest)) = false).
  { destruct (String.prefix "DC=" (String x (b ++ rest))) eqn:E; [|reflexivity].
    exfalso. apply prefix_DC in E. destruct E as [t E]. cbn [append] in E.
    injection E as -> E.
    destruct b as [|y b]; cbn [append] in E.
    - destruct Hrest as [->|[t' ->]]; discriminate.
    - injection E as -> E. cbn [list_ascii_of_string forallb] in Hb.
      apply andb_true_iff in Hb. destruct Hb as [_ Hb].
      destruct b as [|z b]; cbn [append] in E.
      + destruct Hrest as [->|[t' ->]]; discriminate.
      + injection E as -> _. cbn [list_ascii_of_string forallb] in Hb. discriminate. }
  cbn [PyStr2.replace_from]. rewrite Hp. now rewrite (IH Hb).
Qed.

Lemma append_assoc' (a b c : string) : (a ++ b) ++ c = a ++ (b ++ c).
Proof. induction a as [|x a IH]; cbn [append]; [reflexivity | now rewrite IH]. Qed.

Lemma replace_char_app (old : ascii) (new a b : string) :
  PyStr.replace_char old new (a ++ b)
  = PyStr.replace_char old new a ++ PyStr.replace_char old new b.
Proof.
  induction a as [|x a IH]; [reflexivity|]. cbn [append PyStr.replace_char].
  destruct (Ascii.eqb x old); rewrite IH; [|reflexivity].
  now rewrite append_assoc'.
Qed.

Lemma replace_char_none (old : ascii) (new a : string) :
  over (fun c => negb (Ascii.eqb c old)) a = true -> PyStr.replace_char old new a = a.
Proof.
  unfold over. induction a as [|x a IH]; [reflexivity|].
  cbn [list_ascii_of_string forallb PyStr.replace_char]. intros H.
  apply andb_true_iff in H. destruct H as [Hx Ha]. apply negb_true_iff in Hx.
  now rewrite Hx, (IH Ha).
Qed.

Lemma string_of_list_of (s : string) : string_of_list_ascii (list_ascii_of_string s) = s.
Proof. apply string_of_list_ascii_of_string. Qed.

Lemma label_no_comma (l : string) :
  over (fun c => negb (Ascii.eqb c ",") && negb (Ascii.eqb c "=")) l = true ->
  over (fun c => negb (Ascii.eqb c ",")) l = true.
Proof.
  apply over_impl. intros c H. now apply andb_true_iff in H.
Qed.

(** [get_long_domain] on a naming context that ends with two components
    "DC=b,DC=c" (whatever components stand before them): the long domain is
    [b.c], made of the last two components only; the contexts after this
    one are not looked at. *)
Theorem long_domain_is_the_last_two_components
    (before b c : string) (others : list value) :
  before = "" \/ (exists q, before = q ++ ",") ->
  dn_label b -> dn_label c ->
  get_long_domain (VStr (before ++ "DC=" ++ b ++ ",DC=" ++ c) :: others)
  = mkResult (VStr (b ++ "." ++ c)) ("Long domain name is: " ++ b ++ "." ++ c).
Proof.
  intros Hbefore [Hbne Hb] [Hcne Hc].
  set (B := list_ascii_of_string b). set (C := list_ascii_of_string c).
  set (target := (list_ascii_of_string "DC=" ++ B ++ list_ascii_of_string ",DC=" ++ C)%list).
  assert (Htarget : Re.match_here re_long_domain target
                    = Some (Re.mkFound target [(1, target)] [])).
  { apply long_domain_two_components.
    - unfold B. destruct b; [congruence | discriminate].
    - unfold C. destruct c; [congruence | discriminate].
    - apply (label_no_comma b Hb).
    - apply (label_no_comma c Hc). }
  assert (Hsearch : Re.search re_long_domain (before ++ "DC=" ++ b ++ ",DC=" ++ c)
                    = Some (Re.mkFound target [(1, target)] [])).
  { unfold Re.search. rewrite !list_of_append. fold B C target.
    rewrite search_list_skip; [now apply search_list_here|].
    intros p1 p2 Hsplit Hp2.
    destruct (Re.match_here re_long_domain (p2 ++ target)) as [f|] eqn:E; [|reflexivity].
    exfalso. apply long_domain_one_comma in E.
    pose proof (long_domain_one_comma _ _ Htarget) as Et.
    rewrite commas_app, Et in E.
    destruct Hbefore as [->|[q ->]].
    - destruct p1, p2; try discriminate. congruence.
    - destruct (exists_last Hp2) as (p2' & z & ->).
      rewrite list_of_append in Hsplit. cbn [list_ascii_of_string] in Hsplit.
      rewrite app_assoc in Hsplit. apply app_inj_tail in Hsplit.
      destruct Hsplit as [_ <-]. rewrite commas_app in E. cbn in E. lia. }
  unfold get_long_domain. cbn [first_long_domain str_of]. rewrite Hsearch.
  assert (Hgroup : Re.group_str 1 (Re.mkFound target [(1, target)] [])
                   = "DC=" ++ b ++ ",DC=" ++ c).
  { unfold Re.group_str. cbn [Re.groups Re.group Nat.eqb]. unfold target, B, C.
    now rewrite !string_of_app, !string_of_list_of. }
  rewrite Hgroup. unfold PyStr2.replace.
  assert (Hrep : PyStr2.replace_from "DC=" "" 0 ("DC=" ++ b ++ ",DC=" ++ c)
                 = b ++ "," ++ c).
  { rewrite replace_DC_head.
    rewrite replace_DC_label by (auto; right; eexists; reflexivity).
    f_equal.
    change (PyStr2.replace_from "DC=" "" 0 (",DC=" ++ c))
      with (String "," (PyStr2.replace_from "DC=" "" 0 ("DC=" ++ c))).
    rewrite replace_DC_head. cbn [append]. f_equal.
    pose proof (replace_DC_label c "" Hc (or_introl eq_refl)) as Hc'.
    cbn [PyStr2.replace_from] in Hc'. rewrite !append_empty in Hc'. exact Hc'. }
  rewrite Hrep.
  assert (Hdots : PyStr.replace_char "," "." (b ++ "," ++ c) = b ++ "." ++ c).
  { rewrite !replace_char_app.
    rewrite (replace_char_none "," "." b) by now apply label_no_comma.
    rewrite (replace_char_none "," "." c) by now apply label_no_comma.
    reflexivity. }
  rewrite Hdots.
  destruct b as [|x b]; [congruence|]. reflexivity.
Qed.

Lemma long_domain_is_the_last_two_components_witness :
  get_long_domain
    [VStr ("DC=emea,DC=corp," ++ "DC=" ++ "example" ++ ",DC=" ++ "com");
     VStr "CN=Configuration,DC=example,DC=com"]
  = mkResult (VStr ("example" ++ "." ++ "com"))
             ("Long domain name is: " ++ "example" ++ "." ++ "com").
Proof.
  apply (long_domain_is_the_last_two_components "DC=emea,DC=corp," "example" "com"
           [VStr "CN=Configuration,DC=example,DC=com"]).
  - right. exists "DC=emea,DC=corp". reflexivity.
  - split; [discriminate | reflexivity].
  - split; [discriminate | reflexivity].
Defined.

(** ** The listing of enumdomusers *)

Lemma search_list_sound (r : Re.regex) (s : list ascii) (f : Re.found) :
  Re.search_list r s = Some f ->
  exists p s', s = (p ++ s')%list /\ Re.match_here r s' = Some f.
Proof.
  induction s as [|x s IH]; cbn [Re.search_list].
  - destruct (Re.match_here r []) eqn:E; [|discriminate].
    intros [= <-]. exists [], []. auto.
  - destruct (Re.match_here r (x :: s)) eqn:E.
    + intros [= <-]. exists [], (x :: s). auto.
    + intros H. destruct (IH H) as (p & s' & -> & Hm). exists (x :: p), s'. auto.
Qed.

Lemma firstn_app_exact {A} (a b : list A) :
  firstn (length (a ++ b) - length b) (a ++ b) = a.
Proof.
  rewrite length_app, Nat.add_sub. rewrite firstn_app, Nat.sub_diag, firstn_all.
  cbn [firstn]. apply app_nil_r.
Qed.

(** What "0x[A-F-a-f0-9]+" takes. *)
Lemma matches_hex_rid s c s' c' :
  re_matches re_hex_rid s c s' c' ->
  c' = c /\ exists m, s = ("0"%char :: "x"%char :: m ++ s')%list
                      /\ m <> [] /\ forallb rid_hex_char m = true.
Proof.
  unfold re_hex_rid. intros H.
  apply ReFacts.matches_Seq in H. destruct H as (s1 & c1 & Hl & Hp).
  apply ReFacts.matches_lit_list in Hl. destruct Hl as [-> ->].
  apply ReFacts.matches_plus_Cls in Hp. destruct Hp as (-> & m & -> & Hm & Hall).
  split; [reflexivity|]. exists m. auto.
Qed.

(** The second group of a line of the listing. *)
Lemma enumdomusers_group_2 (s : list ascii) (f : Re.found) :
  Re.match_here re_enumdomusers s = Some f ->
  exists m, Re.group 2 (Re.groups f) = Some ("0"%char :: "x"%char :: m)%list
            /\ m <> [] /\ forallb rid_hex_char m = true.
Proof.
  intros H. apply ReFacts.match_here_sound in H. destruct H as [H _].
  unfold re_enumdomusers in H. cbn [Re.seqs] in H.
  apply ReFacts.matches_Seq in H. destruct H as (s1 & c1 & _ & H).
  apply ReFacts.matches_Seq in H. destruct H as (s2 & c2 & _ & H).
  apply ReFacts.matches_Seq in H. destruct H as (s3 & c3 & _ & H).
  apply ReFacts.matches_Seq in H. destruct H as (s4 & c4 & _ & H).
  apply ReFacts.matches_Seq in H. destruct H as (s5 & c5 & _ & H).
  apply ReFacts.matches_Seq in H. destruct H as (s6 & c6 & Hg & Hc).
  apply ReFacts.matches_Cls in Hc. destruct Hc as (x & -> & _ & Hc).
  apply ReFacts.matches_Group in Hg. destruct Hg as (c7 & Hg & ->).
  apply matches_hex_rid in Hg. destruct Hg as (_ & m & -> & Hm & Hall).
  exists m. rewrite Hc. cbn [Re.group Nat.eqb]. split; [|auto].
  f_equal.
  change ("0"%char :: "x"%char :: m ++ x :: Re.rest f)%list
    with (("0"%char :: "x"%char :: m) ++ x :: Re.rest f)%list.
  apply firstn_app_exact.
Qed.

(** The digits of a literal make a number that is not negative. *)
Lemma digits_nonneg (l : list ascii) :
  forall acc after_digit n,
    (0 <= acc)%Z -> PyInt.digits 16 acc after_digit l = Some n -> (0 <= n)%Z.
Proof.
  induction l as [|c l IH]; intros acc after_digit n Hacc; cbn [PyInt.digits].
  - destruct after_digit; [intros [= <-]; assumption | discriminate].
  - destruct (Ascii.eqb c "_").
    + destruct after_digit; [apply IH; assumption | discriminate].
    + destruct (PyInt.digit_value c) as [d|] eqn:Ed; [|discriminate].
      destruct (d <? 16)%Z; [|discriminate]. apply IH.
      assert (0 <= d)%Z; [|lia].
      unfold PyInt.digit_value in Ed.
      repeat match type of Ed with
             | (if ?b then _ else _) = _ => destruct b eqn:?
             end; try discriminate; injection Ed as <-;
        repeat match goal with
               | H : (_ && _)%bool = true |- _ =>
                   apply andb_true_iff in H; destruct H as [H ?]
               | H : (_ <=? _)%nat = true |- _ => apply Nat.leb_le in H
               end; lia.
Qed.

Lemma lstrip_keeps_last (a : list ascii) (z : ascii) :
  PyInt.isspace z = false -> exists a', PyInt.lstrip (a ++ [z]) = (a' ++ [z])%list.
Proof.
  intros Hz. induction a as [|x a IH]; cbn [app PyInt.lstrip].
  - rewrite Hz. now exists [].
  - destruct (PyInt.isspace x); [exact IH | now exists (x :: a)].
Qed.

(** [int(s, 16)] of a text that starts with the digit 0 is not negative. *)
Lemma int16_nonneg (s : string) (rest : list ascii) (n : Z) :
  list_ascii_of_string s = ("0"%char :: rest)%list ->
  PyInt.int16 s = Ret n -> (0 <= n)%Z.
Proof.
  intros Hs. unfold PyInt.int16. rewrite Hs.
  assert (Hstrip : exists rest', PyInt.strip ("0"%char :: rest) = ("0"%char :: rest')%list).
  { unfold PyInt.strip. cbn [PyInt.lstrip]. change (PyInt.isspace "0") with false.
    cbn [rev]. destruct (lstrip_keeps_last (rev rest) "0" eq_refl) as [a' ->].
    rewrite rev_app_distr. cbn [rev app]. eauto. }
  destruct Hstrip as [rest' ->]. cbv beta iota zeta.
  match goal with
  | |- context [PyInt.digits 16 0 false ?l] =>
      destruct (PyInt.digits 16 0 false l) as [d|] eqn:Ed; [|discriminate]
  end.
  intros [= <-]. apply digits_nonneg in Ed; [destruct d; lia | lia].
Qed.

(** [str(n)] for a number that is not negative is made of decimal digits. *)
Lemma digits_over (fuel : nat) (n : Z) (acc : string) :
  over Re.is_digit acc = true -> over Re.is_digit (PyNum.digits fuel 10 n acc) = true.
Proof.
  revert n acc. induction fuel as [|fuel IH]; intros n acc Hacc; cbn [PyNum.digits];
    [assumption|].
  assert (H : over Re.is_digit (String (PyNum.digit_char (n mod 10)) acc) = true).
  { unfold over in *. cbn [list_ascii_of_string forallb]. rewrite Hacc, andb_true_r.
    apply digit_char_is_digit. apply Z.mod_pos_bound. lia. }
  destruct (n / 10 =? 0)%Z; [exact H | now apply IH].
Qed.

Lemma is_digit_isdigit_char (c : ascii) :
  Re.is_digit c = true -> PyText.isdigit_char c = true.
Proof. each_char c. Qed.

Lemma str_isdigit (n : Z) : (0 <= n)%Z -> PyText.isdigit (PyNum.str n) = true.
Proof.
  intros Hn. unfold PyNum.str. destruct (n <? 0)%Z eqn:E; [lia|].
  unfold PyNum.magnitude, PyText.isdigit.
  destruct (digits_head (Z.to_nat (Z.log2 (Z.abs n))) (Z.abs n) "") as (c & rest & Hd & _).
  pose proof (digits_over (S (Z.to_nat (Z.log2 (Z.abs n)))) (Z.abs n) "" eq_refl) as Ho.
  rewrite Hd in *. cbn [PyStr.truthy andb].
  fold (over PyText.isdigit_char (String c rest)).
  eapply over_impl; [apply is_digit_isdigit_char | exact Ho].
Qed.

Lemma str_ret (n : Z) (s : string) : PyInt.str n = Ret s -> s = PyNum.str n.
Proof.
  unfold PyInt.str. destruct (_ <? _)%nat; [discriminate|]. now intros [= <-].
Qed.

Lemma decimal_listing_set (users : dict) (n : Z) (name : string) :
  (0 <= n)%Z -> decimal_listing users ->
  decimal_listing (Dict.set (PyNum.str n) (VDict [("username", VStr name)]) users).
Proof.
  intros Hn [Hnd Hall]. split; [now apply DictFacts.NoDup_keys_set|].
  intros rid v. rewrite DictFacts.get_set.
  destruct (String.eqb (PyNum.str n) rid) eqn:E; [|apply Hall].
  apply String.eqb_eq in E. subst rid. intros [= <-]. split; [|eauto].
  cbn [valid_rid]. now rewrite str_isdigit.
Qed.

Lemma enumdomusers_lines_decimal (lines : list string) :
  forall users users',
    decimal_listing users ->
    enumdomusers_lines lines users = Ret (Some users') -> decimal_listing users'.
Proof.
  induction lines as [|line lines IH]; intros users users' Hu; cbn [enumdomusers_lines].
  - now intros [= <-].
  - destruct (Re.search re_enumdomusers line) as [f|] eqn:Es; [|discriminate].
    destruct (PyInt.int16 (Re.group_str 2 f)) as [n|e] eqn:Ei; [|discriminate].
    destruct (PyInt.str n) as [rid|e] eqn:Er; [|discriminate].
    apply str_ret in Er. subst rid.
    apply IH. apply decimal_listing_set; [|exact Hu].
    apply search_list_sound in Es. destruct Es as (p & s' & _ & Hm).
    apply enumdomusers_group_2 in Hm. destruct Hm as (m & Hg & _).
    eapply int16_nonneg; [|exact Ei].
    unfold Re.group_str. rewrite Hg. apply list_ascii_of_string_of_list_ascii.
Qed.

Section EnumdomusersListing.

Variable W : World.

(** Whatever [rpcclient] printed, when [enum_from_enumdomusers] returns a
    listing of users its RIDs are decimal numbers: no RID twice, each one
    accepted by [valid_rid] (so [get_details_from_rid] does not refuse it),
    each entry made of a user name. *)
Theorem enumdomusers_rids_are_decimal (target : Target) (creds : Credentials)
    (r : Result) (users : dict) :
  EnumUsersRpc_enum_from_enumdomusers W target creds = Ret r ->
  retval r = VDict users ->
  decimal_listing users.
Proof.
  unfold EnumUsersRpc_enum_from_enumdomusers.
  destruct (is_none (retval (enumdomusers W target creds))) eqn:En.
  - intros [= <-] Hr. rewrite Hr in En. discriminate.
  - unfold users_of_enumdomusers.
    destruct (enumdomusers_lines _ []) as [[users'|]|e] eqn:El; try discriminate.
    + intros [= <-] [= <-].
      eapply enumdomusers_lines_decimal; [|exact El].
      split; [constructor | intros rid v; discriminate].
    + intros [= <-]. discriminate.
Qed.

End EnumdomusersListing.

Lemma enumdomusers_rids_are_decimal_witness :
  decimal_listing
    [("500", VDict [("username", VStr "Administrator")]);
     ("1001", VDict [("username", VStr "tester")])].
Proof.
  apply (enumdomusers_rids_are_decimal
           (with_commands
              (answer [("enumdomusers",
                        "user:[Administrator] rid:[0x1f4]" ++ PyStr.nl
                          ++ "user:[tester] rid:[0x3e9]")])
              silent_world)
           sample_target sample_creds
           (mkResult (VDict [("500", VDict [("username", VStr "Administrator")]);
                             ("1001", VDict [("username", VStr "tester")])])
                     "Found 2 users via 'enumdomusers'")).
  - vm_compute. reflexivity.
  - reflexivity.
Defined.

(** ** The flags of a user's account *)

Lemma get_plain {A B} (f : A -> B) (k : string) (d : list (string * A)) :
  Dict.get k (map (fun kv => (fst kv, f (snd kv))) d) = option_map f (Dict.get k d).
Proof.
  induction d as [|[k' v] d IH]; cbn [map Dict.get fst snd option_map]; [reflexivity|].
  destruct (String.eqb k' k); [reflexivity | exact IH].
Qed.

Lemma flags_get_other (n : Z) (flags : list (Z * string)) (k : string) :
  forall d, ~ In k (map snd flags) ->
    Dict.get k
      (fold_left (fun d flag => Dict.set (snd flag) (VBool (negb (Z.land n (fst flag) =? 0)%Z)) d)
                 flags d)
    = Dict.get k d.
Proof.
  induction flags as [|[mask name] flags IH]; intros d Hk; cbn [fold_left fst snd];
    [reflexivity|].
  rewrite IH by (intros H; apply Hk; now right).
  apply DictFacts.get_set_other. intros ->. apply Hk. now left.
Qed.

Lemma flags_get (n : Z) (flags : list (Z * string)) :
  NoDup (map snd flags) ->
  forall d mask name, In (mask, name) flags ->
    Dict.get name
      (fold_left (fun d flag => Dict.set (snd flag) (VBool (negb (Z.land n (fst flag) =? 0)%Z)) d)
                 flags d)
    = Some (VBool (negb (Z.land n mask =? 0)%Z)).
Proof.
  induction flags as [|[mask' name'] flags IH]; intros Hnd d mask name Hin; [destruct Hin|].
  cbn [map snd] in Hnd. inversion Hnd as [|? ? Hout Hnd']; subst.
  cbn [fold_left fst snd]. destruct Hin as [[= -> ->]|Hin].
  - rewrite flags_get_other by exact Hout. apply DictFacts.get_set_same.
  - now apply IH.
Qed.

Lemma CONST_ACB_DICT_names : NoDup (map snd CONST_ACB_DICT) /\ ~ In "acb_info" (map snd CONST_ACB_DICT).
Proof.
  split.
  - cbn [CONST_ACB_DICT map snd].
    repeat (constructor; [cbn [In]; intuition discriminate|]). constructor.
  - cbn [CONST_ACB_DICT map snd In]. intuition discriminate.
Qed.

Section UserDetails.

Variable W : World.

(** When [get_details_from_rid] returns details with an [acb_info] that
    [valid_hex] accepts, that text is a number [int(.., 16)] reads, and each
    of the eight names of [CONST_ACB_DICT] is there with a boolean that
    tells whether the bits of its mask are set in the number (also when a
    line of the output had the same name). *)
Theorem get_details_from_rid_flags (target : Target) (creds : Credentials)
    (rid name : string) (r : Result) (d : dict) (acb_info : string) :
  EnumUsersRpc_get_details_from_rid W target creds rid name = Ret r ->
  retval r = VDict d ->
  Dict.get "acb_info" d = Some (VStr acb_info) ->
  valid_hex acb_info = true ->
  exists n, PyInt.int16 acb_info = Ret n
            /\ forall mask flag, In (mask, flag) CONST_ACB_DICT ->
                 Dict.get flag d = Some (VBool (negb (Z.land n mask =? 0)%Z)).
Proof.
  unfold EnumUsersRpc_get_details_from_rid.
  destruct (negb (PyText.isdigit rid)); [intros [= <-]; discriminate|].
  cbv zeta. destruct (Re.search re_user_info _) as [m|];
    [|intros [= <-]; discriminate].
  match goal with
  | |- context [acb_flags ?x] => set (details := x)
  end.
  unfold acb_flags. cbv zeta.
  generalize CONST_ACB_DICT_names. generalize CONST_ACB_DICT as flags.
  intros flags [Hnd Hout].
  destruct (Dict.get "acb_info" details) as [acb|] eqn:Eg.
  - destruct (valid_hex acb) eqn:Ev.
    + destruct (valid_hex_reads acb Ev) as (n & Hn & _). rewrite Hn.
      intros [= <-]. cbn [retval]. intros [= <-] Hacb _.
      rewrite flags_get_other, get_plain, Eg in Hacb by exact Hout.
      injection Hacb as <-. exists n. split; [exact Hn|].
      intros mask flag Hin. now apply flags_get.
    + intros [= <-]. cbn [retval]. intros [= <-] Hacb Hv.
      rewrite get_plain, Eg in Hacb. injection Hacb as <-. congruence.
  - intros [= <-]. cbn [retval]. intros [= <-] Hacb _.
    rewrite get_plain, Eg in Hacb. discriminate.
Qed.

End UserDetails.

Lemma get_details_from_rid_flags_witness :
  exists n, PyInt.int16 "0x00000210" = Ret n
            /\ forall mask flag, In (mask, flag) CONST_ACB_DICT ->
                 Dict.get flag details_of_tester = Some (VBool (negb (Z.land n mask =? 0)%Z)).
Proof.
  apply (get_details_from_rid_flags details_world sample_target sample_creds "1001" "tester"
           (mkResult (VDict details_of_tester) "Found details for user 'tester' (RID 1001)")).
  - vm_compute. reflexivity.
  - reflexivity.
  - reflexivity.
  - reflexivity.
Defined.

(** ** Reading a listing of enumdomusers back *)






















Section ReadingAListing.

Variable W : World.


End ReadingAListing.


(** ** The workgroup in the NetBIOS names *)

Lemma search_lines_list_sound (r : Re.regex) (s : list ascii) :
  forall line_start f,
    search_lines_list r line_start s = Some f ->
    exists p s', s = (p ++ s')%list /\ Re.match_here r s' = Some f.
Proof.
  induction s as [|x s IH]; intros line_start f; cbn [search_lines_list].
  - destruct line_start; [|discriminate].
    destruct (Re.match_here r []) eqn:E; [|discriminate].
    intros [= <-]. exists [], []. auto.
  - destruct (if line_start then Re.match_here r (x :: s) else None) eqn:E.
    + intros [= <-]. destruct line_start; [|discriminate]. exists [], (x :: s). auto.
    + intros H. destruct (IH _ _ H) as (p & s' & -> & Hm). exists (x :: p), s'. auto.
Qed.

(** The first group of a match of the pattern of [get_workgroup]. *)
Lemma netbios_group_1 (s : list ascii) (f : Re.found) :
  Re.match_here re_netbios_workgroup s = Some f ->
  exists g, Re.group 1 (Re.groups f) = Some g /\ g <> []
            /\ forallb (fun c => negb (PyText.isspace c)) g = true.
Proof.
  intros H. apply ReFacts.match_here_sound in H. destruct H as [H _].
  unfold re_netbios_workgroup in H. cbn [Re.seqs] in H.
  apply ReFacts.matches_Seq in H. destruct H as (s1 & c1 & H1 & H).
  apply ReFacts.matches_plus_Cls in H1. destruct H1 as (-> & _).
  apply ReFacts.matches_Seq in H. destruct H as (s2 & c2 & Hg & H).
  apply ReFacts.matches_Group in Hg. destruct Hg as (c3 & Hg & ->).
  apply ReFacts.matches_plus_Cls in Hg. destruct Hg as (-> & g & -> & Hne & Hall).
  apply ReFacts.matches_Seq in H. destruct H as (s3 & c3 & H3 & H).
  apply ReFacts.matches_plus_Cls in H3. destruct H3 as (-> & _).
  apply ReFacts.matches_Seq in H. destruct H as (s4 & c4 & H4 & H).
  apply ReFacts.matches_lit_list in H4. destruct H4 as (-> & _).
  apply ReFacts.matches_Seq in H. destruct H as (s5 & c5 & H5 & H).
  apply ReFacts.matches_plus_Cls in H5. destruct H5 as (-> & _).
  apply ReFacts.matches_Seq in H. destruct H as (s6 & c6 & H6 & H).
  apply ReFacts.matches_Cls in H6. destruct H6 as (_ & _ & _ & ->).
  apply ReFacts.matches_Seq in H. destruct H as (s7 & c7 & H7 & H).
  apply ReFacts.matches_plus_Cls in H7. destruct H7 as (-> & _).
  apply ReFacts.matches_Seq in H. destruct H as (s8 & c8 & H8 & H).
  apply ReFacts.matches_lit_list in H8. destruct H8 as (-> & _).
  apply ReFacts.matches_plus_Cls in H. destruct H as (-> & _).
  exists g. cbn [Re.group Nat.eqb]. rewrite firstn_app_exact. auto.
Qed.

(** [get_workgroup] has three outcomes.  It finds no line of a group name
    and says so; or it returns a workgroup, which is then a name that is not
    empty, made of letters, digits, "_", "." and "-" only (no newline at its
    end, which [valid_workgroup] alone would let through); or the name found
    is not valid and it raises [UnboundLocalError]: the message about
    illegal characters is never returned. *)
Theorem get_workgroup_outcomes (nmblookup_result : string) :
  match EnumNetbios_get_workgroup nmblookup_result with
  | Ret r =>
      (retval r = VNone /\ retmsg r = "Could not find workgroup/domain")
      \/ exists workgroup,
           retval r = VStr workgroup
           /\ retmsg r = "Got domain/workgroup name: " ++ workgroup
           /\ workgroup <> "" /\ over workgroup_char workgroup = true
  | Raise e =>
      e = NameError "workgroup"
      /\ exists m, search_lines re_netbios_workgroup nmblookup_result = Some m
                   /\ valid_workgroup (Re.group_str 1 m) = false
  end.
Proof.
  unfold EnumNetbios_get_workgroup.
  destruct (search_lines re_netbios_workgroup nmblookup_result) as [m|] eqn:Es;
    [|left; split; reflexivity].
  destruct (valid_workgroup (Re.group_str 1 m)) eqn:Ev; [|split; eauto].
  right. exists (Re.group_str 1 m). cbn [retval retmsg]. split; [reflexivity|].
  split; [reflexivity|].
  unfold search_lines in Es. apply search_lines_list_sound in Es.
  destruct Es as (p & s' & _ & Hm). apply netbios_group_1 in Hm.
  destruct Hm as (g & Hg & Hne & Hall).
  unfold valid_workgroup in Ev. apply anchored_class in Ev; [|reflexivity].
  destruct Ev as (body & Hbody & Hover & Hcase).
  unfold Re.group_str in *. rewrite Hg in *.
  destruct Hcase as [E|E].
  - rewrite E. auto.
  - exfalso. apply (f_equal list_ascii_of_string) in E.
    rewrite list_ascii_of_string_of_list_ascii, list_of_append in E. subst g.
    rewrite forallb_app in Hall. apply andb_true_iff in Hall. destruct Hall as [_ Hall].
    discriminate.
Qed.

(** A NetBIOS name may have characters [valid_workgroup] refuses: the line
    of such a group makes [get_workgroup] raise. *)
Example get_workgroup_raises :
  EnumNetbios_get_workgroup
    ("Looking up status of 10.10.10.5" ++ PyStr.nl
       ++ String "009" "MY!GROUP        <00> - <GROUP> B <ACTIVE> ")
  = Raise (NameError "workgroup").
Proof. vm_compute. reflexivity. Qed.

(** ** The RIDs of the users module *)

Lemma keys_set_cases {A} (k k' : string) (v : A) (d : list (string * A)) :
  In k (Dict.keys (Dict.set k' v d)) -> k = k' \/ In k (Dict.keys d).
Proof.
  induction d as [|[k2 v2] d IH]; cbn [Dict.set Dict.keys map fst In].
  - intros [<-|[]]. now left.
  - destruct (String.eqb k2 k'); cbn [map fst In]; [tauto|].
    intros [<-|H]; [tauto|]. destruct (IH H); tauto.
Qed.

Lemma keys_update_cases {A} (k : string) (c : list (string * A)) :
  forall d, In k (Dict.keys (Dict.update d c)) -> In k (Dict.keys d) \/ In k (Dict.keys c).
Proof.
  unfold Dict.update. induction c as [|[k' v'] c IH]; intros d; cbn [fold_left fst snd].
  - tauto.
  - intros H. destruct (IH _ H) as [H'|H'].
    + apply keys_set_cases in H'. destruct H' as [->|H']; [right; now left | now left].
    + right. now right.
Qed.

Lemma rids_valid_set (users : dict) (n : Z) (v : value) :
  (0 <= n)%Z -> rids_valid users -> rids_valid (Dict.set (PyNum.str n) v users).
Proof.
  intros Hn Hu rid Hin. apply keys_set_cases in Hin. destruct Hin as [->|Hin]; [|now apply Hu].
  cbn [valid_rid]. now rewrite str_isdigit.
Qed.

(** The first group of a line of querydispinfo. *)
Lemma querydispinfo_group_1 (s : list ascii) (f : Re.found) :
  Re.match_here re_querydispinfo s = Some f ->
  exists m, Re.group 1 (Re.groups f) = Some ("0"%char :: "x"%char :: m)%list.
Proof.
  intros H. apply ReFacts.match_here_sound in H. destruct H as [H _].
  unfold re_querydispinfo in H. cbn [Re.seqs] in H.
  unfold re_space, Re.dot, Re.lit in H.
  do 6 (apply ReFacts.matches_Seq in H; destruct H as (? & ? & _ & H)).
  apply ReFacts.matches_Seq in H. destruct H as (s1 & c1 & Hg & H).
  apply ReFacts.matches_Group in Hg. destruct Hg as (c2 & Hg & ->).
  apply matches_hex_rid in Hg. destruct Hg as (_ & m & -> & _).
  apply ReFacts.matches_Seq in H. destruct H as (? & ? & H1 & H).
  apply ReFacts.matches_plus_Cls in H1. destruct H1 as (-> & _).
  apply ReFacts.matches_Seq in H. destruct H as (? & ? & H1 & H).
  apply ReFacts.matches_lit_list in H1. destruct H1 as (-> & _).
  apply ReFacts.matches_Seq in H. destruct H as (? & ? & H1 & H).
  apply ReFacts.matches_plus_Cls in H1. destruct H1 as (-> & _).
  apply ReFacts.matches_Seq in H. destruct H as (? & ? & H1 & H).
  apply ReFacts.matches_Group in H1. destruct H1 as (? & H1 & ->).
  apply ReFacts.matches_Star_Cls in H1. destruct H1 as (-> & _).
  apply ReFacts.matches_Seq in H. destruct H as (? & ? & H1 & H).
  apply ReFacts.matches_plus_Cls in H1. destruct H1 as (-> & _).
  apply ReFacts.matches_Seq in H. destruct H as (? & ? & H1 & H).
  apply ReFacts.matches_lit_list in H1. destruct H1 as (-> & _).
  apply ReFacts.matches_Seq in H. destruct H as (? & ? & H1 & H).
  apply ReFacts.matches_plus_Cls in H1. destruct H1 as (-> & _).
  apply ReFacts.matches_Seq in H. destruct H as (? & ? & H1 & H).
  apply ReFacts.matches_Group in H1. destruct H1 as (? & H1 & ->).
  apply ReFacts.matches_Star_Cls in H1. destruct H1 as (-> & _).
  apply ReFacts.matches_Seq in H. destruct H as (? & ? & H1 & H).
  apply ReFacts.matches_plus_Cls in H1. destruct H1 as (-> & _).
  apply ReFacts.matches_Seq in H. destruct H as (? & ? & H1 & H).
  apply ReFacts.matches_lit_list in H1. destruct H1 as (-> & _).
  apply ReFacts.matches_Seq in H. destruct H as (? & ? & H1 & H).
  apply ReFacts.matches_plus_Cls in H1. destruct H1 as (-> & _).
  apply ReFacts.matches_Seq in H. destruct H as (? & ? & H1 & H).
  apply ReFacts.matches_Group in H1. destruct H1 as (? & H1 & ->).
  apply ReFacts.matches_Star_Cls in H1. destruct H1 as (-> & _).
  apply ReFacts.matches_Seq in H. destruct H as (? & ? & H1 & H).
  apply ReFacts.matches_plus_Cls in H1. destruct H1 as (-> & _).
  apply ReFacts.matches_Seq in H. destruct H as (? & ? & H1 & H).
  apply ReFacts.matches_lit_list in H1. destruct H1 as (-> & _).
  apply ReFacts.matches_Seq in H. destruct H as (? & ? & H1 & H).
  apply ReFacts.matches_plus_Cls in H1. destruct H1 as (-> & _).
  apply ReFacts.matches_Group in H. destruct H as (? & H1 & ->).
  apply ReFacts.matches_Star_Cls in H1. destruct H1 as (-> & _).
  exists m. cbn [Re.group Nat.eqb]. f_equal.
  rewrite !app_comm_cons. apply firstn_app_exact.
Qed.

Lemma querydispinfo_lines_valid (lines : list string) :
  forall users users',
    rids_valid users ->
    querydispinfo_lines lines users = Ret (Some users') -> rids_valid users'.
Proof.
  induction lines as [|line lines IH]; intros users users' Hu; cbn [querydispinfo_lines].
  - now intros [= <-].
  - destruct (Re.search re_querydispinfo line) as [f|] eqn:Es; [|discriminate].
    destruct (PyInt.int16 (Re.group_str 1 f)) as [n|e] eqn:Ei; [|discriminate].
    destruct (PyInt.str n) as [rid|e] eqn:Er; [|discriminate].
    apply str_ret in Er. subst rid.
    apply IH. apply rids_valid_set; [|exact Hu].
    apply search_list_sound in Es. destruct Es as (p & s' & _ & Hm).
    apply querydispinfo_group_1 in Hm. destruct Hm as (m & Hg).
    eapply int16_nonneg; [|exact Ei].
    unfold Re.group_str. rewrite Hg. apply list_ascii_of_string_of_list_ascii.
Qed.

Section UsersRids.

Variable W : World.
Variable target : Target.
Variable creds : Credentials.

Lemma querydispinfo_listing_valid (r : Result) :
  EnumUsersRpc_enum_from_querydispinfo W target creds = Ret r ->
  retval r = VNone \/ exists users, retval r = VDict users /\ rids_valid users.
Proof.
  unfold EnumUsersRpc_enum_from_querydispinfo.
  destruct (is_none (retval (querydispinfo W target creds))) eqn:En.
  - intros [= <-]. left. now destruct (retval (querydispinfo W target creds)).
  - unfold users_of_querydispinfo.
    destruct (querydispinfo_lines _ []) as [[users'|]|e] eqn:El; try discriminate.
    + intros [= <-]. right. exists users'. split; [reflexivity|].
      eapply querydispinfo_lines_valid; [|exact El]. intros rid [].
    + intros [= <-]. now left.
Qed.

Lemma enumdomusers_listing_valid (r : Result) :
  EnumUsersRpc_enum_from_enumdomusers W target creds = Ret r ->
  retval r = VNone \/ exists users, retval r = VDict users /\ rids_valid users.
Proof.
  unfold EnumUsersRpc_enum_from_enumdomusers.
  destruct (is_none (retval (enumdomusers W target creds))) eqn:En.
  - intros [= <-]. left. now destruct (retval (enumdomusers W target creds)).
  - unfold users_of_enumdomusers.
    destruct (enumdomusers_lines _ []) as [[users'|]|e] eqn:El; try discriminate.
    + intros [= <-]. right. exists users'. split; [reflexivity|].
      assert (H : decimal_listing users').
      { eapply enumdomusers_lines_decimal; [|exact El].
        split; [constructor | intros rid v; discriminate]. }
      destruct H as [_ H]. intros rid Hin.
      destruct (Dict.get rid users') as [v|] eqn:Eg.
      * now destruct (H rid v Eg).
      * now apply DictFacts.get_None_not_in in Eg.
    + intros [= <-]. now left.
Qed.

Lemma merge_users_valid (qdi edu : value) (users : dict) :
  (qdi = VNone \/ exists u, qdi = VDict u /\ rids_valid u) ->
  (edu = VNone \/ exists u, edu = VDict u /\ rids_valid u) ->
  merge_users qdi edu = VDict users -> rids_valid users.
Proof.
  intros [->|(u1 & -> & H1)] [->|(u2 & -> & H2)]; unfold merge_users;
    cbn [is_none negb andb as_dict]; try discriminate.
  - now intros [= <-].
  - now intros [= <-].
  - intros [= <-] rid Hin.
    apply keys_update_cases in Hin. destruct Hin as [Hin|Hin]; [|now apply H1].
    apply keys_update_cases in Hin. destruct Hin as [[]|Hin]. now apply H2.
Qed.

Lemma details_keep_rids (module_name : string) (l : list string) :
  forall st rid,
    In rid (Dict.keys (fst (fold_left (user_details_step W target creds module_name) l st))) ->
    In rid (Dict.keys (fst st)) \/ In rid l.
Proof.
  induction l as [|x l IH]; intros st rid; cbn [fold_left]; [tauto|].
  intros H. destruct (IH _ _ H) as [H'|H']; [|right; now right].
  destruct st as [users output]. unfold user_details_step in H'.
  destruct (truthy (retval _)) in H'; cbn [fst] in H';
    apply keys_set_cases in H'; destruct H' as [->|H']; cbn [fst In]; tauto.
Qed.

(** On a host whose listings are what the code makes of the answers of
    [rpcclient], every RID of the users [EnumUsersRpc.run] returns, with
    details or without, is a number [valid_rid] accepts: the run never hands
    [get_details_from_rid] a RID it refuses. *)
Theorem users_run_rids_valid (detailed : bool) (users : dict) :
  listings_as_coded W target creds ->
  Dict.get "users" (EnumUsersRpc_run W target creds detailed) = Some (VDict users) ->
  rids_valid users.
Proof.
  intros [Hq He]. apply querydispinfo_listing_valid in Hq.
  apply enumdomusers_listing_valid in He.
  unfold EnumUsersRpc_run. cbv zeta.
  set (r1 := enum_from_querydispinfo W target creds) in *.
  set (r2 := enum_from_enumdomusers W target creds) in *.
  assert (Hany : forall qdi edu output,
             (qdi = VNone \/ exists u, qdi = VDict u /\ rids_valid u) ->
             (edu = VNone \/ exists u, edu = VDict u /\ rids_valid u) ->
             Dict.get "users"
               (let '(users0, output0) :=
                  if truthy (merge_users qdi edu) && detailed
                  then
                    let '(d, output1) :=
                      fold_left (user_details_step W target creds "enum_users_rpc")
                                (Dict.keys (as_dict (Some (merge_users qdi edu))))
                                (as_dict (Some (merge_users qdi edu)), output) in
                    (VDict d, output1)
                  else (merge_users qdi edu, output) in
                Dict.set "users" users0 output0)
             = Some (VDict users) ->
             rids_valid users).
  { intros qdi edu output Hqdi Hedu.
    pose proof (fun u => merge_users_valid qdi edu u Hqdi Hedu) as Hm.
    set (m := merge_users qdi edu) in *.
    destruct (truthy m && detailed).
    - pose proof (details_keep_rids "enum_users_rpc" (Dict.keys (as_dict (Some m)))
                    (as_dict (Some m), output)) as Hk.
      destruct (fold_left _ _ _) as [d output1].
      rewrite DictFacts.get_set_same. intros [= <-] rid Hin. cbn [fst] in Hk.
      assert (Hin' : In rid (Dict.keys (as_dict (Some m))))
        by (destruct (Hk rid Hin); assumption).
      destruct m as [| | | | |u]; try (now destruct Hin'). now apply (Hm u).
    - rewrite DictFacts.get_set_same. intros [= Em]. now apply Hm. }
  destruct (is_none (retval r1)); destruct (is_none (retval r2));
    apply Hany; auto.
Qed.

End UsersRids.

Lemma users_run_rids_valid_witness :
  rids_valid
    [("500", VDict [("username", VStr "Administrator"); ("name", VStr "");
                    ("acb", VStr "0x00000210"); ("description", VStr "Built-in account");
                    ("details", VStr "")]);
     ("1001", VDict [("username", VStr "tester"); ("details", VStr "")])].
Proof.
  apply (users_run_rids_valid two_users_world sample_target sample_creds true).
  - split; vm_compute; reflexivity.
  - vm_compute. reflexivity.
Defined.

(** ** OS information *)

Lemma os_fields_ok_set (k v : string) (os_info : list (string * string)) :
  In k ["server_type_string"; "platform_id"; "os_version"; "server_type"] ->
  os_fields_ok os_info -> os_fields_ok (Dict.set k v os_info).
Proof.
  intros Hk [Hnd Hin]. split; [now apply DictFacts.NoDup_keys_set|].
  intros k' H. apply keys_set_cases in H. destruct H as [->|H]; auto.
Qed.

Lemma os_fields_ok_line (line : string) (os_info : list (string * string)) :
  os_fields_ok os_info -> os_fields_ok (EnumOsInfo.fields_of_line line os_info).
Proof.
  intros H. unfold EnumOsInfo.fields_of_line. cbn [fold_left].
  repeat match goal with
         | |- context [Re.search ?r line] => destruct (Re.search r line)
         end;
    repeat (apply os_fields_ok_set; [cbn; tauto|]); exact H.
Qed.

Lemma os_fields_ok_lines (lines : list string) :
  forall first os_info,
    os_fields_ok os_info -> os_fields_ok (EnumOsInfo.lines_loop lines first os_info).
Proof.
  induction lines as [|line lines IH]; intros first os_info H; cbn [EnumOsInfo.lines_loop];
    [exact H|].
  apply IH, os_fields_ok_line. destruct first; [|exact H].
  destruct (Re.search EnumOsInfo.re_first_line line); [|exact H].
  apply os_fields_ok_set; [cbn; tauto | exact H].
Qed.

Lemma has_plain {A B} (f : A -> B) (k : string) (d : list (string * A)) :
  Dict.has k (map (fun kv => (fst kv, f (snd kv))) d) = Dict.has k d.
Proof. unfold Dict.has. rewrite get_plain. now destruct (Dict.get k d). Qed.

Lemma keys_plain {A B} (f : A -> B) (d : list (string * A)) :
  Dict.keys (map (fun kv => (fst kv, f (snd kv))) d) = Dict.keys d.
Proof. unfold Dict.keys. rewrite map_map. reflexivity. Qed.

Lemma os_info_to_human_cases (os_info : list (string * string)) :
  let os := EnumOsInfo.os_info_to_human os_info in
  os = "unknown" \/ In os (map snd CONST_OS_VERSIONS)
  \/ exists distribution, os = "Linux/Unix (" ++ distribution ++ ")".
Proof.
  cbv zeta. unfold EnumOsInfo.os_info_to_human. cbv zeta.
  set (sts := match Dict.get "server_type_string" os_info with Some v => v | None => "" end).
  set (ver := match Dict.get "os_version" os_info with Some v => v | None => "" end).
  assert (Htable : match Dict.get ver CONST_OS_VERSIONS with
                   | Some os => os
                   | None => "unknown"
                   end = "unknown"
                   \/ In match Dict.get ver CONST_OS_VERSIONS with
                         | Some os => os
                         | None => "unknown"
                         end (map snd CONST_OS_VERSIONS)).
  { generalize CONST_OS_VERSIONS as table. induction table as [|[k v] table IH];
      cbn [Dict.get map snd In]; [now left|].
    destruct (String.eqb k ver); [right; now left|]. destruct IH; auto. }
  destruct (PyStr.contains "4.9" ver && PyStr.contains "Samba" sts).
  - destruct (Re.search EnumOsInfo.re_parentheses sts) as [m|]; [right; right; eauto|].
    destruct Htable; auto.
  - destruct Htable; auto.
Qed.

Lemma get_os_info_shaped (srvinfo_result : string) :
  retval (EnumOsInfo.get_os_info srvinfo_result) = VNone
  \/ exists d, retval (EnumOsInfo.get_os_info srvinfo_result) = VDict d /\ os_info_shaped d.
Proof.
  unfold EnumOsInfo.get_os_info. cbv zeta.
  pose proof (os_fields_ok_lines (PyText.splitlines srvinfo_result) true []
                (conj (NoDup_nil _) (fun k (H : In k []) => match H with end)))
    as [Hnd Hkeys].
  set (os_info := EnumOsInfo.lines_loop (PyText.splitlines srvinfo_result) true []) in *.
  destruct os_info as [|kv os_info'] eqn:E; [now left|]. rewrite <- E in *.
  assert (Hne : os_info <> []) by (rewrite E; discriminate). clear E kv os_info'.
  right. eexists. cbn [retval]. split; [reflexivity|].
  assert (Hos : Dict.has "os" os_info = false).
  { unfold Dict.has. destruct (Dict.get "os" os_info) eqn:Eg; [|reflexivity].
    assert (Hin : In "os" (Dict.keys os_info)).
    { destruct (in_dec string_dec "os" (Dict.keys os_info)) as [H|H]; [exact H|].
      apply DictFacts.get_None_not_in in H. congruence. }
    apply Hkeys in Hin. cbn in Hin. intuition discriminate. }
  unfold os_info_shaped.
  destruct (Dict.has "os_version" os_info && Dict.has "server_type_string" os_info) eqn:Eb.
  - split; [|split; [|split; [|split]]].
    + destruct os_info as [|[k v] t]; [congruence|]. cbn [Dict.set].
      destruct (String.eqb k "os"); discriminate.
    + rewrite keys_plain. now apply DictFacts.NoDup_keys_set.
    + intros k v. rewrite get_plain.
      destruct (Dict.get k (Dict.set "os" _ os_info)) as [s|] eqn:Eg; [|discriminate].
      intros [= <-]. split; [|eauto].
      assert (Hin : In k (Dict.keys (Dict.set "os" (EnumOsInfo.os_info_to_human os_info)
                                              os_info))).
      { destruct (in_dec string_dec k (Dict.keys (Dict.set "os"
                    (EnumOsInfo.os_info_to_human os_info) os_info))) as [H|H]; [exact H|].
        apply DictFacts.get_None_not_in in H. congruence. }
      apply keys_set_cases in Hin. destruct Hin as [->|Hin]; [cbn; tauto|].
      apply Hkeys in Hin. cbn in Hin |- *. tauto.
    + rewrite !has_plain. unfold Dict.has at 1. rewrite DictFacts.get_set_same.
      unfold Dict.has. rewrite !DictFacts.get_set_other by discriminate.
      symmetry. exact Eb.
    + intros os. rewrite get_plain, DictFacts.get_set_same. cbn [option_map].
      intros [= <-]. apply os_info_to_human_cases.
  - split; [|split; [|split; [|split]]].
    + destruct os_info; [congruence | discriminate].
    + now rewrite keys_plain.
    + intros k v. rewrite get_plain.
      destruct (Dict.get k os_info) as [s|] eqn:Eg; [|discriminate].
      intros [= <-]. split; [|eauto].
      assert (Hin : In k (Dict.keys os_info)).
      { destruct (in_dec string_dec k (Dict.keys os_info)) as [H|H]; [exact H|].
        apply DictFacts.get_None_not_in in H. congruence. }
      apply Hkeys in Hin. cbn in Hin |- *. tauto.
    + rewrite !has_plain, Hos. symmetry. exact Eb.
    + intros os. rewrite get_plain. unfold Dict.has in Hos.
      destruct (Dict.get "os" os_info); discriminate.
Qed.

(** The output of [EnumOsInfo.run]: [os_info] holds the fields found, with
    no error of the module recorded, or [None] with an error recorded (for
    an answer that is empty, the empty message).  The fields found are
    texts under the names [get_os_info] reads and [os], none twice, not
    empty; [os] is there exactly when the version and the server type
    string are, and is then an entry of [CONST_OS_VERSIONS], "unknown", or
    "Linux/Unix (..)". *)
Theorem os_info_found_or_reported (W : World) (target : Target) (creds : Credentials) :
  found_or_reported "enum_os_info" "os_info" (EnumOsInfo.run W target creds)
  /\ (Dict.get "os_info" (EnumOsInfo.run W target creds) = Some VNone
      \/ exists d, Dict.get "os_info" (EnumOsInfo.run W target creds) = Some (VDict d)
                   /\ os_info_shaped d).
Proof.
  unfold EnumOsInfo.run. cbv zeta.
  set (srvinfo := EnumOsInfo.srvinfo W target creds).
  destruct (truthy (retval srvinfo)) eqn:Es.
  - set (osinfo := EnumOsInfo.get_os_info (str_of (retval srvinfo))).
    split.
    + apply found_or_reported_step; [discriminate | reflexivity | reflexivity].
    + destruct (get_os_info_shaped (str_of (retval srvinfo))) as [Hn|(d & Hd & Hshape)];
        fold osinfo in Hn || fold osinfo in Hd.
      * rewrite Hn. cbn [truthy]. left. now rewrite get_process_error by discriminate.
      * rewrite Hd. destruct Hshape as (Hne & Hrest).
        assert (Ht : truthy (VDict d) = true) by (destruct d; [congruence | reflexivity]).
        rewrite Ht. right. exists d. split; [reflexivity|]. now split.
  - split.
    + unfold found_or_reported. rewrite get_process_error by discriminate.
      cbn [Dict.get String.eqb]. apply messages_one. now left.
    + left. now rewrite get_process_error by discriminate.
Qed.
